(** * Mumbai railway simulation: the simulation core of [MumbaiRailway.tsx]

    A shallow embedding of the state-carrying functions of the React
    component [MumbaiRailway] (react-app/src/components/MumbaiRailway.tsx):
    [initializeTrains], [updateTrainPositions], [addAiDecisionLog],
    [addDisruptionFactor] and [performQuickAction], with the station table
    they read.

    Conventions of the embedding.
    - A JavaScript [number] is an exact rational ([Q]); integer-valued
      results of [Math.floor], array lengths and array indices are [Z],
      injected into [Q] where they meet other numbers.
      Rounding of IEEE doubles is not modelled.
    - [Math.random()] and [Date.now()] read from a [World] that is threaded
      through the effectful functions by the monad [M].  Reading a property
      of [undefined] (an array access out of range followed by [.lat],
      [.name], ...) throws a [TypeError]: the computation yields [None].
    - A functional React updater [setX(prev => e)] is the state transformer
      [fun prev => e]; [updateTrainPositions] takes the factor levels its
      closure captured as an argument.
    - A [Date] is its time value in milliseconds; the locale-dependent
      [toLocaleTimeString] is a rendering function carried by the world. *)

From Stdlib Require Import ZArith QArith Qround Qminmax List String Ascii Bool.
From Stdlib Require Import Lia Lqa DecimalString.
From Stdlib Require Import Permutation Sorted.
Import ListNotations.

Local Open Scope Q_scope.

(** ** JavaScript primitives *)

Module Js.

(** [Math.floor] *)
Definition floor (x : Q) : Z := Qfloor x.

(** [Math.trunc], the rounding used by [%] and by the [Date] constructor *)
Definition trunc (x : Q) : Z :=
  if Qle_bool 0 x then Qfloor x else Qceiling x.

(** [a % b] on numbers: the remainder has the sign of the dividend *)
Definition rem (a b : Q) : Q := a - b * inject_Z (trunc (a / b)).

(** [a > b] and [a >= b] *)
Definition gt (a b : Q) : bool := negb (Qle_bool a b).
Definition ge (a b : Q) : bool := Qle_bool b a.

(** [arr[i]]: [None] stands for [undefined] *)
Definition at_ {A : Type} (arr : list A) (i : Z) : option A :=
  if (i <? 0)%Z then None else nth_error arr (Z.to_nat i).

(** [arr.length] *)
Definition length {A : Type} (arr : list A) : Z := Z.of_nat (List.length arr).

(** [arr.findIndex(p)]: the first index whose element satisfies [p],
    [-1] when there is none *)
Fixpoint findIndexFrom {A : Type} (p : A -> bool) (arr : list A) (k : Z) : Z :=
  match arr with
  | [] => (-1)%Z
  | x :: rest => if p x then k else findIndexFrom p rest (k + 1)%Z
  end.

Definition findIndex {A : Type} (p : A -> bool) (arr : list A) : Z :=
  findIndexFrom p arr 0%Z.

(** [arr.slice(0, n)] *)
Definition slice0 {A : Type} (n : nat) (arr : list A) : list A := firstn n arr.

(** [String(n)] for an integer [n] *)
Definition String_ (n : Z) : string := NilZero.string_of_int (Z.to_int n).

(** [s.padStart(n, c)] for a one-character pad [c] *)
Fixpoint replicate (n : nat) (c : ascii) : string :=
  match n with
  | O => EmptyString
  | S k => String c (replicate k c)
  end.

Definition padStart (n : nat) (c : ascii) (s : string) : string :=
  (replicate (n - String.length s) c ++ s)%string.

(** [s.charAt(0)] *)
Definition charAt0 (s : string) : string :=
  match s with
  | EmptyString => EmptyString
  | String c _ => String c EmptyString
  end.

(** [s.toUpperCase()] on the ASCII letters *)
Definition upper (c : ascii) : ascii :=
  let n := nat_of_ascii c in
  if (Nat.leb 97 n && Nat.leb n 122)%bool then ascii_of_nat (n - 32) else c.

Fixpoint toUpperCase (s : string) : string :=
  match s with
  | EmptyString => EmptyString
  | String c rest => String (upper c) (toUpperCase rest)
  end.

End Js.

(** ** The ambient world: the random source and the clock *)

Record World := {
  randoms : nat -> Q;   (* the successive results of [Math.random()] *)
  drawn   : nat;        (* how many of them have been consumed *)
  clock   : nat -> Z;   (* the successive readings of the clock, in ms *)
  looked  : nat;        (* how many of them have been consumed *)
  localeTime : Z -> string  (* the host's [toLocaleTimeString] rendering *)
}.

(** A computation that may draw random numbers, read the clock, or throw. *)
Definition M (A : Type) : Type := World -> option (A * World).

Definition ret {A : Type} (a : A) : M A := fun w => Some (a, w).

Definition bind {A B : Type} (m : M A) (k : A -> M B) : M B :=
  fun w => match m w with
           | Some (a, w') => k a w'
           | None => None
           end.

Notation "'let*' x := m 'in' k" := (bind m (fun x => k))
  (at level 10, x name, m at level 100, k at level 200).

(** The world after one more random draw, and after one more look at the
    clock *)
Definition afterDraw (w : World) : World := {|
  randoms := randoms w;
  drawn := S (drawn w);
  clock := clock w;
  looked := looked w;
  localeTime := localeTime w
|}.

Definition afterLook (w : World) : World := {|
  randoms := randoms w;
  drawn := drawn w;
  clock := clock w;
  looked := S (looked w);
  localeTime := localeTime w
|}.

(** [Math.random()] *)
Definition Math_random : M Q :=
  fun w => Some (randoms w (drawn w), afterDraw w).

(** [Date.now()] *)
Definition Date_now : M Z :=
  fun w => Some (clock w (looked w), afterLook w).

(** [new Date().toLocaleTimeString()] *)
Definition Date_toLocaleTimeString : M string :=
  let* now := Date_now in
  fun w => Some (localeTime w now, w).

(** Use of a possibly-[undefined] value as an object *)
Definition defined {A : Type} (o : option A) : M A :=
  fun w => match o with
           | Some a => Some (a, w)
           | None => None
           end.

(** [arr.map(f)] with an effectful callback, left to right *)
Fixpoint mapM {A B : Type} (f : A -> M B) (arr : list A) : M (list B) :=
  match arr with
  | [] => ret []
  | x :: rest =>
      let* y := f x in
      let* ys := mapM f rest in
      ret (y :: ys)
  end.

(** The random source yields numbers of [0, 1). *)
Definition fair (w : World) : Prop :=
  forall n, 0 <= randoms w n /\ randoms w n < 1.

(** ** Data model *)

Inductive Line := Western | CentralMain | TransHarbour.

Definition lineName (l : Line) : string :=
  match l with
  | Western => "Western"
  | CentralMain => "Central Main"
  | TransHarbour => "Trans-Harbour"
  end.

Inductive Status := Running | Delayed | OnTime | Cancelled | Critical.

Inductive Direction := UP | DOWN.

Module Station.
Record t := make {
  name : string;
  lat  : Q;
  lon  : Q;
  line : string;
  type : string
}.
End Station.

Module Train.
Record t := make {
  id : string;
  name : string;
  status : Status;
  route : string;
  line : Line;
  current : string;
  next : string;
  currentStation : string;
  nextStation : string;
  estimatedTime : string;
  eta : Z;                 (* a [Date], as its time value in ms *)
  delay : Q;
  passengers : Q;
  speed : Q;
  currentSpeed : Q;
  lat : Q;
  lon : Q;
  positionInSegment : Q;
  startStation : string;
  direction : Direction;
  startTime : Z;           (* a [Date], as its time value in ms *)
  distanceToNext : Q
}.
End Train.

Record DisruptionFactors := {
  rushHour : Q;
  weather : Q;
  junctionCongestion : Q;
  equipmentReliability : Q;
  festivalCrowds : Q;
  platformStrain : Q;
  staffEfficiency : Q;
  externalDelays : Q
}.

(** [keyof DisruptionFactors] *)
Inductive FactorKey :=
| KRushHour | KWeather | KJunctionCongestion | KEquipmentReliability
| KFestivalCrowds | KPlatformStrain | KStaffEfficiency | KExternalDelays.

(** ** The station table *)

Definition st (name : string) (lat lon : Q) (line type : string) : Station.t :=
  Station.make name lat lon line type.

Definition stationData : list Station.t := [
  (* Western Line *)
  st "Churchgate" 18.9322 72.8264 "Western" "Terminus";
  st "Marine Lines" 18.9434 72.8234 "Western" "Regular";
  st "Charni Road" 18.9515 72.8193 "Western" "Regular";
  st "Grant Road" 18.9659 72.8153 "Western" "Regular";
  st "Mumbai Central" 18.9693 72.8209 "Western" "Junction";
  st "Mahalaxmi" 18.9827 72.8269 "Western" "Regular";
  st "Lower Parel" 18.9961 72.8313 "Western" "Regular";
  st "Elphinstone Road" 19.0077 72.8311 "Western" "Junction";
  st "Dadar" 19.0176 72.8562 "Western" "Major Junction";
  st "Bandra" 19.0544 72.8407 "Western" "Major";
  st "Khar Road" 19.0728 72.8377 "Western" "Regular";
  st "Santacruz" 19.0815 72.8404 "Western" "Regular";
  st "Vile Parle" 19.0989 72.8472 "Western" "Regular";
  st "Andheri" 19.1197 72.8462 "Western" "Major";
  st "Jogeshwari" 19.1344 72.8514 "Western" "Regular";
  st "Ram Mandir" 19.1415 72.8400 "Western" "Regular";
  st "Goregaon" 19.1540 72.8503 "Western" "Regular";
  st "Malad" 19.1875 72.8482 "Western" "Regular";
  st "Kandivali" 19.2084 72.8527 "Western" "Regular";
  st "Borivali" 19.2307 72.8567 "Western" "Major";
  st "Dahisar" 19.2544 72.8610 "Western" "Regular";
  st "Mira Road" 19.2952 72.8739 "Western" "Regular";
  st "Bhayandar" 19.3017 72.8517 "Western" "Regular";
  st "Naigaon" 19.3589 72.8644 "Western" "Regular";
  st "Vasai Road" 19.3919 72.8397 "Western" "Junction";
  st "Nallasopara" 19.4170 72.8119 "Western" "Regular";
  st "Virar" 19.4559 72.8081 "Western" "Terminus";
  (* Central Line (Main) *)
  st "CST" 18.9398 72.8355 "Central Main" "Terminus";
  st "Masjid" 18.9472 72.8317 "Central Main" "Regular";
  st "Sandhurst Road" 18.9566 72.8415 "Central Main" "Regular";
  st "Dockyard Road" 18.9671 72.8453 "Central Main" "Regular";
  st "Reay Road" 18.9743 72.8467 "Central Main" "Regular";
  st "Cotton Green" 18.9885 72.8511 "Central Main" "Regular";
  st "Sewri" 18.9968 72.8566 "Central Main" "Regular";
  st "Wadala Road" 19.0144 72.8577 "Central Main" "Regular";
  st "Kings Circle" 19.0269 72.8590 "Central Main" "Regular";
  st "Mahim" 19.0441 72.8397 "Central Main" "Junction";
  st "Bandra Central" 19.0544 72.8407 "Central Main" "Major";
  st "Khar Road Central" 19.0728 72.8377 "Central Main" "Regular";
  st "Kurla" 19.0653 72.8789 "Central Main" "Major Junction";
  st "Vidyavihar" 19.0825 72.8970 "Central Main" "Regular";
  st "Ghatkopar" 19.0864 72.9081 "Central Main" "Major";
  st "Vikhroli" 19.1056 72.9259 "Central Main" "Regular";
  st "Kanjurmarg" 19.1289 72.9378 "Central Main" "Regular";
  st "Bhandup" 19.1444 72.9378 "Central Main" "Regular";
  st "Nahur" 19.1547 72.9556 "Central Main" "Regular";
  st "Mulund" 19.1722 72.9561 "Central Main" "Regular";
  st "Thane" 19.1972 72.9828 "Central Main" "Major";
  st "Kalwa" 19.2192 73.0000 "Central Main" "Regular";
  st "Mumbra" 19.2194 73.0342 "Central Main" "Regular";
  st "Diva" 19.2542 73.0239 "Central Main" "Junction";
  st "Kopar" 19.2692 73.0539 "Central Main" "Regular";
  st "Dombivli" 19.2164 73.0864 "Central Main" "Major";
  st "Thakurli" 19.1972 73.1122 "Central Main" "Regular";
  st "Kalyan" 19.2437 73.1355 "Central Main" "Major Junction";
  (* Trans-Harbour Line *)
  st "Thane Trans" 19.1972 72.9828 "Trans-Harbour" "Junction";
  st "Airoli" 19.1586 72.9972 "Trans-Harbour" "Regular";
  st "Ghansoli" 19.1197 73.0142 "Trans-Harbour" "Regular";
  st "Rabale" 19.1289 73.0203 "Trans-Harbour" "Regular";
  st "Belapur CBD" 19.0378 73.0158 "Trans-Harbour" "Major";
  st "Kharghar" 19.0447 73.0669 "Trans-Harbour" "Regular";
  st "Mansarovar" 19.0331 73.0708 "Trans-Harbour" "Regular";
  st "Khandeshwar" 19.0275 73.0847 "Trans-Harbour" "Regular";
  st "Panvel" 18.9894 73.1169 "Trans-Harbour" "Terminus";
  st "Nerul" 19.0328 73.0158 "Trans-Harbour" "Regular";
  st "Juinagar" 19.0447 73.0067 "Trans-Harbour" "Regular"
].

(** [stationData.filter(s => s.line === line)] *)
Definition stationsOfLine (line : Line) : list Station.t :=
  filter (fun s => String.eqb (Station.line s) (lineName line)) stationData.

(** ** Component state *)

Definition initialAiDecisionLog : list string := [
  "[SYSTEM] AI Optimization Suite Initialized";
  "[READY] Awaiting activation command..."
]%string.

Definition initialDisruptionFactors : DisruptionFactors := {|
  rushHour := 0;
  weather := 0;
  junctionCongestion := 0;
  equipmentReliability := 0;
  festivalCrowds := 0;
  platformStrain := 0;
  staffEfficiency := 0;
  externalDelays := 0
|}.

Record State := {
  trains : list Train.t;
  disruptionFactors : DisruptionFactors;
  aiDecisionLog : list string
}.

Definition initialState : State := {|
  trains := [];
  disruptionFactors := initialDisruptionFactors;
  aiDecisionLog := initialAiDecisionLog
|}.

(** [{ ...train, delay: d }] and [{ ...train, status: s }] *)
Definition withDelay (d : Q) (train : Train.t) : Train.t := {|
  Train.id := Train.id train;
  Train.name := Train.name train;
  Train.status := Train.status train;
  Train.route := Train.route train;
  Train.line := Train.line train;
  Train.current := Train.current train;
  Train.next := Train.next train;
  Train.currentStation := Train.currentStation train;
  Train.nextStation := Train.nextStation train;
  Train.estimatedTime := Train.estimatedTime train;
  Train.eta := Train.eta train;
  Train.delay := d;
  Train.passengers := Train.passengers train;
  Train.speed := Train.speed train;
  Train.currentSpeed := Train.currentSpeed train;
  Train.lat := Train.lat train;
  Train.lon := Train.lon train;
  Train.positionInSegment := Train.positionInSegment train;
  Train.startStation := Train.startStation train;
  Train.direction := Train.direction train;
  Train.startTime := Train.startTime train;
  Train.distanceToNext := Train.distanceToNext train
|}.

Definition withStatus (s : Status) (train : Train.t) : Train.t := {|
  Train.id := Train.id train;
  Train.name := Train.name train;
  Train.status := s;
  Train.route := Train.route train;
  Train.line := Train.line train;
  Train.current := Train.current train;
  Train.next := Train.next train;
  Train.currentStation := Train.currentStation train;
  Train.nextStation := Train.nextStation train;
  Train.estimatedTime := Train.estimatedTime train;
  Train.eta := Train.eta train;
  Train.delay := Train.delay train;
  Train.passengers := Train.passengers train;
  Train.speed := Train.speed train;
  Train.currentSpeed := Train.currentSpeed train;
  Train.lat := Train.lat train;
  Train.lon := Train.lon train;
  Train.positionInSegment := Train.positionInSegment train;
  Train.startStation := Train.startStation train;
  Train.direction := Train.direction train;
  Train.startTime := Train.startTime train;
  Train.distanceToNext := Train.distanceToNext train
|}.

(** ** [initializeTrains] *)

Definition lines : list Line := [Western; CentralMain; TransHarbour].

(** [line === 'Western' ? 15 : line === 'Central Main' ? 15 : 10] *)
Definition trainCountOf (line : Line) : nat :=
  match line with
  | Western => 15
  | CentralMain => 15
  | TransHarbour => 10
  end.

(** [baseDelay > 2 ? 'Delayed' : baseDelay > 5 ? 'Critical' : 'On Time'] *)
Definition initialStatus (baseDelay : Q) : Status :=
  if Js.gt baseDelay 2 then Delayed
  else if Js.gt baseDelay 5 then Critical
  else OnTime.

(** The body of the [for] loop, for train number [i] of [line].  The
    station objects are taken with [defined] where the source binds them;
    the source throws a little later, at the first property read. *)
Definition initTrain (line : Line) (lineIndex : Z) (lineStations : list Station.t)
    (i : Z) (initialTrains : list Train.t) : M (list Train.t) :=
  let trainId :=
    (Js.charAt0 (lineName line) ++ Js.padStart 3 "0" (Js.String_ (i + 1)))%string in
  let direction := if (Z.rem i 2 =? 0)%Z then UP else DOWN in
  if (Js.length lineStations >=? 2)%Z then
    let* now := Date_now in
    let progress :=
      Js.rem (inject_Z now / 60000 + inject_Z lineIndex * 20 + inject_Z i * 15) 60
      / 60 in
    let stationProgress := progress * inject_Z (Js.length lineStations - 1) in
    let currentIndex := Js.floor stationProgress in
    let nextIndex := Z.min (currentIndex + 1) (Js.length lineStations - 1) in
    let* current := defined (Js.at_ lineStations currentIndex) in
    let* next := defined (Js.at_ lineStations nextIndex) in
    let positionInSegment := stationProgress - inject_Z currentIndex in
    let lat := Station.lat current
               + (Station.lat next - Station.lat current) * positionInSegment in
    let lon := Station.lon current
               + (Station.lon next - Station.lon current) * positionInSegment in
    let* r := Math_random in
    let basePassengers := inject_Z (Js.floor (r * 600 + 200)) in
    let* r := Math_random in
    let baseDelay := r * 3 in
    let* first := defined (Js.at_ lineStations 0) in
    let* last := defined (Js.at_ lineStations (Js.length lineStations - 1)) in
    let* rMins := Math_random in
    let* etaNow := Date_now in
    let* rEta := Math_random in
    let* rSpeed := Math_random in
    let* rCurrentSpeed := Math_random in
    let* startNow := Date_now in
    let* rStart := Math_random in
    let* rDistance := Math_random in
    let train := {|
      Train.id := trainId;
      Train.name := (lineName line ++ " Local")%string;
      Train.status := initialStatus baseDelay;
      Train.route := (Station.name first ++ " - " ++ Station.name last)%string;
      Train.line := line;
      Train.current := Station.name current;
      Train.next := Station.name next;
      Train.currentStation := Station.name current;
      Train.nextStation := Station.name next;
      Train.estimatedTime :=
        (Js.String_ (Js.floor (rMins * 8) + 2) ++ " mins")%string;
      Train.eta := Js.trunc (inject_Z etaNow + (rEta * 8 + 3) * 60000);
      Train.delay := baseDelay;
      Train.passengers := basePassengers;
      Train.speed := 45 + rSpeed * 20;
      Train.currentSpeed := 45 + rCurrentSpeed * 20;
      Train.lat := lat;
      Train.lon := lon;
      Train.positionInSegment := positionInSegment;
      Train.startStation := Station.name first;
      Train.direction := direction;
      Train.startTime := Js.trunc (inject_Z startNow - rStart * 3600000);
      Train.distanceToNext := rDistance * 2 + 0.5
    |} in
    ret (initialTrains ++ [train])
  else ret initialTrains.

(** [for (let i = 0; i < trainCount; i++) body], with [count] iterations
    left and the loop variable at [i] *)
Fixpoint forLoop (count : nat) (i : Z)
    (body : Z -> list Train.t -> M (list Train.t))
    (initialTrains : list Train.t) : M (list Train.t) :=
  match count with
  | O => ret initialTrains
  | S rest =>
      let* initialTrains := body i initialTrains in
      forLoop rest (i + 1)%Z body initialTrains
  end.

(** The callback of [lines.forEach((line, lineIndex) => ...)] *)
Definition initLine (line : Line) (lineIndex : Z)
    (initialTrains : list Train.t) : M (list Train.t) :=
  let lineStations := stationsOfLine line in
  let trainCount := trainCountOf line in
  forLoop trainCount 0 (initTrain line lineIndex lineStations) initialTrains.

Fixpoint forEachLine (ls : list Line) (lineIndex : Z)
    (initialTrains : list Train.t) : M (list Train.t) :=
  match ls with
  | [] => ret initialTrains
  | line :: rest =>
      let* initialTrains := initLine line lineIndex initialTrains in
      forEachLine rest (lineIndex + 1)%Z initialTrains
  end.

Definition initializeTrains : M (list Train.t) := forEachLine lines 0 [].

(** ** [updateTrainPositions] *)

(** The multiplier accumulated from the four factors the tick reads *)
Definition delayMultiplier (disruptionFactors : DisruptionFactors) : Q :=
  let delayMultiplier := 1.0 in
  let delayMultiplier := delayMultiplier + rushHour disruptionFactors * 0.5 in
  let delayMultiplier := delayMultiplier + weather disruptionFactors * 0.3 in
  let delayMultiplier :=
    delayMultiplier + junctionCongestion disruptionFactors * 0.4 in
  let delayMultiplier :=
    delayMultiplier + equipmentReliability disruptionFactors * 0.6 in
  delayMultiplier.

(** [newDelay > 5 ? 'Critical' : newDelay > 2 ? 'Delayed' : 'On Time'] *)
Definition statusOfDelay (newDelay : Q) : Status :=
  if Js.gt newDelay 5 then Critical
  else if Js.gt newDelay 2 then Delayed
  else OnTime.

(** The position update: the new segment position and the indices of the
    current and the next station, from the old position and the index
    found for [train.current] *)
Definition advance (lineStations : list Station.t) (positionInSegment : Q)
    (foundIndex : Z) : Q * Z * Z :=
  let newPositionInSegment := positionInSegment + 0.05 in
  let currentIndex := foundIndex in
  let nextIndex := (currentIndex + 1)%Z in
  if Js.ge newPositionInSegment 1.0 then
    let newPositionInSegment := 0 in
    let currentIndex := nextIndex in
    let nextIndex := Z.min (currentIndex + 1) (Js.length lineStations - 1) in
    if (currentIndex >=? Js.length lineStations - 1)%Z
    then (newPositionInSegment, 0%Z, 1%Z)
    else (newPositionInSegment, currentIndex, nextIndex)
  else (newPositionInSegment, currentIndex, nextIndex).

(** The last valid index of a line's station list *)
Abbreviation lastIndexOf line := (Js.length (stationsOfLine line) - 1)%Z.

(** The indices, in the train's line, of the stations it names as current
    and as next; the first is the tick's
    [lineStations.findIndex(s => s.name === train.current)]. *)
Abbreviation currentIndexOf train :=
  (Js.findIndex (fun s => String.eqb (Station.name s) (Train.current train))
                (stationsOfLine (Train.line train))).

Abbreviation nextIndexOf train :=
  (Js.findIndex (fun s => String.eqb (Station.name s) (Train.next train))
                (stationsOfLine (Train.line train))).

(** The callback of [prevTrains.map(train => ...)] *)
Definition updateTrain (disruptionFactors : DisruptionFactors)
    (train : Train.t) : M Train.t :=
  let lineStations := stationsOfLine (Train.line train) in
  if (Js.length lineStations <? 2)%Z then ret train
  else
    let foundIndex :=
      Js.findIndex
        (fun s => String.eqb (Station.name s) (Train.current train))
        lineStations in
    let '(newPositionInSegment, currentIndex, nextIndex) :=
      advance lineStations (Train.positionInSegment train) foundIndex in
    let* current := defined (Js.at_ lineStations currentIndex) in
    let* next := defined (Js.at_ lineStations nextIndex) in
    let lat := Station.lat current
               + (Station.lat next - Station.lat current) * newPositionInSegment in
    let lon := Station.lon current
               + (Station.lon next - Station.lon current) * newPositionInSegment in
    let* rDelay := Math_random in
    let newDelay :=
      Train.delay train + (rDelay * 0.5 * delayMultiplier disruptionFactors) in
    let* rMins := Math_random in
    let* rPassengers := Math_random in
    let* etaNow := Date_now in
    let* rEta := Math_random in
    ret {|
      Train.id := Train.id train;
      Train.name := Train.name train;
      Train.status := statusOfDelay newDelay;
      Train.route := Train.route train;
      Train.line := Train.line train;
      Train.current := Station.name current;
      Train.next := Station.name next;
      Train.currentStation := Station.name current;
      Train.nextStation := Station.name next;
      Train.estimatedTime :=
        (Js.String_ (Js.floor (rMins * 8) + 2) ++ " mins")%string;
      Train.eta := Js.trunc (inject_Z etaNow + (rEta * 8 + 3) * 60000);
      Train.delay := newDelay;
      Train.passengers :=
        Qmin (Train.passengers train
              + inject_Z (Js.floor (rPassengers * 50 - 20))) 2000;
      Train.speed := Train.speed train;
      Train.currentSpeed := Train.currentSpeed train;
      Train.lat := lat;
      Train.lon := lon;
      Train.positionInSegment := newPositionInSegment;
      Train.startStation := Train.startStation train;
      Train.direction := Train.direction train;
      Train.startTime := Train.startTime train;
      Train.distanceToNext := Train.distanceToNext train
    |}.

(** The updater passed to [setTrains]; [disruptionFactors] is the value the
    closure captured. *)
Definition updateTrainPositions (disruptionFactors : DisruptionFactors)
    (prevTrains : list Train.t) : M (list Train.t) :=
  mapM (updateTrain disruptionFactors) prevTrains.

(** ** [addAiDecisionLog] *)

Definition addAiDecisionLog (message : string) (prev : list string)
    : M (list string) :=
  let* timestamp := Date_toLocaleTimeString in
  ret (("[" ++ timestamp ++ "] " ++ message)%string :: Js.slice0 9 prev).

(** ** [addDisruptionFactor] *)

(** [prev[factor]] *)
Definition getFactor (factor : FactorKey) (prev : DisruptionFactors) : Q :=
  match factor with
  | KRushHour => rushHour prev
  | KWeather => weather prev
  | KJunctionCongestion => junctionCongestion prev
  | KEquipmentReliability => equipmentReliability prev
  | KFestivalCrowds => festivalCrowds prev
  | KPlatformStrain => platformStrain prev
  | KStaffEfficiency => staffEfficiency prev
  | KExternalDelays => externalDelays prev
  end.

(** [{ ...prev, [factor]: v }] *)
Definition setFactor (factor : FactorKey) (v : Q) (prev : DisruptionFactors)
    : DisruptionFactors :=
  let pick k := match factor, k with
                | KRushHour, KRushHour
                | KWeather, KWeather
                | KJunctionCongestion, KJunctionCongestion
                | KEquipmentReliability, KEquipmentReliability
                | KFestivalCrowds, KFestivalCrowds
                | KPlatformStrain, KPlatformStrain
                | KStaffEfficiency, KStaffEfficiency
                | KExternalDelays, KExternalDelays => v
                | _, _ => getFactor k prev
                end in
  {| rushHour := pick KRushHour;
     weather := pick KWeather;
     junctionCongestion := pick KJunctionCongestion;
     equipmentReliability := pick KEquipmentReliability;
     festivalCrowds := pick KFestivalCrowds;
     platformStrain := pick KPlatformStrain;
     staffEfficiency := pick KStaffEfficiency;
     externalDelays := pick KExternalDelays |}.

Definition addDisruptionFactor (factor : FactorKey) (prev : DisruptionFactors)
    : DisruptionFactors :=
  setFactor factor (Qmin (getFactor factor prev + 1) 5) prev.

(** A run of user clicks, oldest first, from the initial levels *)
Definition afterIncrements (clicks : list FactorKey) : DisruptionFactors :=
  fold_left (fun prev factor => addDisruptionFactor factor prev) clicks
            initialDisruptionFactors.

(** ** [performQuickAction] *)

(** The callback of [prevTrains.map(train => ...)] *)
Definition quickActionOn (action trainId : string) (train : Train.t) : Train.t :=
  if String.eqb (Train.id train) trainId then
    if String.eqb action "hold" then
      withStatus Delayed (withDelay (Train.delay train + 3) train)
    else if String.eqb action "swap" then
      withDelay (Qmax 0 (Train.delay train - 2)) train
    else if String.eqb action "reroute" then
      withStatus Critical (withDelay (Train.delay train + 8) train)
    else train
  else train.

Definition performQuickAction (action trainId : string) (s : State) : M State :=
  let newTrains := map (quickActionOn action trainId) (trains s) in
  let* newLog :=
    addAiDecisionLog
      ("[ACTION] " ++ Js.toUpperCase action ++ " applied to " ++ trainId)%string
      (aiDecisionLog s) in
  ret {| trains := newTrains;
         disruptionFactors := disruptionFactors s;
         aiDecisionLog := newLog |}.

(** ** Notions used by the statements *)

(** A train is on track when it sits strictly inside a segment between a
    station of its line and the following one. *)
Record onTrack (train : Train.t) : Prop := {
  position_lower : 0 <= Train.positionInSegment train;
  position_upper : Train.positionInSegment train < 1;
  current_lower : (0 <= currentIndexOf train)%Z;
  next_follows : nextIndexOf train = (currentIndexOf train + 1)%Z;
  next_upper : (nextIndexOf train <= lastIndexOf (Train.line train))%Z
}.

(** What holds of a train at every tick boundary *)
Definition inSegment (train : Train.t) : Prop :=
  0 <= Train.positionInSegment train
  /\ Train.positionInSegment train < 1
  /\ currentIndexOf train <> nextIndexOf train
  /\ (0 <= currentIndexOf train
      < Js.length (stationsOfLine (Train.line train)))%Z
  /\ (0 <= nextIndexOf train
      < Js.length (stationsOfLine (Train.line train)))%Z.

(** The registries the simulation can hold: the result of
    [initializeTrains], then any number of position ticks, under any
    world and any factor levels *)
Inductive reachable : list Train.t -> Prop :=
| reachable_init : forall w ts w',
    initializeTrains w = Some (ts, w') -> reachable ts
| reachable_tick : forall disruptionFactors ts w ts' w',
    reachable ts ->
    updateTrainPositions disruptionFactors ts w = Some (ts', w') ->
    reachable ts'.

(** The status is the one the thresholds give for the delay. *)
Definition statusMatchesDelay (train : Train.t) : Prop :=
  (Train.status train = Critical <-> 5 < Train.delay train)
  /\ (Train.status train = Delayed
      <-> 2 < Train.delay train /\ Train.delay train <= 5)
  /\ (Train.status train = OnTime <-> Train.delay train <= 2).

(** [clamp(x, lo, hi)] as the specification uses it *)
Definition clamp (x lo hi : Q) : Q := Qmax lo (Qmin x hi).

(** Every level the tick reads is non-negative. *)
Definition levelsNonNegative (disruptionFactors : DisruptionFactors) : Prop :=
  forall factor, 0 <= getFactor factor disruptionFactors.

(** Station names identify positions: looking a line's [k]-th station up
    by name finds index [k]. *)
Definition namesIndexed (lineStations : list Station.t) : bool :=
  forallb
    (fun k =>
       match nth_error lineStations k with
       | Some s =>
           (Js.findIndex (fun s' => String.eqb (Station.name s') (Station.name s))
                         lineStations =? Z.of_nat k)%Z
       | None => true
       end)
    (seq 0 (List.length lineStations)).

(** [n] position ticks in a row under fixed factor levels *)
Fixpoint ticks (n : nat) (disruptionFactors : DisruptionFactors)
    (ts : list Train.t) : M (list Train.t) :=
  match n with
  | O => ret ts
  | S k =>
      let* ts' := updateTrainPositions disruptionFactors ts in
      ticks k disruptionFactors ts'
  end.

(** A world whose clock stands at [now] and whose random source always
    yields [r] *)
Definition steadyWorld (now : Z) (r : Q) : World := {|
  randoms := fun _ => r;
  drawn := 0;
  clock := fun _ => now;
  looked := 0;
  localeTime := fun _ => "10:30:00 AM"%string
|}.

(** 14 November 2023, 23:23:00 UTC: 23 minutes past the hour *)
Definition worldAt2323 : World := steadyWorld 1700004180000 0.

(** 14 November 2023, 23:59:57 UTC: three seconds before the hour *)
Definition worldAt5957 : World := steadyWorld 1700006397000 (1 # 2).

(** The registry [initializeTrains] builds in a world ([[]] if it throws) *)
Definition registryAt (w : World) : list Train.t :=
  match initializeTrains w with
  | Some (ts, _) => ts
  | None => []
  end.

(** The world [initializeTrains] leaves behind *)
Definition worldAfterInit (w : World) : World :=
  match initializeTrains w with
  | Some (_, w') => w'
  | None => w
  end.

(** The delay multiplier as the specification writes it *)
Definition specMultiplier (disruptionFactors : DisruptionFactors) : Q :=
  1 + 0.5 * rushHour disruptionFactors
    + 0.3 * weather disruptionFactors
    + 0.4 * junctionCongestion disruptionFactors
    + 0.6 * equipmentReliability disruptionFactors.

(** The result of running [m] in [w] ([fallback] if it throws), and the
    world it leaves *)
Definition resultOf {A : Type} (m : M A) (w : World) (fallback : A) : A :=
  match m w with
  | Some (a, _) => a
  | None => fallback
  end.

Definition worldOf {A : Type} (m : M A) (w : World) : World :=
  match m w with
  | Some (_, w') => w'
  | None => w
  end.

(** A Western local 0.97 of the way from Nallasopara to Virar, the last
    segment of its line *)
Definition trainNearVirar : Train.t := {|
  Train.id := "W001";
  Train.name := "Western Local";
  Train.status := OnTime;
  Train.route := "Churchgate - Virar";
  Train.line := Western;
  Train.current := "Nallasopara";
  Train.next := "Virar";
  Train.currentStation := "Nallasopara";
  Train.nextStation := "Virar";
  Train.estimatedTime := "4 mins";
  Train.eta := 1700006700000;
  Train.delay := 1.5;
  Train.passengers := 500;
  Train.speed := 55;
  Train.currentSpeed := 55;
  Train.lat := 19.4547;
  Train.lon := 72.8082;
  Train.positionInSegment := 0.97;
  Train.startStation := "Churchgate";
  Train.direction := UP;
  Train.startTime := 1700004000000;
  Train.distanceToNext := 1.5
|}.

(** The levels after five clicks on the rush-hour control *)
Definition rushHourAtFive : DisruptionFactors :=
  afterIncrements [KRushHour; KRushHour; KRushHour; KRushHour; KRushHour].

(** The registry and the world after [n] position ticks with all factors
    at zero, started from [initializeTrains] in [worldAt2323] *)
Definition registryAfter (n : nat) : list Train.t :=
  resultOf (ticks n initialDisruptionFactors (registryAt worldAt2323))
           (worldAfterInit worldAt2323) [].

Definition worldAfter (n : nat) : World :=
  worldOf (ticks n initialDisruptionFactors (registryAt worldAt2323))
          (worldAfterInit worldAt2323).

(** How one tick changes position and delay of a train *)
Definition progressAndDelayStep (train train' : Train.t) : Prop :=
  (Train.positionInSegment train + 0.05 < 1 ->
   Train.positionInSegment train' = Train.positionInSegment train + 0.05)
  /\ (1 <= Train.positionInSegment train + 0.05 ->
      Train.positionInSegment train' = 0)
  /\ Train.delay train <= Train.delay train'
  /\ (0 <= Train.delay train -> 0 <= Train.delay train').

(** How one tick changes the passenger count of a train *)
Definition passengersStep (train train' : Train.t) : Prop :=
  exists delta : Z,
    (-20 <= delta < 30)%Z
    /\ Train.passengers train'
       = Qmin (Train.passengers train + inject_Z delta) 2000
    /\ Train.passengers train' <= 2000
    /\ (20 <= Train.passengers train -> 0 <= Train.passengers train').

(** The line [performQuickAction] logs *)
Definition actionMessage (action trainId : string) : string :=
  ("[ACTION] " ++ Js.toUpperCase action ++ " applied to " ++ trainId)%string.

(** The entry [addAiDecisionLog] builds for a message in a world *)
Definition logEntry (w : World) (message : string) : string :=
  ("[" ++ localeTime w (clock w (looked w)) ++ "] " ++ message)%string.

(** The state once [initializeTrains] has run in [worldAt2323] *)
Definition stateAt2323 : State := {|
  trains := registryAt worldAt2323;
  disruptionFactors := initialDisruptionFactors;
  aiDecisionLog := initialAiDecisionLog
|}.

(** A log that is already full: ten entries, newest first *)
Definition fullLog : list string := [
  "e10"; "e9"; "e8"; "e7"; "e6"; "e5"; "e4"; "e3"; "e2"; "e1"
]%string.

(** Equality of factor keys is decidable. *)
Definition FactorKey_eq_dec (a b : FactorKey) : {a = b} + {a <> b}.
Proof. decide equality. Defined.

(** A level that is one of the integers 0, ..., 5 *)
Definition isLevel (v : Q) : Prop :=
  exists z : Z, (0 <= z <= 5)%Z /\ v == inject_Z z.

(** What the three quick actions do to the train at place [k] of the
    registry *)
Definition quickActionOutcome (trainId : string) (s : State) (w : World)
    (k : nat) (train : Train.t) : Prop :=
  (exists s' w' train',
     performQuickAction "hold" trainId s w = Some (s', w')
     /\ nth_error (trains s') k = Some train'
     /\ Train.delay train' = Train.delay train + 3
     /\ Train.status train' = Delayed)
  /\ (exists s' w' train',
        performQuickAction "swap" trainId s w = Some (s', w')
        /\ nth_error (trains s') k = Some train'
        /\ Train.delay train' = Qmax 0 (Train.delay train - 2)
        /\ 0 <= Train.delay train'
        /\ (Train.delay train' < Train.delay train
            \/ (Train.delay train' == 0 /\ Train.delay train <= 2))
        /\ (0 <= Train.delay train ->
            Train.delay train' < Train.delay train
            \/ (Train.delay train' == 0 /\ Train.delay train == 0))
        /\ Train.status train' = Train.status train)
  /\ (exists s' w' train',
        performQuickAction "reroute" trainId s w = Some (s', w')
        /\ nth_error (trains s') k = Some train'
        /\ Train.delay train' = Train.delay train + 8
        /\ Train.status train' = Critical).

(** A state whose registry holds the one train [trainNearVirar] *)
Definition stateNearVirar : State := {|
  trains := [trainNearVirar];
  disruptionFactors := initialDisruptionFactors;
  aiDecisionLog := initialAiDecisionLog
|}.

(** The clock always shows a time after the epoch. *)
Definition afterEpoch (w : World) : Prop := forall k, (0 <= clock w k)%Z.

(** The delay accumulator is not negative. *)
Definition delayNonNegative (train : Train.t) : Prop := 0 <= Train.delay train.

(** The registries of a running simulation: initialized under a fair
    random source, then changed by position ticks (fair source, levels not
    negative) and by quick actions *)
Inductive operable : list Train.t -> Prop :=
| operable_init : forall w ts w',
    fair w -> initializeTrains w = Some (ts, w') -> operable ts
| operable_tick : forall disruptionFactors ts w ts' w',
    operable ts -> fair w -> levelsNonNegative disruptionFactors ->
    updateTrainPositions disruptionFactors ts w = Some (ts', w') ->
    operable ts'
| operable_action : forall action trainId ts,
    operable ts -> operable (map (quickActionOn action trainId) ts).

(** What a returning call of [updateTrain] has done: the stations it
    looked up, and the fields of the train it built. *)
Inductive tickOutcome (disruptionFactors : DisruptionFactors)
    (train : Train.t) (w : World) (train' : Train.t) (w' : World) : Prop :=
| tick_outcome (p : Q) (ci ni : Z) (current next : Station.t) :
    advance (stationsOfLine (Train.line train))
            (Train.positionInSegment train) (currentIndexOf train)
    = (p, ci, ni) ->
    Js.at_ (stationsOfLine (Train.line train)) ci = Some current ->
    Js.at_ (stationsOfLine (Train.line train)) ni = Some next ->
    Train.id train' = Train.id train ->
    Train.line train' = Train.line train ->
    Train.current train' = Station.name current ->
    Train.next train' = Station.name next ->
    Train.positionInSegment train' = p ->
    Train.delay train'
    = Train.delay train
      + randoms w (drawn w) * 0.5 * delayMultiplier disruptionFactors ->
    Train.status train' = statusOfDelay (Train.delay train') ->
    Train.passengers train'
    = Qmin (Train.passengers train
            + inject_Z (Js.floor (randoms w (2 + drawn w) * 50 - 20))) 2000 ->
    randoms w' = randoms w ->
    tickOutcome disruptionFactors train w train' w'.

(** A registry with late trains: the one built at 23:23 after two holds
    of W001 (6 minutes late, marked Delayed), one hold of W002 (3 minutes
    late, Delayed) and a reroute of W003 (8 minutes late, Critical); the
    other trains are on time. *)
Definition lateRegistry : list Train.t :=
  map (quickActionOn "reroute" "W003")
      (map (quickActionOn "hold" "W002")
           (map (quickActionOn "hold" "W001")
                (map (quickActionOn "hold" "W001")
                     (registryAt worldAt2323)))).

(** How a tick started in world [w] derives delay and status of a train:
    the new delay is the old one plus a draw of the random source times
    half the multiplier, and the new status is the one the thresholds give
    for the new delay. *)
Definition statusDerived (disruptionFactors : DisruptionFactors) (w : World)
    (train train' : Train.t) : Prop :=
  Train.id train' = Train.id train
  /\ (exists k,
        Train.delay train'
        = Train.delay train
          + randoms w k * 0.5 * delayMultiplier disruptionFactors)
  /\ statusMatchesDelay train'.

(** Id, status and delay of the first [n] trains of a registry *)
Definition severities (n : nat) (ts : list Train.t)
    : list (string * Status * Q) :=
  map (fun train => (Train.id train, Train.status train,
                     Qred (Train.delay train)))
      (firstn n ts).

(** ** Further notions: what [initializeTrains] builds *)

(** The id of train number [i] of a line:
    [`${line.charAt(0)}${String(i + 1).padStart(3, '0')}`] *)
Definition trainIdOf (line : Line) (i : Z) : string :=
  (Js.charAt0 (lineName line) ++ Js.padStart 3 "0" (Js.String_ (i + 1)))%string.

(** The loop variable's values over [count] iterations from [i] *)
Fixpoint loopValues (i : Z) (count : nat) : list Z :=
  match count with
  | O => []
  | S rest => i :: loopValues (i + 1)%Z rest
  end.

(** The (line, train number) pairs in the order the two loops visit them *)
Definition trainSlots : list (Line * Z) :=
  flat_map (fun line => map (pair line) (loopValues 0 (trainCountOf line))) lines.

(** What the loop body fixes of train number [i] of [line] whatever the
    draws: its id, line, direction and the mirrored station fields *)
Definition builtFor (slot : Line * Z) (train : Train.t) : Prop :=
  Train.id train = trainIdOf (fst slot) (snd slot)
  /\ Train.line train = fst slot
  /\ Train.direction train = (if (Z.rem (snd slot) 2 =? 0)%Z then UP else DOWN)
  /\ Train.currentStation train = Train.current train
  /\ Train.nextStation train = Train.next train
  /\ Train.status train = initialStatus (Train.delay train).

(** What a fair random source gives a new train *)
Definition freshlyDrawn (train : Train.t) : Prop :=
  0 <= Train.delay train /\ Train.delay train < 3
  /\ (exists n : Z, (200 <= n < 800)%Z /\ Train.passengers train = inject_Z n)
  /\ 45 <= Train.speed train /\ Train.speed train <= 65
  /\ 0.5 <= Train.distanceToNext train /\ Train.distanceToNext train <= 2.5.

(** The forty ids, in registry order *)
Definition allTrainIds : list string := [
  "W001"; "W002"; "W003"; "W004"; "W005"; "W006"; "W007"; "W008"; "W009";
  "W010"; "W011"; "W012"; "W013"; "W014"; "W015";
  "C001"; "C002"; "C003"; "C004"; "C005"; "C006"; "C007"; "C008"; "C009";
  "C010"; "C011"; "C012"; "C013"; "C014"; "C015";
  "T001"; "T002"; "T003"; "T004"; "T005"; "T006"; "T007"; "T008"; "T009";
  "T010"
]%string.

(** ** Further notions: one position tick *)

(** The object the tick's callback returns for [train], once it has looked
    up the stations [current] and [next] and settled on the position [p],
    in the world [w] it draws from *)
Definition tickedTrain (disruptionFactors : DisruptionFactors)
    (train : Train.t) (w : World) (p : Q) (current next : Station.t)
    : Train.t :=
  let rDelay := randoms w (drawn w) in
  let rMins := randoms w (1 + drawn w) in
  let rPassengers := randoms w (2 + drawn w) in
  let etaNow := clock w (looked w) in
  let rEta := randoms w (3 + drawn w) in
  let newDelay :=
    Train.delay train + (rDelay * 0.5 * delayMultiplier disruptionFactors) in
  {|
    Train.id := Train.id train;
    Train.name := Train.name train;
    Train.status := statusOfDelay newDelay;
    Train.route := Train.route train;
    Train.line := Train.line train;
    Train.current := Station.name current;
    Train.next := Station.name next;
    Train.currentStation := Station.name current;
    Train.nextStation := Station.name next;
    Train.estimatedTime :=
      (Js.String_ (Js.floor (rMins * 8) + 2) ++ " mins")%string;
    Train.eta := Js.trunc (inject_Z etaNow + (rEta * 8 + 3) * 60000);
    Train.delay := newDelay;
    Train.passengers :=
      Qmin (Train.passengers train
            + inject_Z (Js.floor (rPassengers * 50 - 20))) 2000;
    Train.speed := Train.speed train;
    Train.currentSpeed := Train.currentSpeed train;
    Train.lat :=
      Station.lat current + (Station.lat next - Station.lat current) * p;
    Train.lon :=
      Station.lon current + (Station.lon next - Station.lon current) * p;
    Train.positionInSegment := p;
    Train.startStation := Train.startStation train;
    Train.direction := Train.direction train;
    Train.startTime := Train.startTime train;
    Train.distanceToNext := Train.distanceToNext train
  |}.

(** The fields a tick never touches *)
Definition sameIdentity (train train' : Train.t) : Prop :=
  Train.id train' = Train.id train
  /\ Train.name train' = Train.name train
  /\ Train.route train' = Train.route train
  /\ Train.line train' = Train.line train
  /\ Train.direction train' = Train.direction train
  /\ Train.startStation train' = Train.startStation train
  /\ Train.startTime train' = Train.startTime train
  /\ Train.speed train' = Train.speed train
  /\ Train.currentSpeed train' = Train.currentSpeed train
  /\ Train.distanceToNext train' = Train.distanceToNext train.

(** [x] lies between [a] and [b], whichever is larger. *)
Definition between (a b x : Q) : Prop := Qmin a b <= x /\ x <= Qmax a b.

(** The displayed coordinate of a train lies between the coordinates of
    the stations it names as current and next, and its display copies of
    the two names agree with them. *)
Definition onMap (train : Train.t) : Prop :=
  exists current next,
    Js.at_ (stationsOfLine (Train.line train)) (currentIndexOf train)
    = Some current
    /\ Js.at_ (stationsOfLine (Train.line train)) (nextIndexOf train)
       = Some next
    /\ Station.name current = Train.current train
    /\ Station.name next = Train.next train
    /\ between (Station.lat current) (Station.lat next) (Train.lat train)
    /\ between (Station.lon current) (Station.lon next) (Train.lon train)
    /\ Train.currentStation train = Train.current train
    /\ Train.nextStation train = Train.next train.

(** What a tick makes of a train: the same train, of the same line,
    drawn on the map between the stations it now names *)
Definition placedOnMap (train train' : Train.t) : Prop :=
  Train.id train' = Train.id train
  /\ Train.line train' = Train.line train
  /\ onMap train'.

(** How a tick moves a train along its line *)
Definition movedAlong (train train' : Train.t) : Prop :=
  (Train.positionInSegment train + 0.05 < 1 ->
   Train.current train' = Train.current train
   /\ Train.next train' = Train.next train)
  /\ (1 <= Train.positionInSegment train + 0.05 ->
      (nextIndexOf train < lastIndexOf (Train.line train))%Z ->
      Train.current train' = Train.next train
      /\ currentIndexOf train' = nextIndexOf train
      /\ nextIndexOf train' = (nextIndexOf train + 1)%Z
      /\ Train.positionInSegment train' = 0).

(** Every level is between 0 and 5. *)
Definition levelsInRange (disruptionFactors : DisruptionFactors) : Prop :=
  forall factor,
    0 <= getFactor factor disruptionFactors
    /\ getFactor factor disruptionFactors <= 5.

(** A passenger count that is a whole number, at most 2000 *)
Definition wholeCount (train : Train.t) : Prop :=
  exists n : Z, (n <= 2000)%Z /\ Train.passengers train == inject_Z n.

(** A train whose current station is not one of its line, a third of the
    way into its segment *)
Definition strayTrain : Train.t := {|
  Train.id := "W001";
  Train.name := "Western Local";
  Train.status := OnTime;
  Train.route := "Churchgate - Virar";
  Train.line := Western;
  Train.current := "Kurla";
  Train.next := "Virar";
  Train.currentStation := "Kurla";
  Train.nextStation := "Virar";
  Train.estimatedTime := "4 mins";
  Train.eta := 1700006700000;
  Train.delay := 0;
  Train.passengers := 500;
  Train.speed := 55;
  Train.currentSpeed := 55;
  Train.lat := 19.06;
  Train.lon := 72.87;
  Train.positionInSegment := 0.3;
  Train.startStation := "Churchgate";
  Train.direction := UP;
  Train.startTime := 1700004000000;
  Train.distanceToNext := 1.5
|}.

(** How a tick changes the delay of a train, given the factor levels:
    it adds an amount between 0 and half the multiplier, at most 5. *)
Definition delayStep (disruptionFactors : DisruptionFactors)
    (train train' : Train.t) : Prop :=
  exists added,
    Train.delay train' = Train.delay train + added
    /\ 0 <= added
    /\ added <= 0.5 * delayMultiplier disruptionFactors
    /\ added <= 5.

(** A tick never makes a status milder than the old delay warrants. *)
Definition severityKept (train train' : Train.t) : Prop :=
  (5 < Train.delay train -> Train.status train' = Critical)
  /\ (2 < Train.delay train -> Train.status train' <> OnTime).

(** ** Further notions: quick actions *)

(** A quick action leaves everything but delay and status as it was, and
    leaves a train with another id entirely as it was. *)
Definition touchedOnly (trainId : string) (train train' : Train.t) : Prop :=
  withStatus (Train.status train) (withDelay (Train.delay train) train')
  = train
  /\ (Train.id train <> trainId -> train' = train).

(** A state holding one train that is already late: [trainNearVirar] with
    a delay of 2.5 minutes *)
Definition stateLateNearVirar : State := {|
  trains := [withDelay 2.5 trainNearVirar];
  disruptionFactors := initialDisruptionFactors;
  aiDecisionLog := initialAiDecisionLog
|}.

(** ** Further notions: the log and the factor levels over many calls *)

(** Calls of [addAiDecisionLog] in a row, one per message, first message
    first (as [toggleAI] makes them) *)
Fixpoint logAll (messages : list string) (log : list string)
    : M (list string) :=
  match messages with
  | [] => ret log
  | message :: rest =>
      let* log' := addAiDecisionLog message log in
      logAll rest log'
  end.

(** The entries those calls build, in call order: each message is stamped
    with the next reading of the clock. *)
Fixpoint stamped (w : World) (messages : list string) : list string :=
  match messages with
  | [] => []
  | message :: rest => logEntry w message :: stamped (afterLook w) rest
  end.

(** The four lines [toggleAI] logs on activation, in call order *)
Definition activationLines : list string := [
  "[SYSTEM] AI Optimization Suite Activated";
  "[SYSTEM] Initializing neural networks...";
  "[SYSTEM] Loading Mumbai Railway data patterns...";
  "[SYSTEM] AI systems fully operational"
]%string.

(** [getProgressPercentage(value, max = 5)] of the disruption panel; the
    panel always calls it with one argument. *)
Definition getProgressPercentage (value : Q) (max : option Q) : Q :=
  let max := match max with Some m => m | None => 5 end in
  (value / max) * 100.

(** The width, in percent, of a factor's bar *)
Definition barWidth (factorValue : Q) : Q :=
  getProgressPercentage factorValue None.

(** ** [updateDetailedTracking] *)

(** The four displayed metrics *)
Record Metrics := {
  trainCount : Z;
  passengerCount : Q;
  avgDelay : Q;
  efficiency : Q
}.

(** Their initial values, which [stopSimulation] also restores *)
Definition initialMetrics : Metrics := {|
  trainCount := 0;
  passengerCount := 0;
  avgDelay := 0;
  efficiency := 100
|}.

(** [a === b] on statuses *)
Definition Status_eqb (a b : Status) : bool :=
  match a, b with
  | Running, Running | Delayed, Delayed | OnTime, OnTime
  | Cancelled, Cancelled | Critical, Critical => true
  | _, _ => false
  end.

(** The metrics tick; [registry] is the value of [trains] its closure
    captured, [prev] the metrics before the call. *)
Definition updateDetailedTracking (registry : list Train.t) (prev : Metrics)
    : Metrics :=
  if (Js.length registry >? 0)%Z then
    let onTimeTrains :=
      Js.length
        (filter (fun train => Status_eqb (Train.status train) OnTime) registry)
    in
    {| trainCount := Js.length registry;
       passengerCount :=
         fold_left (fun sum train => sum + Train.passengers train) registry 0;
       avgDelay :=
         fold_left (fun sum train => sum + Train.delay train) registry 0
         / inject_Z (Js.length registry);
       efficiency :=
         (inject_Z onTimeTrains / inject_Z (Js.length registry)) * 100 |}
  else prev.

(** ** [updateAdvancedSystems] *)

(** The AI panel's state *)
Record AiCounters := {
  aiActive : bool;
  aiDecisions : Q;
  aiPreventedDelays : Q;
  aiOptimizations : Q;
  aiPerformance : Q
}.

Definition initialAiCounters : AiCounters := {|
  aiActive := false;
  aiDecisions := 0;
  aiPreventedDelays := 0;
  aiOptimizations := 0;
  aiPerformance := 0
|}.

(** The catalog of narrated actions *)
Definition aiActions : list string := [
  "Analyzing passenger flow patterns at Dadar junction";
  "Optimizing signal timing for Western Line";
  "Detecting potential bottleneck at Kurla station";
  "Rerouting Train WR-401 to avoid congestion";
  "Implementing dynamic scheduling adjustments";
  "Monitoring weather impact on Central Line";
  "Predicting rush hour surge in 15 minutes";
  "Coordinating with traffic control systems";
  "Optimizing platform allocation at CST";
  "Reducing dwell time at high-traffic stations"
]%string.

(** [`${x}`] for a string that may be [undefined] *)
Definition shown (x : option string) : string :=
  match x with
  | Some s => s
  | None => "undefined"
  end.

(** The callback [updateAdvancedSystems] hands to [setTimeout]: it picks a
    catalog entry at random and logs it. *)
Definition announceAiAction (prev : list string) : M (list string) :=
  let* r := Math_random in
  let action :=
    Js.at_ aiActions (Js.floor (r * inject_Z (Js.length aiActions))) in
  addAiDecisionLog ("[AI] " ++ shown action)%string prev.

(** The three conditional parts of the cycle: each takes the counter it
    may raise and the log, and returns both. *)
Definition preventDelay (prevented : Q) (log : list string)
    : M (Q * list string) :=
  let* r := Math_random in
  if Js.gt r 0.6 then
    let* log' :=
      addAiDecisionLog "[ALERT] Prevented potential 4-min delay at junction"
                       log in
    ret (prevented + 1, log')
  else ret (prevented, log).

Definition optimizeRoute (optimizations : Q) (log : list string)
    : M (Q * list string) :=
  let* r := Math_random in
  if Js.gt r 0.7 then
    let* r := Math_random in
    let savedTime := (Js.floor (r * 8) + 2)%Z in
    let* log' :=
      addAiDecisionLog
        ("[OPTIMIZATION] Route optimized, saved " ++ Js.String_ savedTime
         ++ " minutes")%string log in
    ret (optimizations + 1, log')
  else ret (optimizations, log).

Definition criticalAlert (log : list string) : M (list string) :=
  let* r := Math_random in
  if Js.gt r 0.9 then
    addAiDecisionLog
      "[CRITICAL] Emergency protocol activated for overcrowding" log
  else ret log.

(** One decision cycle. [captured] holds the values of [aiActive],
    [aiDecisions] and [aiOptimizations] the closure captured; [prev] and
    [log] are the states the functional updaters receive. The result is the
    new counters, the new log and the delays, in ms, of the [setTimeout]
    calls made (each with [announceAiAction] as its callback). *)
Definition updateAdvancedSystems (captured prev : AiCounters)
    (log : list string) : M (AiCounters * list string * list Z) :=
  if aiActive captured then
    let* r := Math_random in
    let newDecisions := (Js.floor (r * 5) + 1)%Z in
    let* r := Math_random in
    let numLogs := (Js.floor (r * 3) + 1)%Z in
    let timeouts :=
      map (fun i => (i * 500)%Z) (loopValues 0 (Z.to_nat numLogs)) in
    let* alerted := preventDelay (aiPreventedDelays prev) log in
    let* optimized := optimizeRoute (aiOptimizations prev) (snd alerted) in
    let* log' := criticalAlert (snd optimized) in
    let performanceGain :=
      Qmin 15 (aiDecisions captured * 0.1 + aiOptimizations captured * 0.5) in
    ret ({| aiActive := aiActive prev;
            aiDecisions := aiDecisions prev + inject_Z newDecisions;
            aiPreventedDelays := fst alerted;
            aiOptimizations := fst optimized;
            aiPerformance := performanceGain |},
         log', timeouts)
  else ret (prev, log, []).

(** What one cycle of an active AI does *)
Definition cycleOutcome (captured prev : AiCounters) (log : list string)
    (result : AiCounters * list string * list Z) : Prop :=
  let counters := fst (fst result) in
  let log' := snd (fst result) in
  let timeouts := snd result in
  aiActive counters = aiActive prev
  /\ (exists d : Z, (1 <= d <= 5)%Z
                    /\ aiDecisions counters = aiDecisions prev + inject_Z d)
  /\ (aiPreventedDelays counters = aiPreventedDelays prev
      \/ aiPreventedDelays counters = aiPreventedDelays prev + 1)
  /\ (aiOptimizations counters = aiOptimizations prev
      \/ aiOptimizations counters = aiOptimizations prev + 1)
  /\ aiPerformance counters
     = Qmin 15 (aiDecisions captured * 0.1 + aiOptimizations captured * 0.5)
  /\ aiPerformance counters <= 15
  /\ (0 <= aiDecisions captured -> 0 <= aiOptimizations captured ->
      0 <= aiPerformance counters)
  /\ (timeouts = [0%Z] \/ timeouts = [0%Z; 500%Z]
      \/ timeouts = [0%Z; 500%Z; 1000%Z])
  /\ (exists added,
        (List.length added <= 3)%nat
        /\ log' = firstn 10 (added ++ log))
  /\ (List.length log' <= 10)%nat.

(** A panel whose AI is active after some cycles *)
Definition activeCounters : AiCounters := {|
  aiActive := true;
  aiDecisions := 12;
  aiPreventedDelays := 2;
  aiOptimizations := 1;
  aiPerformance := 1.2
|}.

(** ** [AdvancedControls]: the trains the control panel lists *)

(** [arr.sort(compare)] on a copy: the sort is stable, elements are moved
    past one another only where [compare] is positive. *)
Fixpoint insertBy {A : Type} (compare : A -> A -> Q) (x : A)
    (sorted : list A) : list A :=
  match sorted with
  | [] => [x]
  | y :: rest =>
      if Js.gt (compare x y) 0 then y :: insertBy compare x rest
      else x :: sorted
  end.

Definition sortBy {A : Type} (compare : A -> A -> Q) (arr : list A)
    : list A :=
  fold_right (insertBy compare) [] arr.

Definition isPriority (train : Train.t) : bool :=
  Status_eqb (Train.status train) Delayed
  || Status_eqb (Train.status train) Critical.

Definition priorityTrains (trains : list Train.t) : list Train.t :=
  Js.slice0 5
    (sortBy (fun a b => Train.delay b - Train.delay a)
            (filter isPriority trains)).

(** Later trains are no more delayed than earlier ones *)
Definition mostDelayedFirst (a b : Train.t) : Prop :=
  Train.delay b <= Train.delay a.

(** * Properties *)

(** ** The primitives on concrete inputs *)

Example rem_follows_dividend :
  Js.rem 7 3 == 1 /\ Js.rem (-7) 3 == -1 /\ Js.rem 130 60 == 10.
Proof. repeat split. Qed.

Example first_western_id :
  (Js.charAt0 (lineName Western) ++ Js.padStart 3 "0" (Js.String_ (0 + 1)))%string
  = "W001"%string.
Proof. reflexivity. Qed.

Example tenth_harbour_id :
  (Js.charAt0 (lineName TransHarbour)
   ++ Js.padStart 3 "0" (Js.String_ (9 + 1)))%string
  = "T010"%string.
Proof. reflexivity. Qed.

Example hold_in_upper_case : actionMessage "hold" "W001"
                             = "[ACTION] HOLD applied to W001"%string.
Proof. reflexivity. Qed.

Example findIndex_missing :
  Js.findIndex (fun s => String.eqb (Station.name s) "Kurla")
               (stationsOfLine Western) = (-1)%Z.
Proof. vm_compute. reflexivity. Qed.

Example full_log_drops_oldest :
  option_map fst (addAiDecisionLog "m" fullLog worldAt2323)
  = Some ["[10:30:00 AM] m";
          "e10"; "e9"; "e8"; "e7"; "e6"; "e5"; "e4"; "e3"; "e2"]%string.
Proof. reflexivity. Qed.

(** ** Comparisons, array access and the remainder *)

Lemma ge_true (a b : Q) : Js.ge a b = true <-> b <= a.
Proof. unfold Js.ge. apply Qle_bool_iff. Qed.

Lemma ge_false (a b : Q) : Js.ge a b = false <-> a < b.
Proof.
  unfold Js.ge. split; intro H.
  - apply Qnot_le_lt. intro L. apply Qle_bool_iff in L. congruence.
  - destruct (Qle_bool b a) eqn:E; trivial.
    apply Qle_bool_iff in E. lra.
Qed.

Lemma gt_true (a b : Q) : Js.gt a b = true <-> b < a.
Proof.
  unfold Js.gt. rewrite negb_true_iff. apply (ge_false b a).
Qed.

Lemma gt_false (a b : Q) : Js.gt a b = false <-> a <= b.
Proof.
  unfold Js.gt. rewrite negb_false_iff. apply Qle_bool_iff.
Qed.

Lemma at_Some_range {A : Type} (arr : list A) (i : Z) (x : A) :
  Js.at_ arr i = Some x -> (0 <= i < Js.length arr)%Z.
Proof.
  unfold Js.at_, Js.length. destruct (Z.ltb_spec i 0); [discriminate|].
  intro E. assert (N : nth_error arr (Z.to_nat i) <> None) by congruence.
  apply nth_error_Some in N. lia.
Qed.

Lemma at_in_range {A : Type} (arr : list A) (i : Z) :
  (0 <= i < Js.length arr)%Z -> exists x, Js.at_ arr i = Some x.
Proof.
  unfold Js.at_, Js.length. intros [L U].
  destruct (Z.ltb_spec i 0); [lia|].
  destruct (nth_error arr (Z.to_nat i)) eqn:E; [eauto|].
  apply nth_error_None in E. lia.
Qed.

Lemma floor_below (x : Q) (z : Z) : x < inject_Z z -> (Js.floor x < z)%Z.
Proof.
  intro H. unfold Js.floor. pose proof (Qfloor_le x) as F.
  rewrite Zlt_Qlt. lra.
Qed.

Lemma floor_at_least (x : Q) (z : Z) : inject_Z z <= x -> (z <= Js.floor x)%Z.
Proof.
  intro H. unfold Js.floor.
  rewrite <- (Qfloor_Z z). now apply Qfloor_resp_le.
Qed.

Lemma floor_fraction (x : Q) :
  0 <= x - inject_Z (Js.floor x) /\ x - inject_Z (Js.floor x) < 1.
Proof.
  unfold Js.floor. pose proof (Qfloor_le x) as L. pose proof (Qlt_floor x) as U.
  rewrite inject_Z_plus in U. change (inject_Z 1) with 1 in U. lra.
Qed.

(** The remainder by 60 stays below 60 whatever the sign of the dividend. *)
Lemma rem60_upper (a : Q) : Js.rem a 60 < 60.
Proof.
  unfold Js.rem, Js.trunc.
  assert (D : a / 60 == a * (1 # 60)) by reflexivity.
  destruct (Qle_bool 0 (a / 60)) eqn:S.
  - pose proof (Qlt_floor (a / 60)) as U.
    rewrite inject_Z_plus in U. change (inject_Z 1) with 1 in U.
    rewrite D in U at 1. lra.
  - pose proof (Qle_ceiling (a / 60)) as U. rewrite D in U at 1.
    assert (N : a / 60 < 0).
    { apply Qnot_le_lt. intro L. apply Qle_bool_iff in L. congruence. }
    rewrite D in N. lra.
Qed.

(** For a non-negative dividend it is non-negative. *)
Lemma rem60_lower (a : Q) : 0 <= a -> 0 <= Js.rem a 60.
Proof.
  intro P. unfold Js.rem, Js.trunc.
  assert (D : a / 60 == a * (1 # 60)) by reflexivity.
  assert (S : Qle_bool 0 (a / 60) = true).
  { apply Qle_bool_iff. rewrite D. lra. }
  rewrite S. pose proof (Qfloor_le (a / 60)) as L. rewrite D in L at 2. lra.
Qed.

(** ** Facts about the station table *)

Lemma stations_count (line : Line) :
  Js.length (stationsOfLine line)
  = match line with
    | Western => 27%Z
    | CentralMain => 28%Z
    | TransHarbour => 11%Z
    end.
Proof. destruct line; vm_compute; reflexivity. Qed.

Lemma stations_not_degenerate (line : Line) :
  (Js.length (stationsOfLine line) <? 2)%Z = false.
Proof. rewrite stations_count. destruct line; reflexivity. Qed.

Lemma lastIndex_positive (line : Line) : (1 <= lastIndexOf line)%Z.
Proof. rewrite stations_count. destruct line; lia. Qed.

Lemma stations_namesIndexed (line : Line) :
  namesIndexed (stationsOfLine line) = true.
Proof. destruct line; vm_compute; reflexivity. Qed.

(** Where names identify positions, the index found under the name of the
    [i]-th station is [i]. *)
Lemma namesIndexed_at (lineStations : list Station.t) (i : Z) (s : Station.t) :
  namesIndexed lineStations = true ->
  Js.at_ lineStations i = Some s ->
  Js.findIndex (fun s' => String.eqb (Station.name s') (Station.name s))
               lineStations = i.
Proof.
  intros N E. pose proof (at_Some_range _ _ _ E) as R.
  unfold namesIndexed in N. rewrite forallb_forall in N.
  unfold Js.at_ in E. destruct (Z.ltb_spec i 0); [lia|].
  unfold Js.length in R.
  assert (I : In (Z.to_nat i) (seq 0 (List.length lineStations))).
  { apply in_seq. lia. }
  apply N in I. rewrite E in I. apply Z.eqb_eq in I. lia.
Qed.

Lemma findIndex_at (line : Line) (i : Z) (s : Station.t) :
  Js.at_ (stationsOfLine line) i = Some s ->
  Js.findIndex (fun s' => String.eqb (Station.name s') (Station.name s))
               (stationsOfLine line) = i.
Proof.
  apply namesIndexed_at, stations_namesIndexed.
Qed.

Opaque stationsOfLine.

(** ** The effect monad *)

Lemma ret_Some {A : Type} (a : A) (w : World) (b : A) (w' : World) :
  ret a w = Some (b, w') -> b = a /\ w' = w.
Proof. unfold ret. intro E. now inversion E. Qed.

Lemma defined_Some {A : Type} (o : option A) (w : World) (a : A) (w' : World) :
  defined o w = Some (a, w') -> o = Some a /\ w' = w.
Proof.
  unfold defined. destruct o; [|discriminate]. intro E. now inversion E.
Qed.

Lemma bind_Some {A B : Type} (m : M A) (k : A -> M B) (w : World) (b : B)
    (w2 : World) :
  bind m k w = Some (b, w2) ->
  exists a w1, m w = Some (a, w1) /\ k a w1 = Some (b, w2).
Proof.
  unfold bind. destruct (m w) as [[a w1]|]; [|discriminate]. eauto.
Qed.

(** A computation whose first step returns continues with the rest. *)
Lemma bind_returns {A B : Type} (m : M A) (k : A -> M B) (w : World)
    (a : A) (w1 : World) (P : B -> World -> Prop) :
  m w = Some (a, w1) ->
  (exists b w2, k a w1 = Some (b, w2) /\ P b w2) ->
  exists b w2, bind m k w = Some (b, w2) /\ P b w2.
Proof.
  intros E (b & w2 & K & H). exists b, w2. unfold bind. rewrite E. auto.
Qed.

Lemma Math_random_Some (w : World) (r : Q) (w' : World) :
  Math_random w = Some (r, w') ->
  r = randoms w (drawn w) /\ randoms w' = randoms w.
Proof.
  unfold Math_random. intro E. injection E as <- <-. split; reflexivity.
Qed.

Lemma Date_now_Some (w : World) (now : Z) (w' : World) :
  Date_now w = Some (now, w') -> randoms w' = randoms w.
Proof.
  unfold Date_now. intro E. injection E as _ <-. reflexivity.
Qed.

(** Unfolds the steps of a returning computation found in the context. *)
Ltac effects :=
  repeat match goal with
    | E : bind _ _ _ = Some _ |- _ =>
        apply bind_Some in E;
        let a := fresh "a" in
        let w := fresh "w" in
        let H := fresh "H" in
        destruct E as (a & w & H & E)
    | H : Math_random _ = Some _ |- _ =>
        apply Math_random_Some in H; destruct H as [? ?]
    | H : Date_now _ = Some _ |- _ => apply Date_now_Some in H
    | H : defined _ _ = Some _ |- _ =>
        apply defined_Some in H; destruct H as [? ?]
    | H : ret _ _ = Some _ |- _ =>
        apply ret_Some in H; destruct H as [? ?]
    end.

(** A property of single calls lifts to [mapM]: if every call on an
    argument satisfying [P], from a world satisfying [I], relates the
    argument to its result by [R] and keeps [I], so does the traversal of
    a list of such arguments. *)
Lemma mapM_Forall2 {A B : Type} (f : A -> M B) (I : World -> Prop)
    (P : A -> Prop) (R : A -> B -> Prop) :
  (forall x w y w', P x -> I w -> f x w = Some (y, w') -> R x y /\ I w') ->
  forall arr w ys w',
    Forall P arr -> I w -> mapM f arr w = Some (ys, w') ->
    Forall2 R arr ys /\ I w'.
Proof.
  intros step. induction arr as [|x rest IH]; intros w ys w' HP Hw E.
  - apply ret_Some in E. destruct E as [-> ->].
    split; [constructor | assumption].
  - simpl in E. apply bind_Some in E. destruct E as (y & w1 & E1 & E).
    apply bind_Some in E. destruct E as (ys' & w2 & E2 & E).
    apply ret_Some in E. destruct E as [-> ->].
    inversion HP as [|? ? Px Prest]; subst.
    destruct (step _ _ _ _ Px Hw E1) as [Rxy Hw1].
    destruct (IH _ _ _ Prest Hw1 E2) as [Rrest Hw2].
    split; [constructor|]; assumption.
Qed.

(** If every call on an argument satisfying [P] returns, the traversal of
    a list of such arguments returns. *)
Lemma mapM_runs {A B : Type} (f : A -> M B) (P : A -> Prop) :
  (forall x w, P x -> exists y w', f x w = Some (y, w')) ->
  forall arr w, Forall P arr -> exists ys w', mapM f arr w = Some (ys, w').
Proof.
  intros step. induction arr as [|x rest IH]; intros w HP.
  - simpl. unfold ret. eauto.
  - inversion HP as [|? ? Px Prest]; subst.
    destruct (step x w Px) as (y & w1 & E1).
    destruct (IH w1 Prest) as (ys & w2 & E2).
    exists (y :: ys), w2. simpl. unfold bind. rewrite E1, E2. reflexivity.
Qed.

Lemma Forall2_preserves {A B : Type} (R : A -> B -> Prop) (P : A -> Prop)
    (Q : B -> Prop) (xs : list A) (ys : list B) :
  (forall x y, R x y -> P x -> Q y) ->
  Forall2 R xs ys -> Forall P xs -> Forall Q ys.
Proof.
  intros H F. induction F as [|x y xs ys Rxy _ IH]; intro HP;
    constructor; inversion HP; subst; eauto.
Qed.

Lemma Forall2_Forall_r {A B : Type} (R : A -> B -> Prop) (Q : B -> Prop)
    (xs : list A) (ys : list B) :
  (forall x y, R x y -> Q y) -> Forall2 R xs ys -> Forall Q ys.
Proof.
  intros H F. induction F; constructor; eauto.
Qed.

(** ** One train, one tick *)

Lemma updateTrain_outcome (disruptionFactors : DisruptionFactors)
    (train : Train.t) (w : World) (train' : Train.t) (w' : World) :
  updateTrain disruptionFactors train w = Some (train', w') ->
  tickOutcome disruptionFactors train w train' w'.
Proof.
  unfold updateTrain. cbv zeta. rewrite stations_not_degenerate.
  destruct (advance (stationsOfLine (Train.line train))
                    (Train.positionInSegment train) (currentIndexOf train))
    as [[p ci] ni] eqn:A.
  unfold bind, defined.
  destruct (Js.at_ (stationsOfLine (Train.line train)) ci) as [current|] eqn:C;
    [|discriminate].
  destruct (Js.at_ (stationsOfLine (Train.line train)) ni) as [next|] eqn:N;
    [|discriminate].
  unfold Math_random, Date_now, ret. intro E.
  injection E as E1 E2. subst train' w'.
  now apply (tick_outcome _ _ _ _ _ p ci ni current next).
Qed.

(** The outcome of [advance] on an on-track position. *)
Lemma advance_onTrack (line : Line) (position : Q) (found : Z) :
  0 <= position -> position < 1 ->
  (0 <= found)%Z -> (found + 1 <= lastIndexOf line)%Z ->
  exists p ci,
    advance (stationsOfLine line) position found = (p, ci, (ci + 1)%Z)
    /\ 0 <= p /\ p < 1 /\ (0 <= ci)%Z /\ (ci + 1 <= lastIndexOf line)%Z.
Proof.
  intros P0 P1 F0 F1. unfold advance.
  pose proof (lastIndex_positive line) as L.
  destruct (Js.ge (position + 0.05) 1.0) eqn:G.
  - destruct (Z.geb_spec (found + 1) (lastIndexOf line)).
    + exists 0, 0%Z. repeat split; try lra; lia.
    + exists 0, (found + 1)%Z. rewrite Z.min_l by lia.
      repeat split; try lra; lia.
  - apply ge_false in G. exists (position + 0.05), found.
    repeat split; try lra; lia.
Qed.

Lemma onTrack_found (train : Train.t) :
  onTrack train ->
  (0 <= currentIndexOf train)%Z
  /\ (currentIndexOf train + 1 <= lastIndexOf (Train.line train))%Z.
Proof.
  intros [_ _ L F U]. split; [assumption|]. now rewrite <- F.
Qed.

(** The tick returns as soon as its two station lookups are in range. *)
Lemma updateTrain_returns (disruptionFactors : DisruptionFactors)
    (train : Train.t) (w : World) (p : Q) (ci ni : Z)
    (current next : Station.t) :
  advance (stationsOfLine (Train.line train))
          (Train.positionInSegment train) (currentIndexOf train)
  = (p, ci, ni) ->
  Js.at_ (stationsOfLine (Train.line train)) ci = Some current ->
  Js.at_ (stationsOfLine (Train.line train)) ni = Some next ->
  exists train' w', updateTrain disruptionFactors train w = Some (train', w').
Proof.
  intros A C N.
  unfold updateTrain. cbv zeta. rewrite stations_not_degenerate. rewrite A.
  unfold bind, defined. rewrite C, N.
  unfold Math_random, Date_now, ret. eauto.
Qed.

(** On an on-track train the tick returns. *)
Lemma updateTrain_runs (disruptionFactors : DisruptionFactors)
    (train : Train.t) (w : World) :
  onTrack train ->
  exists train' w', updateTrain disruptionFactors train w = Some (train', w').
Proof.
  intro T. destruct (onTrack_found train T) as [F0 F1].
  destruct (advance_onTrack (Train.line train) (Train.positionInSegment train)
              (currentIndexOf train) (position_lower _ T) (position_upper _ T)
              F0 F1) as (p & ci & A & _ & _ & C0 & C1).
  destruct (at_in_range (stationsOfLine (Train.line train)) ci) as [current C];
    [clear - C0 C1; lia|].
  destruct (at_in_range (stationsOfLine (Train.line train)) (ci + 1)) as [next N];
    [clear - C0 C1; lia|].
  eapply updateTrain_returns; eassumption.
Qed.

(** The tick keeps a train on track. *)
Lemma updateTrain_onTrack (disruptionFactors : DisruptionFactors)
    (train : Train.t) (w : World) (train' : Train.t) (w' : World) :
  onTrack train ->
  updateTrain disruptionFactors train w = Some (train', w') ->
  onTrack train'.
Proof.
  intros T E. destruct (onTrack_found train T) as [F0 F1].
  destruct (updateTrain_outcome _ _ _ _ _ E)
    as [p ci ni current next A C N _ Hline Hcur Hnext Hpos _ _ _ _].
  destruct (advance_onTrack (Train.line train) (Train.positionInSegment train)
              (currentIndexOf train) (position_lower _ T) (position_upper _ T)
              F0 F1) as (p1 & ci1 & A1 & P0 & P1 & C0 & C1).
  rewrite A in A1. injection A1 as -> -> ->.
  apply findIndex_at in C. apply findIndex_at in N.
  assert (CI : currentIndexOf train' = ci1).
  { now rewrite Hline, Hcur. }
  assert (NI : nextIndexOf train' = (ci1 + 1)%Z).
  { now rewrite Hline, Hnext. }
  constructor; rewrite ?Hpos, ?CI, ?NI, ?Hline; trivial.
Qed.

(** A position tick keeps a whole registry on track, and returns on it. *)
Lemma updateTrainPositions_onTrack (disruptionFactors : DisruptionFactors)
    (ts : list Train.t) (w : World) (ts' : list Train.t) (w' : World) :
  Forall onTrack ts ->
  updateTrainPositions disruptionFactors ts w = Some (ts', w') ->
  Forall onTrack ts'.
Proof.
  unfold updateTrainPositions. revert w ts' w'.
  induction ts as [|train rest IH]; intros w ts' w' T E.
  - inversion E. constructor.
  - simpl in E. apply bind_Some in E. destruct E as (y & w1 & E1 & E).
    apply bind_Some in E. destruct E as (ys & w2 & E2 & E).
    inversion E; subst. inversion T; subst.
    constructor; [eapply updateTrain_onTrack | eapply IH]; eassumption.
Qed.

Lemma updateTrainPositions_runs (disruptionFactors : DisruptionFactors)
    (ts : list Train.t) (w : World) :
  Forall onTrack ts ->
  exists ts' w', updateTrainPositions disruptionFactors ts w = Some (ts', w').
Proof.
  intro T. unfold updateTrainPositions.
  apply (mapM_runs _ onTrack); [|assumption].
  intros x w0 Tx. now apply updateTrain_runs.
Qed.

(** ** Initialization *)

(** The fraction of the hour is below one. *)
Lemma hour_fraction_upper (a : Q) : Js.rem a 60 / 60 < 1.
Proof.
  pose proof (rem60_upper a) as R. revert R.
  generalize (Js.rem a 60). intros r R.
  assert (D : r / 60 == r * (1 # 60)) by reflexivity.
  rewrite D. lra.
Qed.

(** Scaling a fraction below one by [n] and rounding down stays below [n]. *)
Lemma scaled_floor_upper (p : Q) (n : Z) :
  p < 1 -> (0 < n)%Z -> (Js.floor (p * inject_Z n) < n)%Z.
Proof.
  intros P N. apply floor_below.
  assert (0 < inject_Z n).
  { change 0 with (inject_Z 0). now rewrite <- Zlt_Qlt. }
  nra.
Qed.

Lemma hour_fraction_lower (a : Q) : 0 <= a -> 0 <= Js.rem a 60 / 60.
Proof.
  intro P. pose proof (rem60_lower a P) as R. revert R.
  generalize (Js.rem a 60). intros r R.
  assert (D : r / 60 == r * (1 # 60)) by reflexivity.
  rewrite D. lra.
Qed.

Lemma scaled_floor_lower (p : Q) (n : Z) :
  0 <= p -> (0 < n)%Z -> (0 <= Js.floor (p * inject_Z n))%Z.
Proof.
  intros P N. apply floor_at_least. change (inject_Z 0) with 0.
  assert (0 < inject_Z n).
  { change 0 with (inject_Z 0). now rewrite <- Zlt_Qlt. }
  nra.
Qed.

Lemma minutes_non_negative (now lineIndex i : Z) :
  (0 <= now)%Z -> (0 <= lineIndex)%Z -> (0 <= i)%Z ->
  0 <= inject_Z now / 60000 + inject_Z lineIndex * 20 + inject_Z i * 15.
Proof.
  intros N L I.
  assert (D : inject_Z now / 60000 == inject_Z now * (1 # 60000))
    by reflexivity.
  rewrite D. rewrite Zle_Qle in N, L, I. change (inject_Z 0) with 0 in *. lra.
Qed.

Lemma initTrain_onTrack (line : Line) (lineIndex i : Z)
    (acc : list Train.t) (w : World) (acc' : list Train.t) (w' : World) :
  Forall onTrack acc ->
  initTrain line lineIndex (stationsOfLine line) i acc w = Some (acc', w') ->
  Forall onTrack acc'.
Proof.
  intros T. unfold initTrain.
  destruct (Js.length (stationsOfLine line) >=? 2)%Z;
    [|intro E; apply ret_Some in E; destruct E as [-> _]; assumption].
  intro E. apply bind_Some in E. destruct E as (now & w0 & _ & E).
  pose proof (hour_fraction_upper
                (inject_Z now / 60000 + inject_Z lineIndex * 20 + inject_Z i * 15))
    as PU.
  revert PU E. generalize (Js.rem
    (inject_Z now / 60000 + inject_Z lineIndex * 20 + inject_Z i * 15) 60 / 60).
  intros progress PU.
  pose proof (lastIndex_positive line) as LP.
  assert (LP0 : (0 < Js.length (stationsOfLine line) - 1)%Z) by (clear - LP; lia).
  pose proof (scaled_floor_upper progress _ PU LP0) as FU.
  revert FU. generalize (progress * inject_Z (Js.length (stationsOfLine line) - 1)).
  intros sp FU E.
  apply bind_Some in E. destruct E as (current & w1 & C & E).
  apply defined_Some in C. destruct C as [C _].
  apply bind_Some in E. destruct E as (next & w2 & N & E).
  apply defined_Some in N. destruct N as [N _].
  repeat (apply bind_Some in E; destruct E as (? & ? & _ & E)).
  apply ret_Some in E. destruct E as [-> _]. apply Forall_app.
  split; [assumption|]. constructor; [|constructor].
  rewrite Z.min_l in N by (clear - FU; lia).
  pose proof (at_Some_range _ _ _ C) as RC.
  apply findIndex_at in C. apply findIndex_at in N.
  destruct (floor_fraction sp) as [F0 F1].
  constructor;
    cbn [Train.positionInSegment Train.current Train.next Train.line];
    rewrite ?C, ?N; trivial; clear - FU RC; lia.
Qed.

Lemma forLoop_onTrack (line : Line) (lineIndex : Z) (count : nat) :
  forall (i : Z) (acc : list Train.t) (w : World) (acc' : list Train.t)
         (w' : World),
    Forall onTrack acc ->
    forLoop count i (initTrain line lineIndex (stationsOfLine line)) acc w
    = Some (acc', w') ->
    Forall onTrack acc'.
Proof.
  induction count as [|count IH]; intros i acc w acc' w' T E.
  - apply ret_Some in E. destruct E as [-> _]. assumption.
  - simpl in E. apply bind_Some in E. destruct E as (acc1 & w1 & E1 & E).
    eapply IH; [|exact E]. eapply initTrain_onTrack; eassumption.
Qed.

Lemma forEachLine_onTrack (ls : list Line) :
  forall (lineIndex : Z) (acc : list Train.t) (w : World)
         (acc' : list Train.t) (w' : World),
    Forall onTrack acc ->
    forEachLine ls lineIndex acc w = Some (acc', w') ->
    Forall onTrack acc'.
Proof.
  induction ls as [|line rest IH]; intros lineIndex acc w acc' w' T E.
  - apply ret_Some in E. destruct E as [-> _]. assumption.
  - simpl in E. apply bind_Some in E. destruct E as (acc1 & w1 & E1 & E).
    eapply IH; [|exact E]. unfold initLine in E1.
    eapply forLoop_onTrack; eassumption.
Qed.

(** Every train [initializeTrains] builds is on track. *)
Lemma initializeTrains_onTrack (w : World) (ts : list Train.t) (w' : World) :
  initializeTrains w = Some (ts, w') -> Forall onTrack ts.
Proof.
  unfold initializeTrains. apply forEachLine_onTrack. constructor.
Qed.

Lemma initTrain_returns (line : Line) (lineIndex i : Z) (acc : list Train.t)
    (w : World) :
  (0 <= lineIndex)%Z -> (0 <= i)%Z -> (0 <= clock w (looked w))%Z ->
  exists acc' w',
    initTrain line lineIndex (stationsOfLine line) i acc w = Some (acc', w')
    /\ (clock w' = clock w
        /\ List.length acc' = S (List.length acc)).
Proof.
  intros HL HI HC. unfold initTrain.
  assert (G : (Js.length (stationsOfLine line) >=? 2)%Z = true).
  { rewrite stations_count. destruct line; reflexivity. }
  rewrite G. eapply bind_returns; [reflexivity|]. cbv zeta.
  pose proof (minutes_non_negative _ _ _ HC HL HI) as X.
  pose proof (hour_fraction_lower _ X) as P0.
  pose proof (hour_fraction_upper
                (inject_Z (clock w (looked w)) / 60000
                 + inject_Z lineIndex * 20 + inject_Z i * 15)) as P1.
  revert P0 P1.
  generalize (Js.rem (inject_Z (clock w (looked w)) / 60000
                      + inject_Z lineIndex * 20 + inject_Z i * 15) 60 / 60).
  intros progress P0 P1.
  pose proof (lastIndex_positive line) as LP.
  assert (LP0 : (0 < lastIndexOf line)%Z) by (clear - LP; lia).
  pose proof (scaled_floor_lower progress _ P0 LP0) as F0.
  pose proof (scaled_floor_upper progress _ P1 LP0) as F1.
  revert F0 F1.
  generalize (progress * inject_Z (lastIndexOf line)). intros sp F0 F1.
  destruct (at_in_range (stationsOfLine line) (Js.floor sp)) as [current C];
    [clear - F0 F1; lia|].
  destruct (at_in_range (stationsOfLine line)
              (Z.min (Js.floor sp + 1) (lastIndexOf line))) as [next N];
    [clear - F0 F1; lia|].
  destruct (at_in_range (stationsOfLine line) 0) as [first A0];
    [clear - LP; lia|].
  destruct (at_in_range (stationsOfLine line) (lastIndexOf line)) as [last A1];
    [clear - LP; lia|].
  eapply bind_returns; [rewrite C; reflexivity|].
  eapply bind_returns; [rewrite N; reflexivity|].
  eapply bind_returns; [reflexivity|].
  eapply bind_returns; [reflexivity|].
  eapply bind_returns; [rewrite A0; reflexivity|].
  eapply bind_returns; [rewrite A1; reflexivity|].
  do 8 (eapply bind_returns; [reflexivity|]).
  eexists. eexists. split; [reflexivity|]. split; [reflexivity|].
  rewrite length_app. cbn [List.length]. lia.
Qed.


Lemma afterEpoch_same_clock (w w' : World) :
  clock w' = clock w -> afterEpoch w -> afterEpoch w'.
Proof.
  unfold afterEpoch. intros E H k. rewrite E. apply H.
Qed.

Lemma forLoop_returns (line : Line) (lineIndex : Z) (count : nat) :
  (0 <= lineIndex)%Z ->
  forall (i : Z) (acc : list Train.t) (w : World),
    (0 <= i)%Z -> afterEpoch w ->
    exists acc' w',
      forLoop count i (initTrain line lineIndex (stationsOfLine line)) acc w
      = Some (acc', w')
      /\ (clock w' = clock w
          /\ List.length acc' = (count + List.length acc)%nat).
Proof.
  intro HL. induction count as [|count IH]; intros i acc w HI HC.
  - exists acc, w. repeat split.
  - cbn [forLoop].
    destruct (initTrain_returns line lineIndex i acc w HL HI (HC _))
      as (acc1 & w1 & E1 & C1 & L1).
    eapply bind_returns; [exact E1|].
    destruct (IH (i + 1)%Z acc1 w1 ltac:(lia)
                 (afterEpoch_same_clock _ _ C1 HC))
      as (acc2 & w2 & E2 & C2 & L2).
    exists acc2, w2. split; [exact E2|]. split; [congruence | lia].
Qed.

Lemma forEachLine_returns (ls : list Line) :
  forall (lineIndex : Z) (acc : list Train.t) (w : World),
    (0 <= lineIndex)%Z -> afterEpoch w ->
    exists acc' w',
      forEachLine ls lineIndex acc w = Some (acc', w')
      /\ List.length acc'
         = (list_sum (map trainCountOf ls) + List.length acc)%nat.
Proof.
  induction ls as [|line rest IH]; intros lineIndex acc w HL HC.
  - exists acc, w. split; reflexivity.
  - cbn [forEachLine]. unfold initLine.
    destruct (forLoop_returns line lineIndex (trainCountOf line) HL 0 acc w
                ltac:(lia) HC) as (acc1 & w1 & E1 & C1 & L1).
    unfold bind. rewrite E1.
    destruct (IH (lineIndex + 1)%Z acc1 w1 ltac:(lia)
                 (afterEpoch_same_clock _ _ C1 HC)) as (acc2 & w2 & E2 & L2).
    exists acc2, w2. split; [exact E2|].
    rewrite L2, L1. cbn [map]. unfold list_sum. cbn [fold_right]. lia.
Qed.

(** With a clock after the epoch, [initializeTrains] returns, with forty
    trains. *)
Lemma initializeTrains_returns (w : World) :
  afterEpoch w ->
  exists ts w',
    initializeTrains w = Some (ts, w') /\ List.length ts = 40%nat.
Proof.
  intro HC. unfold initializeTrains.
  destruct (forEachLine_returns lines 0 [] w ltac:(lia) HC)
    as (ts & w' & E & L).
  exists ts, w'. split; [exact E|]. rewrite L. reflexivity.
Qed.

Lemma reachable_onTrack (ts : list Train.t) :
  reachable ts -> Forall onTrack ts.
Proof.
  induction 1 as [w ts w' E | disruptionFactors ts w ts' w' _ IH E].
  - eapply initializeTrains_onTrack, E.
  - eapply updateTrainPositions_onTrack; eassumption.
Qed.

(** ** Positions stay inside their segment (C5) *)

Lemma onTrack_inSegment (train : Train.t) : onTrack train -> inSegment train.
Proof.
  intros [P0 P1 C0 NF NU]. unfold inSegment.
  repeat split; trivial; try (rewrite NF; clear - C0; lia);
    clear - C0 NF NU; lia.
Qed.

(** C5. Every train of a registry reachable from [initializeTrains] by
    position ticks has its segment position in [0, 1), names two different
    stations of its line as current and next, both at indices inside the
    line's station list; and the next tick returns on such a registry: none
    of its station lookups is out of range. *)
Theorem reachable_trains_in_segment (ts : list Train.t) :
  reachable ts ->
  Forall inSegment ts
  /\ forall (disruptionFactors : DisruptionFactors) (w : World),
       exists ts' w',
         updateTrainPositions disruptionFactors ts w = Some (ts', w').
Proof.
  intro R. apply reachable_onTrack in R. split.
  - eapply Forall_impl; [|exact R]. apply onTrack_inSegment.
  - intros disruptionFactors w. now apply updateTrainPositions_runs.
Qed.

Lemma registryAt_2323_reachable : reachable (registryAt worldAt2323).
Proof.
  apply (reachable_init worldAt2323 _ (worldAfterInit worldAt2323)).
  vm_compute. reflexivity.
Defined.

Lemma reachable_trains_in_segment_witness :
  reachable (registryAt worldAt2323)
  /\ Forall inSegment (registryAt worldAt2323)
  /\ forall (disruptionFactors : DisruptionFactors) (w : World),
       exists ts' w',
         updateTrainPositions disruptionFactors (registryAt worldAt2323) w
         = Some (ts', w').
Proof.
  split.
  - exact registryAt_2323_reachable.
  - exact (reachable_trains_in_segment _ registryAt_2323_reachable).
Defined.

(** ** The status follows the delay (C3) *)

(** A quick action keeps a train on track and its delay non-negative. *)
Lemma quickActionOn_keeps (action trainId : string) (train : Train.t) :
  (onTrack train -> onTrack (quickActionOn action trainId train))
  /\ (delayNonNegative train ->
      delayNonNegative (quickActionOn action trainId train)).
Proof.
  unfold quickActionOn, delayNonNegative.
  destruct (String.eqb (Train.id train) trainId); [|split; trivial].
  destruct (String.eqb action "hold");
    [|destruct (String.eqb action "swap");
      [|destruct (String.eqb action "reroute"); [|split; trivial]]].
  - split; [intros [P0 P1 C N U]; now constructor|].
    cbn [withStatus withDelay Train.delay]. intro D. lra.
  - split; [intros [P0 P1 C N U]; now constructor|].
    cbn [withDelay Train.delay]. intros _. apply Q.le_max_l.
  - split; [intros [P0 P1 C N U]; now constructor|].
    cbn [withStatus withDelay Train.delay]. intro D. lra.
Qed.

Lemma quickAction_onTrack (action trainId : string) (ts : list Train.t) :
  Forall onTrack ts -> Forall onTrack (map (quickActionOn action trainId) ts).
Proof.
  intro T. apply Forall_map. eapply Forall_impl; [|exact T].
  intro train. apply quickActionOn_keeps.
Qed.

Lemma lateRegistry_onTrack : Forall onTrack lateRegistry.
Proof.
  unfold lateRegistry. do 4 apply quickAction_onTrack.
  exact (reachable_onTrack _ registryAt_2323_reachable).
Defined.

Lemma worldAt5957_fair : fair worldAt5957.
Proof.
  intro n. split; [discriminate | reflexivity].
Defined.

(** The late trains before a tick, and after one in which every draw
    is 1/2 *)
Example late_registry_severities :
  severities 4 lateRegistry
  = [("W001"%string, Delayed, 6); ("W002"%string, Delayed, 3);
     ("W003"%string, Critical, 8); ("W004"%string, OnTime, 0)]
  /\ option_map (fun r => severities 4 (fst r))
                (updateTrainPositions initialDisruptionFactors lateRegistry
                                      worldAt5957)
     = Some [("W001"%string, Critical, 25 # 4);
             ("W002"%string, Delayed, 13 # 4);
             ("W003"%string, Critical, 33 # 4);
             ("W004"%string, OnTime, 1 # 4)].
Proof. split; vm_compute; reflexivity. Qed.

Lemma statusOfDelay_matches (train : Train.t) :
  Train.status train = statusOfDelay (Train.delay train) ->
  statusMatchesDelay train.
Proof.
  unfold statusMatchesDelay, statusOfDelay. intros ->.
  destruct (Js.gt (Train.delay train) 5) eqn:G5;
    [apply gt_true in G5
    |apply gt_false in G5; destruct (Js.gt (Train.delay train) 2) eqn:G2;
     [apply gt_true in G2 | apply gt_false in G2]];
    (split; [|split]); (split; intro H);
    try discriminate H; try reflexivity; try lra.
Qed.

(** Whenever the tick returns, it has derived every train's delay and
    status from the train at the same place of the old registry. *)
Lemma updateTrainPositions_derives (disruptionFactors : DisruptionFactors)
    (ts : list Train.t) (w : World) (ts' : list Train.t) (w' : World) :
  updateTrainPositions disruptionFactors ts w = Some (ts', w') ->
  Forall2 (statusDerived disruptionFactors w) ts ts'.
Proof.
  intro E.
  apply (mapM_Forall2 _ (fun w0 => randoms w0 = randoms w) (fun _ => True)
           (statusDerived disruptionFactors w)) in E; trivial.
  - apply E.
  - intros train w0 train' w0' _ I0 E0.
    destruct (updateTrain_outcome _ _ _ _ _ E0)
      as [p ci ni current next _ _ _ Hid _ _ _ _ D S _ R].
    split; [|congruence].
    split; [exact Hid|]. split.
    + exists (drawn w0). rewrite <- I0. exact D.
    + now apply statusOfDelay_matches.
  - apply Forall_forall. trivial.
Qed.

(** C3. A position tick on a registry of on-track trains (any reachable
    registry is one) returns a registry that holds, at the place of each
    train, a train with the same id whose delay is the old delay plus a
    draw of the random source times half the multiplier, and whose status
    is the function of that new delay given by the thresholds, whatever
    the status was before: Critical exactly when the delay exceeds 5,
    Delayed exactly when it exceeds 2 without exceeding 5, On Time
    exactly otherwise. *)
Theorem status_derived_after_tick (disruptionFactors : DisruptionFactors)
    (ts : list Train.t) (w : World) :
  Forall onTrack ts ->
  exists ts' w',
    updateTrainPositions disruptionFactors ts w = Some (ts', w')
    /\ Forall2 (statusDerived disruptionFactors w) ts ts'.
Proof.
  intro T.
  destruct (updateTrainPositions_runs disruptionFactors ts w T)
    as (ts' & w' & E).
  exists ts', w'. split; [exact E|].
  eapply updateTrainPositions_derives, E.
Qed.

Lemma status_derived_after_tick_witness :
  Forall onTrack lateRegistry
  /\ exists ts' w',
       updateTrainPositions initialDisruptionFactors lateRegistry worldAt5957
       = Some (ts', w')
       /\ Forall2 (statusDerived initialDisruptionFactors worldAt5957)
                  lateRegistry ts'.
Proof.
  split; [exact lateRegistry_onTrack|].
  exact (status_derived_after_tick initialDisruptionFactors lateRegistry
           worldAt5957 lateRegistry_onTrack).
Defined.

(** ** The delay multiplier (C4) *)

Lemma delayMultiplier_spec (disruptionFactors : DisruptionFactors) :
  delayMultiplier disruptionFactors == specMultiplier disruptionFactors.
Proof.
  unfold delayMultiplier, specMultiplier. cbv zeta. ring.
Qed.

(** C4. The multiplier the position tick applies to a train's random delay
    draw is [1 + 0.5 rushHour + 0.3 weather + 0.4 junctionCongestion
    + 0.6 equipmentReliability], whatever the levels; with the rush-hour
    level at 5 and the three other levels at 0 it is 3.5. *)
Theorem delay_multiplier_formula (disruptionFactors : DisruptionFactors)
    (train : Train.t) (w : World) (train' : Train.t) (w' : World) :
  updateTrain disruptionFactors train w = Some (train', w') ->
  delayMultiplier disruptionFactors == specMultiplier disruptionFactors
  /\ Train.delay train'
     == Train.delay train
        + randoms w (drawn w) * 0.5 * specMultiplier disruptionFactors
  /\ (rushHour disruptionFactors == 5 ->
      weather disruptionFactors == 0 ->
      junctionCongestion disruptionFactors == 0 ->
      equipmentReliability disruptionFactors == 0 ->
      delayMultiplier disruptionFactors == 3.5).
Proof.
  intro E. pose proof (delayMultiplier_spec disruptionFactors) as S.
  split; [exact S|]. split.
  - destruct (updateTrain_outcome _ _ _ _ _ E)
      as [p ci ni current next _ _ _ _ _ _ _ _ D _ _ _].
    rewrite D, S. reflexivity.
  - intros R W J Q. rewrite S. unfold specMultiplier.
    rewrite R, W, J, Q. reflexivity.
Qed.

Lemma delay_multiplier_formula_witness :
  updateTrain rushHourAtFive trainNearVirar worldAt5957
  = Some (resultOf (updateTrain rushHourAtFive trainNearVirar) worldAt5957
                   trainNearVirar,
          worldOf (updateTrain rushHourAtFive trainNearVirar) worldAt5957)
  /\ delayMultiplier rushHourAtFive == 3.5.
Proof.
  assert (E : updateTrain rushHourAtFive trainNearVirar worldAt5957
              = Some (resultOf (updateTrain rushHourAtFive trainNearVirar)
                               worldAt5957 trainNearVirar,
                      worldOf (updateTrain rushHourAtFive trainNearVirar)
                              worldAt5957)).
  { vm_compute. reflexivity. }
  split; [exact E|].
  apply (delay_multiplier_formula _ _ _ _ _ E); reflexivity.
Defined.

(** ** Wraparound at the terminus (C6) *)

(** A completed segment that ends at the last station sends the train to
    the first segment of the line. *)
Lemma advance_terminus (lineStations : list Station.t) (position : Q)
    (found : Z) :
  (found + 1 = Js.length lineStations - 1)%Z ->
  1 <= position + 0.05 ->
  advance lineStations position found = (0, 0%Z, 1%Z).
Proof.
  intros L P. unfold advance.
  assert (G : Js.ge (position + 0.05) 1.0 = true) by (apply ge_true; lra).
  rewrite G.
  destruct (Z.geb_spec (found + 1) (Js.length lineStations - 1));
    [reflexivity | lia].
Qed.

(** C6. When a train completes its segment (its position plus the per-tick
    increment reaches 1) and the station it arrives at is the last of its
    line, the tick returns the same train (same id, same line) with, as
    current and next station, the stations at index 0 and index 1 of its
    own line, at position 0; both indices are inside the station list. *)
Theorem terminus_wraps_to_origin (disruptionFactors : DisruptionFactors)
    (train : Train.t) (w : World) :
  (currentIndexOf train + 1 = lastIndexOf (Train.line train))%Z ->
  1 <= Train.positionInSegment train + 0.05 ->
  exists train' w',
    updateTrain disruptionFactors train w = Some (train', w')
    /\ Train.id train' = Train.id train
    /\ Train.line train' = Train.line train
    /\ (exists first second,
          Js.at_ (stationsOfLine (Train.line train)) 0 = Some first
          /\ Js.at_ (stationsOfLine (Train.line train)) 1 = Some second
          /\ Train.current train' = Station.name first
          /\ Train.next train' = Station.name second)
    /\ currentIndexOf train' = 0%Z
    /\ nextIndexOf train' = 1%Z
    /\ Train.positionInSegment train' = 0
    /\ (1 < Js.length (stationsOfLine (Train.line train')))%Z.
Proof.
  intros L P.
  pose proof (advance_terminus _ _ _ L P) as A.
  pose proof (lastIndex_positive (Train.line train)) as LP.
  destruct (at_in_range (stationsOfLine (Train.line train)) 0)
    as [current C]; [clear - LP; lia|].
  destruct (at_in_range (stationsOfLine (Train.line train)) 1)
    as [next N]; [clear - LP; lia|].
  destruct (updateTrain_returns disruptionFactors train w _ _ _ _ _ A C N)
    as (train' & w' & E).
  exists train', w'. split; [exact E|].
  destruct (updateTrain_outcome _ _ _ _ _ E)
    as [p ci ni current' next' A' C' N' Hid Hline Hcur Hnext Hpos _ _ _ _].
  rewrite A in A'. injection A' as <- <- <-.
  split; [exact Hid|]. split; [exact Hline|]. split.
  { exists current', next'. auto. }
  apply findIndex_at in C'. apply findIndex_at in N'.
  rewrite Hline, Hcur, Hnext, Hpos.
  repeat split; trivial. clear - LP. lia.
Qed.

(** The premise is met in operation: initialized three seconds before the
    hour, W001 starts on the last Western segment, past 0.95 of it. *)
Example last_segment_is_reached :
  option_map (fun train => (Train.id train, Train.current train,
                            Train.next train,
                            Qle_bool 0.95 (Train.positionInSegment train)))
             (nth_error (registryAt worldAt5957) 0)
  = Some ("W001", "Nallasopara", "Virar", true)%string.
Proof. vm_compute. reflexivity. Qed.

Lemma terminus_wraps_to_origin_witness :
  (currentIndexOf trainNearVirar + 1 = lastIndexOf Western)%Z
  /\ 1 <= Train.positionInSegment trainNearVirar + 0.05
  /\ exists train' w',
       updateTrain initialDisruptionFactors trainNearVirar worldAt5957
       = Some (train', w')
       /\ Train.id train' = Train.id trainNearVirar
       /\ Train.line train' = Train.line trainNearVirar
       /\ (exists first second,
             Js.at_ (stationsOfLine (Train.line trainNearVirar)) 0
             = Some first
             /\ Js.at_ (stationsOfLine (Train.line trainNearVirar)) 1
                = Some second
             /\ Train.current train' = Station.name first
             /\ Train.next train' = Station.name second)
       /\ currentIndexOf train' = 0%Z
       /\ nextIndexOf train' = 1%Z
       /\ Train.positionInSegment train' = 0
       /\ (1 < Js.length (stationsOfLine (Train.line train')))%Z.
Proof.
  assert (L : (currentIndexOf trainNearVirar + 1
               = lastIndexOf (Train.line trainNearVirar))%Z).
  { vm_compute. reflexivity. }
  assert (P : 1 <= Train.positionInSegment trainNearVirar + 0.05).
  { vm_compute. discriminate. }
  split; [exact L|]. split; [exact P|].
  exact (terminus_wraps_to_origin initialDisruptionFactors trainNearVirar
           worldAt5957 L P).
Defined.

(** ** Relating a registry to its successor *)

Lemma fair_same_randoms (w w' : World) :
  randoms w' = randoms w -> fair w -> fair w'.
Proof.
  unfold fair. intros E F n. rewrite E. apply F.
Qed.

(** A relation that every returning call of [updateTrain] establishes
    between an on-track train and its successor, under a fair random
    source, holds pointwise between a registry and its successor; and the
    tick returns on such a registry. *)
Lemma tick_relates (R : Train.t -> Train.t -> Prop)
    (disruptionFactors : DisruptionFactors) :
  (forall train w train' w',
     onTrack train -> fair w ->
     tickOutcome disruptionFactors train w train' w' -> R train train') ->
  forall ts w,
    Forall onTrack ts -> fair w ->
    exists ts' w',
      updateTrainPositions disruptionFactors ts w = Some (ts', w')
      /\ Forall2 R ts ts'.
Proof.
  intros step ts w T F.
  destruct (updateTrainPositions_runs disruptionFactors ts w T)
    as (ts' & w' & E).
  exists ts', w'. split; [exact E|].
  apply (mapM_Forall2 _ fair onTrack R) in E; trivial.
  - apply E.
  - intros train w0 train' w0' T0 F0 E0.
    pose proof (updateTrain_outcome _ _ _ _ _ E0) as O. split.
    + now apply (step train w0 train' w0').
    + destruct O. eapply fair_same_randoms; eassumption.
Qed.

(** ** Progress and delay over one tick (C9) *)

Lemma delayMultiplier_positive (disruptionFactors : DisruptionFactors) :
  levelsNonNegative disruptionFactors -> 1 <= delayMultiplier disruptionFactors.
Proof.
  intro L. rewrite delayMultiplier_spec. unfold specMultiplier.
  pose proof (L KRushHour) as R. pose proof (L KWeather) as W.
  pose proof (L KJunctionCongestion) as J.
  pose proof (L KEquipmentReliability) as Q.
  cbn [getFactor] in R, W, J, Q. lra.
Qed.

Lemma advance_position (lineStations : list Station.t) (position : Q)
    (found : Z) :
  (position + 0.05 < 1 ->
   fst (fst (advance lineStations position found)) = position + 0.05)
  /\ (1 <= position + 0.05 ->
      fst (fst (advance lineStations position found)) = 0).
Proof.
  unfold advance. destruct (Js.ge (position + 0.05) 1.0) eqn:G.
  - apply ge_true in G. split; intro H; [lra|].
    now destruct (found + 1 >=? Js.length lineStations - 1)%Z.
  - apply ge_false in G. split; intro H; [reflexivity | lra].
Qed.

(** One tick, position and delay: the tick returns, each position has grown
    by 0.05 or is back at 0, no delay has decreased. *)
Lemma tick_progress_and_delay_step (disruptionFactors : DisruptionFactors)
    (ts : list Train.t) (w : World) :
  levelsNonNegative disruptionFactors ->
  Forall onTrack ts ->
  fair w ->
  exists ts' w',
    updateTrainPositions disruptionFactors ts w = Some (ts', w')
    /\ Forall2 progressAndDelayStep ts ts'.
Proof.
  intros L T F. apply tick_relates; trivial.
  clear ts w T F. intros train w train' w' T F O.
  destruct O as [p ci ni current next A _ _ _ _ _ _ Hpos D _ _ _].
  pose proof (advance_position (stationsOfLine (Train.line train))
                (Train.positionInSegment train) (currentIndexOf train)) as AP.
  rewrite A in AP. cbn [fst] in AP. destruct AP as [AP1 AP2].
  pose proof (delayMultiplier_positive _ L) as MP.
  destruct (F (drawn w)) as [R0 _].
  assert (G : 0 <= randoms w (drawn w) * 0.5 * delayMultiplier disruptionFactors)
    by nra.
  unfold progressAndDelayStep. rewrite Hpos, D.
  repeat split; trivial; intros; lra.
Qed.


Lemma initTrain_delays (line : Line) (lineIndex i : Z)
    (acc : list Train.t) (w : World) (acc' : list Train.t) (w' : World) :
  fair w -> Forall delayNonNegative acc ->
  initTrain line lineIndex (stationsOfLine line) i acc w = Some (acc', w') ->
  Forall delayNonNegative acc' /\ fair w'.
Proof.
  intros F T. unfold initTrain.
  destruct (Js.length (stationsOfLine line) >=? 2)%Z.
  - intro E. effects.
    assert (R : randoms w' = randoms w) by congruence.
    split; [|eapply fair_same_randoms; eassumption].
    match goal with H : acc' = _ |- _ => rewrite H end.
    apply Forall_app. split; [assumption|]. constructor; [|constructor].
    unfold delayNonNegative. cbn [Train.delay].
    match goal with
    | H : ?r = randoms ?v ?n |- 0 <= ?r * 3 =>
        assert (V : randoms v = randoms w) by congruence;
        rewrite H, V; destruct (F n); lra
    end.
  - intro E. effects. subst. split; assumption.
Qed.

Lemma forLoop_delays (line : Line) (lineIndex : Z) (count : nat) :
  forall (i : Z) (acc : list Train.t) (w : World) (acc' : list Train.t)
         (w' : World),
    fair w -> Forall delayNonNegative acc ->
    forLoop count i (initTrain line lineIndex (stationsOfLine line)) acc w
    = Some (acc', w') ->
    Forall delayNonNegative acc' /\ fair w'.
Proof.
  induction count as [|count IH]; intros i acc w acc' w' F T E.
  - apply ret_Some in E. destruct E as [-> ->]. split; assumption.
  - cbn [forLoop] in E. apply bind_Some in E.
    destruct E as (acc1 & w1 & E1 & E).
    destruct (initTrain_delays _ _ _ _ _ _ _ F T E1) as [T1 F1].
    eapply IH; eassumption.
Qed.

Lemma forEachLine_delays (ls : list Line) :
  forall (lineIndex : Z) (acc : list Train.t) (w : World)
         (acc' : list Train.t) (w' : World),
    fair w -> Forall delayNonNegative acc ->
    forEachLine ls lineIndex acc w = Some (acc', w') ->
    Forall delayNonNegative acc'.
Proof.
  induction ls as [|line rest IH]; intros lineIndex acc w acc' w' F T E.
  - apply ret_Some in E. destruct E as [-> _]. assumption.
  - cbn [forEachLine] in E. apply bind_Some in E.
    destruct E as (acc1 & w1 & E1 & E). unfold initLine in E1.
    destruct (forLoop_delays _ _ _ _ _ _ _ _ F T E1) as [T1 F1].
    eapply IH; eassumption.
Qed.

(** Under a fair random source every initial delay is non-negative. *)
Lemma initializeTrains_delays (w : World) (ts : list Train.t) (w' : World) :
  fair w -> initializeTrains w = Some (ts, w') -> Forall delayNonNegative ts.
Proof.
  intros F E. unfold initializeTrains in E.
  eapply forEachLine_delays; [exact F | constructor | exact E].
Qed.

(** Every registry the running simulation can hold has all its trains on
    track, with non-negative delays. *)
Lemma operable_invariant (ts : list Train.t) :
  operable ts -> Forall onTrack ts /\ Forall delayNonNegative ts.
Proof.
  induction 1 as [w ts w' F E
                 | disruptionFactors ts w ts' w' _ [IT ID] F L E
                 | action trainId ts _ [IT ID]].
  - split; [eapply initializeTrains_onTrack | eapply initializeTrains_delays];
      eassumption.
  - split; [eapply updateTrainPositions_onTrack; eassumption|].
    destruct (tick_progress_and_delay_step disruptionFactors ts w L IT F)
      as (ts1 & w1 & E1 & S).
    rewrite E in E1. injection E1 as <- <-.
    eapply Forall2_preserves; [| exact S | exact ID].
    intros train train' (_ & _ & _ & K). exact K.
  - split; apply Forall_map; [eapply Forall_impl; [|exact IT]
                             |eapply Forall_impl; [|exact ID]];
      intro train; apply quickActionOn_keeps.
Qed.

(** C9, as the code has it. A position tick on a registry of on-track
    trains, with a fair random source and non-negative factor levels (all
    zero in particular), returns; each train's segment position has grown
    by 0.05 when that stays below 1 and is back at 0 otherwise; no delay
    has decreased, and a non-negative delay is still non-negative. On the
    registries of a running simulation every delay is non-negative, before
    and after the tick. *)
Theorem tick_progress_and_delay (disruptionFactors : DisruptionFactors)
    (ts : list Train.t) (w : World) :
  levelsNonNegative disruptionFactors ->
  Forall onTrack ts ->
  fair w ->
  exists ts' w',
    updateTrainPositions disruptionFactors ts w = Some (ts', w')
    /\ Forall2 progressAndDelayStep ts ts'
    /\ (operable ts ->
        Forall delayNonNegative ts /\ Forall delayNonNegative ts').
Proof.
  intros L T F.
  destruct (tick_progress_and_delay_step disruptionFactors ts w L T F)
    as (ts' & w' & E & S).
  exists ts', w'. split; [exact E|]. split; [exact S|].
  intro O. split; [apply operable_invariant, O|].
  apply (operable_invariant ts').
  eapply operable_tick; eassumption.
Qed.

Lemma steadyWorld_fair (now : Z) (r : Q) :
  0 <= r -> r < 1 -> fair (steadyWorld now r).
Proof.
  intros L U n. split; assumption.
Qed.

Lemma worldAt2323_after_init_fair : fair (worldAfterInit worldAt2323).
Proof.
  apply (fair_same_randoms worldAt2323).
  - vm_compute. reflexivity.
  - apply steadyWorld_fair; [apply Qle_refl | reflexivity].
Defined.

Lemma initial_levels_non_negative : levelsNonNegative initialDisruptionFactors.
Proof.
  intros []; apply Qle_refl.
Defined.

Lemma tick_progress_and_delay_witness :
  levelsNonNegative initialDisruptionFactors
  /\ Forall onTrack (registryAt worldAt2323)
  /\ fair (worldAfterInit worldAt2323)
  /\ exists ts' w',
       updateTrainPositions initialDisruptionFactors (registryAt worldAt2323)
                            (worldAfterInit worldAt2323) = Some (ts', w')
       /\ Forall2 progressAndDelayStep (registryAt worldAt2323) ts'
       /\ (operable (registryAt worldAt2323) ->
           Forall delayNonNegative (registryAt worldAt2323)
           /\ Forall delayNonNegative ts').
Proof.
  assert (T : Forall onTrack (registryAt worldAt2323)).
  { apply reachable_onTrack, registryAt_2323_reachable. }
  split; [exact initial_levels_non_negative|].
  split; [exact T|].
  split; [exact worldAt2323_after_init_fair|].
  exact (tick_progress_and_delay initialDisruptionFactors _ _
           initial_levels_non_negative T worldAt2323_after_init_fair).
Defined.

(** C9, as stated, fails. Initialized at 23 minutes past the hour, the first
    Western train, W001, starts 29/30 of the way from Bandra to Khar Road;
    one tick with all factors at zero takes it to Khar Road with its
    position back at 0, not at 29/30 + 0.05. *)
Lemma progress_resets_on_arrival :
  initializeTrains worldAt2323
  = Some (registryAt worldAt2323, worldAfterInit worldAt2323)
  /\ updateTrainPositions initialDisruptionFactors (registryAt worldAt2323)
                          (worldAfterInit worldAt2323)
     = Some (registryAfter 1, worldAfter 1)
  /\ exists train train',
       nth_error (registryAt worldAt2323) 0 = Some train
       /\ nth_error (registryAfter 1) 0 = Some train'
       /\ Train.id train = "W001"%string
       /\ Train.id train' = "W001"%string
       /\ Train.line train = Western
       /\ Train.current train = "Bandra"%string
       /\ Train.current train' = "Khar Road"%string
       /\ Train.positionInSegment train == 29 # 30
       /\ Train.positionInSegment train' == 0
       /\ ~ Train.positionInSegment train'
            == Train.positionInSegment train + 0.05.
Proof.
  split; [vm_compute; reflexivity|].
  split; [vm_compute; reflexivity|].
  eexists. eexists.
  split; [vm_compute; reflexivity|].
  split; [vm_compute; reflexivity|].
  repeat split; try (vm_compute; reflexivity).
  intro H. vm_compute in H. discriminate H.
Qed.

(** ** Passenger counts (C2) *)

Lemma passenger_delta_range (r : Q) :
  0 <= r -> r < 1 -> (-20 <= Js.floor (r * 50 - 20) < 30)%Z.
Proof.
  intros L U. split.
  - apply floor_at_least. change (inject_Z (-20)) with (-20). lra.
  - apply floor_below. change (inject_Z 30) with 30. lra.
Qed.

(** C2, as the code has it. A position tick on a registry of on-track
    trains, with a fair random source, returns, and each new passenger
    count is [min(old + delta, 2000)] for an integer [delta] with
    [-20 <= delta < 30]: it is at most 2000, and it is non-negative
    whenever the old count was at least 20. *)
Theorem passengers_capped_above (disruptionFactors : DisruptionFactors)
    (ts : list Train.t) (w : World) :
  Forall onTrack ts ->
  fair w ->
  exists ts' w',
    updateTrainPositions disruptionFactors ts w = Some (ts', w')
    /\ Forall2 passengersStep ts ts'.
Proof.
  intros T F. apply tick_relates; trivial.
  clear ts w T F. intros train w train' w' T F O.
  destruct O as [p ci ni current next _ _ _ _ _ _ _ _ _ _ P _].
  destruct (F (2 + drawn w)%nat) as [R0 R1].
  pose proof (passenger_delta_range _ R0 R1) as [D0 D1].
  exists (Js.floor (randoms w (2 + drawn w) * 50 - 20)).
  split; [split; assumption|]. split; [exact P|]. rewrite P.
  split.
  - apply Q.le_min_r.
  - intro H. apply Q.min_glb; [|lra].
    assert (-20 <= inject_Z (Js.floor (randoms w (2 + drawn w) * 50 - 20))).
    { change (-20) with (inject_Z (-20)). now rewrite <- Zle_Qle. }
    lra.
Qed.

Lemma passengers_capped_above_witness :
  Forall onTrack (registryAt worldAt2323)
  /\ fair (worldAfterInit worldAt2323)
  /\ exists ts' w',
       updateTrainPositions initialDisruptionFactors (registryAt worldAt2323)
                            (worldAfterInit worldAt2323) = Some (ts', w')
       /\ Forall2 passengersStep (registryAt worldAt2323) ts'.
Proof.
  assert (T : Forall onTrack (registryAt worldAt2323)).
  { apply reachable_onTrack, registryAt_2323_reachable. }
  split; [exact T|].
  split; [exact worldAt2323_after_init_fair|].
  exact (passengers_capped_above initialDisruptionFactors _ _ T
           worldAt2323_after_init_fair).
Defined.

Lemma clamp_lower (x lo hi : Q) : lo <= clamp x lo hi.
Proof. unfold clamp. apply Q.le_max_l. Qed.

(** C2, as stated, fails. With a random source that always yields 0 (every
    passenger delta is -20), W001 starts with 200 passengers, has none left
    after ten ticks, and has -20 after the eleventh: no [clamp(.., 0, 2000)]
    yields that count. *)
Lemma passengers_fall_below_zero :
  fair worldAt2323
  /\ initializeTrains worldAt2323
     = Some (registryAt worldAt2323, worldAfterInit worldAt2323)
  /\ ticks 10 initialDisruptionFactors (registryAt worldAt2323)
           (worldAfterInit worldAt2323)
     = Some (registryAfter 10, worldAfter 10)
  /\ updateTrainPositions initialDisruptionFactors (registryAfter 10)
                          (worldAfter 10)
     = Some (registryAfter 11, worldAfter 11)
  /\ exists old new,
       nth_error (map Train.passengers (registryAfter 10)) 0 = Some old
       /\ nth_error (map Train.passengers (registryAfter 11)) 0 = Some new
       /\ old == 0
       /\ new == -20
       /\ forall delta, ~ new == clamp (old + delta) 0 2000.
Proof.
  split; [apply steadyWorld_fair; [apply Qle_refl | reflexivity]|].
  split; [vm_compute; reflexivity|].
  split; [vm_compute; reflexivity|].
  split; [vm_compute; reflexivity|].
  eexists. eexists.
  split; [vm_compute; reflexivity|].
  split; [vm_compute; reflexivity|].
  split; [vm_compute; reflexivity|].
  split; [vm_compute; reflexivity|].
  intros delta H.
  pose proof (clamp_lower (0 + delta) 0 2000) as L0.
  revert H L0. generalize (clamp (0 + delta) 0 2000). intros c H L0.
  rewrite <- H in L0. vm_compute in L0. apply L0. reflexivity.
Qed.

(** ** The decision log (C10) *)

Lemma addAiDecisionLog_eq (message : string) (prev : list string) (w : World) :
  addAiDecisionLog message prev w
  = Some (logEntry w message :: Js.slice0 9 prev, afterLook w).
Proof. reflexivity. Qed.

(** C10. Appending to the decision log always returns; the new log has the
    new entry first, followed by the first nine entries of the old log in
    their order and unchanged, so it never has more than ten entries and
    what is dropped is the oldest. *)
Theorem log_append_is_bounded (message : string) (prev : list string)
    (w : World) :
  exists newLog w',
    addAiDecisionLog message prev w = Some (newLog, w')
    /\ newLog = logEntry w message :: firstn 9 prev
    /\ (List.length newLog <= 10)%nat
    /\ (forall i, (i < 9)%nat -> nth_error newLog (S i) = nth_error prev i)
    /\ (forall i, (9 <= i)%nat -> nth_error newLog (S i) = None)
    /\ (List.length prev <= 9 -> List.length newLog = S (List.length prev))%nat.
Proof.
  exists (logEntry w message :: firstn 9 prev), (afterLook w).
  split; [apply addAiDecisionLog_eq|]. split; [reflexivity|].
  pose proof (firstn_le_length 9 prev) as B.
  split; [cbn [List.length]; lia|]. split; [|split].
  - intros i Hi. cbn [nth_error]. rewrite nth_error_firstn.
    apply Nat.ltb_lt in Hi. now rewrite Hi.
  - intros i Hi. cbn [nth_error]. apply nth_error_None. lia.
  - intro Hl. cbn [List.length]. now rewrite firstn_all2.
Qed.

(** ** Disruption factor levels (C8) *)

Lemma getFactor_setFactor_same (factor : FactorKey) (v : Q)
    (prev : DisruptionFactors) :
  getFactor factor (setFactor factor v prev) = v.
Proof. destruct factor; reflexivity. Qed.

Lemma getFactor_setFactor_other (factor other : FactorKey) (v : Q)
    (prev : DisruptionFactors) :
  other <> factor ->
  getFactor other (setFactor factor v prev) = getFactor other prev.
Proof. destruct factor, other; intro N; try reflexivity; now destruct N. Qed.

Lemma isLevel_next (v : Q) : isLevel v -> isLevel (Qmin (v + 1) 5).
Proof.
  intros (z & R & E). destruct (Z.eq_dec z 5) as [->|N].
  - exists 5%Z. split; [lia|]. rewrite E. reflexivity.
  - exists (z + 1)%Z. split; [lia|]. rewrite E, inject_Z_plus.
    apply Q.min_l. change (inject_Z 1) with 1.
    assert (inject_Z z <= 4).
    { change 4 with (inject_Z 4). rewrite <- Zle_Qle. lia. }
    lra.
Qed.

Lemma addDisruptionFactor_levels (factor : FactorKey)
    (prev : DisruptionFactors) :
  (forall k, isLevel (getFactor k prev)) ->
  forall k, isLevel (getFactor k (addDisruptionFactor factor prev)).
Proof.
  intros L k. unfold addDisruptionFactor.
  destruct (FactorKey_eq_dec k factor) as [->|N].
  - rewrite getFactor_setFactor_same. apply isLevel_next, L.
  - rewrite getFactor_setFactor_other by exact N. apply L.
Qed.

Lemma increments_levels (clicks : list FactorKey) :
  forall start,
    (forall k, isLevel (getFactor k start)) ->
    forall k,
      isLevel (getFactor k
                 (fold_left (fun prev factor => addDisruptionFactor factor prev)
                            clicks start)).
Proof.
  induction clicks as [|factor rest IH]; intros start L; cbn [fold_left].
  - exact L.
  - apply IH. now apply addDisruptionFactor_levels.
Qed.

Lemma initial_levels (k : FactorKey) :
  isLevel (getFactor k initialDisruptionFactors).
Proof.
  exists 0%Z. split; [lia|]. destruct k; reflexivity.
Qed.

(** C8. After any sequence of clicks from the initial levels, every level
    is one of the integers 0, ..., 5; one more click on a factor raises its
    level by 1 if it was below 5 and leaves it at 5 if it was 5, and
    changes no other level. *)
Theorem factor_levels_stay_in_range (clicks : list FactorKey)
    (factor : FactorKey) :
  exists z : Z,
    (0 <= z <= 5)%Z
    /\ getFactor factor (afterIncrements clicks) == inject_Z z
    /\ ((z < 5)%Z ->
        getFactor factor (addDisruptionFactor factor (afterIncrements clicks))
        == inject_Z (z + 1))
    /\ (z = 5%Z ->
        getFactor factor (addDisruptionFactor factor (afterIncrements clicks))
        == 5)
    /\ forall other,
         other <> factor ->
         getFactor other (addDisruptionFactor factor (afterIncrements clicks))
         = getFactor other (afterIncrements clicks).
Proof.
  destruct (increments_levels clicks _ initial_levels factor) as (z & R & E).
  exists z. split; [exact R|]. split; [exact E|].
  unfold addDisruptionFactor. rewrite getFactor_setFactor_same.
  split; [|split].
  - intro B. rewrite E, inject_Z_plus. change (inject_Z 1) with 1.
    apply Q.min_l.
    assert (inject_Z z <= 4).
    { change 4 with (inject_Z 4). rewrite <- Zle_Qle. lia. }
    lra.
  - intros ->. rewrite E. reflexivity.
  - intros other N. now apply getFactor_setFactor_other.
Qed.

(** ** Quick actions (C7, C1) *)

Lemma performQuickAction_eq (action trainId : string) (s : State) (w : World) :
  performQuickAction action trainId s w
  = Some ({| trains := map (quickActionOn action trainId) (trains s);
             disruptionFactors := disruptionFactors s;
             aiDecisionLog :=
               logEntry w (actionMessage action trainId)
               :: firstn 9 (aiDecisionLog s) |},
          afterLook w).
Proof. reflexivity. Qed.

(** What [max(0, delay - 2)] does to a delay *)
Lemma swap_delay (d : Q) :
  0 <= Qmax 0 (d - 2)
  /\ (Qmax 0 (d - 2) < d \/ (Qmax 0 (d - 2) == 0 /\ d <= 2))
  /\ (0 <= d -> Qmax 0 (d - 2) < d \/ (Qmax 0 (d - 2) == 0 /\ d == 0)).
Proof.
  split; [apply Q.le_max_l|].
  destruct (Q.max_spec 0 (d - 2)) as [[L E]|[L E]]; rewrite E.
  - split; [left; lra | intros _; left; lra].
  - split; [right; split; [reflexivity | lra]|].
    intro P. destruct (Qlt_le_dec 0 d) as [G|G].
    + left. exact G.
    + right. split; [reflexivity | lra].
Qed.

(** C7. For a train of the registry with the given id, [hold] adds 3 to
    its delay and sets its status to Delayed; [swap] replaces its delay by
    [max(0, delay - 2)], which is below the old delay or is 0 (the old
    delay then being at most 2), and keeps its status; [reroute] adds 8 to
    its delay and sets its status to Critical. The call always returns and
    keeps the train at its place in the registry. *)
Theorem quick_action_effects (trainId : string) (s : State) (w : World)
    (k : nat) (train : Train.t) :
  nth_error (trains s) k = Some train ->
  Train.id train = trainId ->
  quickActionOutcome trainId s w k train.
Proof.
  intros K I.
  assert (A : forall action,
             nth_error (map (quickActionOn action trainId) (trains s)) k
             = Some (quickActionOn action trainId train)).
  { intro action. now rewrite nth_error_map, K. }
  assert (H : String.eqb (Train.id train) trainId = true)
    by now apply String.eqb_eq.
  unfold quickActionOutcome. split; [|split].
  - exists {| trains := map (quickActionOn "hold" trainId) (trains s);
              disruptionFactors := disruptionFactors s;
              aiDecisionLog :=
                logEntry w (actionMessage "hold" trainId)
                :: firstn 9 (aiDecisionLog s) |},
           (afterLook w), (quickActionOn "hold" trainId train).
    split; [apply performQuickAction_eq|]. split; [apply A|].
    unfold quickActionOn. rewrite H. split; reflexivity.
  - exists {| trains := map (quickActionOn "swap" trainId) (trains s);
              disruptionFactors := disruptionFactors s;
              aiDecisionLog :=
                logEntry w (actionMessage "swap" trainId)
                :: firstn 9 (aiDecisionLog s) |},
           (afterLook w), (quickActionOn "swap" trainId train).
    split; [apply performQuickAction_eq|]. split; [apply A|].
    unfold quickActionOn. rewrite H.
    cbn [String.eqb Ascii.eqb Bool.eqb withDelay Train.delay Train.status].
    split; [reflexivity|].
    destruct (swap_delay (Train.delay train)) as (S0 & S1 & S2).
    repeat split; assumption.
  - exists {| trains := map (quickActionOn "reroute" trainId) (trains s);
              disruptionFactors := disruptionFactors s;
              aiDecisionLog :=
                logEntry w (actionMessage "reroute" trainId)
                :: firstn 9 (aiDecisionLog s) |},
           (afterLook w), (quickActionOn "reroute" trainId train).
    split; [apply performQuickAction_eq|]. split; [apply A|].
    unfold quickActionOn. rewrite H. split; reflexivity.
Qed.

Lemma quick_action_effects_witness :
  nth_error (trains stateNearVirar) 0 = Some trainNearVirar
  /\ Train.id trainNearVirar = "W001"%string
  /\ quickActionOutcome "W001" stateNearVirar worldAt5957 0 trainNearVirar.
Proof.
  split; [reflexivity|]. split; [reflexivity|].
  exact (quick_action_effects "W001" stateNearVirar worldAt5957 0
           trainNearVirar eq_refl eq_refl).
Defined.

(** A quick action leaves every train with another id as it is. *)
Lemma quickActionOn_other (action trainId : string) (ts : list Train.t) :
  ~ In trainId (map Train.id ts) ->
  map (quickActionOn action trainId) ts = ts.
Proof.
  induction ts as [|train rest IH]; intro N; [reflexivity|].
  cbn [map] in *. rewrite IH by (intro H; apply N; now right).
  unfold quickActionOn.
  destruct (String.eqb_spec (Train.id train) trainId) as [E|_];
    [|reflexivity].
  exfalso. apply N. now left.
Qed.

(** C1, as the code has it. A quick action on an id that no train of the
    registry carries returns, leaves the registry and the factor levels as
    they are, and puts one new entry at the front of the decision log: the
    [ACTION] line for that action and id, before the first nine old
    entries. *)
Theorem unknown_id_changes_only_log (action trainId : string) (s : State)
    (w : World) :
  ~ In trainId (map Train.id (trains s)) ->
  exists s' w',
    performQuickAction action trainId s w = Some (s', w')
    /\ trains s' = trains s
    /\ disruptionFactors s' = disruptionFactors s
    /\ aiDecisionLog s'
       = logEntry w (actionMessage action trainId)
         :: firstn 9 (aiDecisionLog s).
Proof.
  intro N. rewrite performQuickAction_eq.
  eexists. eexists. split; [reflexivity|]. cbn [trains disruptionFactors
                                                  aiDecisionLog].
  split; [now apply quickActionOn_other|]. split; reflexivity.
Qed.

Lemma unknown_id_at_2323 :
  ~ In "X000"%string (map Train.id (trains stateAt2323)).
Proof.
  intro H.
  assert (B : existsb (String.eqb "X000")
                      (map Train.id (trains stateAt2323)) = false).
  { vm_compute. reflexivity. }
  assert (T : existsb (String.eqb "X000")
                      (map Train.id (trains stateAt2323)) = true).
  { apply existsb_exists. exists "X000"%string.
    split; [exact H | apply String.eqb_refl]. }
  rewrite B in T. discriminate T.
Defined.

Lemma unknown_id_changes_only_log_witness :
  ~ In "X000"%string (map Train.id (trains stateAt2323))
  /\ exists s' w',
       performQuickAction "hold" "X000" stateAt2323
                          (worldAfterInit worldAt2323) = Some (s', w')
       /\ trains s' = trains stateAt2323
       /\ disruptionFactors s' = disruptionFactors stateAt2323
       /\ aiDecisionLog s'
          = logEntry (worldAfterInit worldAt2323) (actionMessage "hold" "X000")
            :: firstn 9 (aiDecisionLog stateAt2323).
Proof.
  split; [exact unknown_id_at_2323|].
  exact (unknown_id_changes_only_log "hold" "X000" stateAt2323
           (worldAfterInit worldAt2323) unknown_id_at_2323).
Defined.

(** C1, as stated, fails. After initialization no train has the id X000;
    [hold] on X000 leaves the forty trains as they are but the log, two
    entries long before, has three entries afterwards, the first of them
    the [ACTION] line. *)
Lemma unknown_id_is_logged :
  ~ In "X000"%string (map Train.id (trains stateAt2323))
  /\ exists s' w',
       performQuickAction "hold" "X000" stateAt2323
                          (worldAfterInit worldAt2323) = Some (s', w')
       /\ trains s' = trains stateAt2323
       /\ List.length (trains stateAt2323) = 40%nat
       /\ aiDecisionLog stateAt2323
          = ["[SYSTEM] AI Optimization Suite Initialized";
             "[READY] Awaiting activation command..."]%string
       /\ aiDecisionLog s'
          = ["[10:30:00 AM] [ACTION] HOLD applied to X000";
             "[SYSTEM] AI Optimization Suite Initialized";
             "[READY] Awaiting activation command..."]%string
       /\ aiDecisionLog s' <> aiDecisionLog stateAt2323.
Proof.
  split; [exact unknown_id_at_2323|].
  eexists. eexists. split; [apply performQuickAction_eq|].
  cbn [trains aiDecisionLog].
  split; [apply quickActionOn_other, unknown_id_at_2323|].
  split; [vm_compute; reflexivity|].
  split; [reflexivity|].
  split; [vm_compute; reflexivity|].
  intro H. vm_compute in H. discriminate H.
Qed.

(** * Further properties *)

(** ** What [initializeTrains] builds *)

Lemma fair_floor_range (r : Q) (scale offset : Z) :
  0 <= r -> r < 1 -> (0 < scale)%Z ->
  (offset <= Js.floor (r * inject_Z scale + inject_Z offset)
   < offset + scale)%Z.
Proof.
  intros L U S.
  assert (0 < inject_Z scale).
  { change 0 with (inject_Z 0). now rewrite <- Zlt_Qlt. }
  split.
  - apply floor_at_least. nra.
  - apply floor_below. rewrite inject_Z_plus. nra.
Qed.

(** One iteration appends one train, of the shape its slot fixes; under a
    fair random source its drawn fields are in their ranges. *)
Lemma initTrain_builds (line : Line) (lineIndex i : Z)
    (acc : list Train.t) (w : World) (acc' : list Train.t) (w' : World) :
  initTrain line lineIndex (stationsOfLine line) i acc w = Some (acc', w') ->
  exists train,
    acc' = acc ++ [train]
    /\ builtFor (line, i) train
    /\ (fair w -> freshlyDrawn train /\ fair w').
Proof.
  unfold initTrain.
  assert (G : (Js.length (stationsOfLine line) >=? 2)%Z = true).
  { rewrite stations_count. destruct line; reflexivity. }
  rewrite G. intro E. effects.
  match goal with H : acc' = _ ++ [?t] |- _ => exists t; split; [exact H|] end.
  split; [repeat split|].
  intro F.
  assert (R : randoms w' = randoms w) by congruence.
  split; [|eapply fair_same_randoms; eassumption].
  unfold freshlyDrawn.
  cbn [Train.delay Train.passengers Train.speed Train.distanceToNext].
  repeat match goal with
         | H : ?r = randoms ?v ?n |- _ =>
             let V := fresh "V" in
             let B := fresh "B" in
             assert (V : randoms v = randoms w) by congruence;
             assert (B : 0 <= r /\ r < 1) by (rewrite H, V; apply F);
             clear H V
         end.
  repeat match goal with B : _ /\ _ |- _ => destruct B end.
  repeat split; try lra.
  match goal with
  | |- exists n, _ /\ inject_Z (Js.floor (?r * 600 + 200)) = _ =>
      exists (Js.floor (r * 600 + 200)); split; [|reflexivity];
      apply (fair_floor_range r 600 200); [assumption | assumption | lia]
  end.
Qed.

Lemma forLoop_builds (line : Line) (lineIndex : Z) (count : nat) :
  forall (i : Z) (acc : list Train.t) (w : World) (acc' : list Train.t)
         (w' : World),
    forLoop count i (initTrain line lineIndex (stationsOfLine line)) acc w
    = Some (acc', w') ->
    exists new,
      acc' = acc ++ new
      /\ Forall2 builtFor (map (pair line) (loopValues i count)) new
      /\ (fair w -> Forall freshlyDrawn new /\ fair w').
Proof.
  induction count as [|count IH]; intros i acc w acc' w' E.
  - apply ret_Some in E. destruct E as [-> ->]. exists [].
    rewrite app_nil_r. split; [reflexivity|]. split; [constructor|].
    intro F. split; [constructor | exact F].
  - cbn [forLoop] in E. apply bind_Some in E.
    destruct E as (acc1 & w1 & E1 & E).
    destruct (initTrain_builds _ _ _ _ _ _ _ E1) as (train & -> & B & D).
    destruct (IH _ _ _ _ _ E) as (new & -> & Bs & Ds).
    exists (train :: new). rewrite <- app_assoc. split; [reflexivity|].
    split; [constructor; assumption|].
    intro F. destruct (D F) as [D1 F1]. destruct (Ds F1) as [D2 F2].
    split; [constructor|]; assumption.
Qed.

Lemma forEachLine_builds (ls : list Line) :
  forall (lineIndex : Z) (acc : list Train.t) (w : World)
         (acc' : list Train.t) (w' : World),
    forEachLine ls lineIndex acc w = Some (acc', w') ->
    exists new,
      acc' = acc ++ new
      /\ Forall2 builtFor
           (flat_map (fun line =>
                        map (pair line) (loopValues 0 (trainCountOf line))) ls)
           new
      /\ (fair w -> Forall freshlyDrawn new).
Proof.
  induction ls as [|line rest IH]; intros lineIndex acc w acc' w' E.
  - apply ret_Some in E. destruct E as [-> ->]. exists [].
    rewrite app_nil_r. split; [reflexivity|]. split; [constructor|].
    intros _. constructor.
  - cbn [forEachLine] in E. apply bind_Some in E.
    destruct E as (acc1 & w1 & E1 & E). unfold initLine in E1.
    destruct (forLoop_builds _ _ _ _ _ _ _ _ E1) as (new1 & -> & B1 & D1).
    destruct (IH _ _ _ _ _ E) as (new2 & -> & B2 & D2).
    exists (new1 ++ new2). rewrite <- app_assoc. split; [reflexivity|].
    split; [cbn [flat_map]; now apply Forall2_app|].
    intro F. destruct (D1 F) as [D F1]. apply Forall_app. auto.
Qed.

Lemma initializeTrains_builds (w : World) (ts : list Train.t) (w' : World) :
  initializeTrains w = Some (ts, w') ->
  Forall2 builtFor trainSlots ts /\ (fair w -> Forall freshlyDrawn ts).
Proof.
  unfold initializeTrains. intro E.
  destruct (forEachLine_builds _ _ _ _ _ _ E) as (new & -> & B & D).
  split; assumption.
Qed.

Lemma Forall2_map_eq {A B C : Type} (R : A -> B -> Prop) (f : A -> C)
    (g : B -> C) (xs : list A) (ys : list B) :
  (forall x y, R x y -> g y = f x) ->
  Forall2 R xs ys -> map g ys = map f xs.
Proof.
  intros H F. induction F as [|x y xs ys Rxy _ IH]; [reflexivity|].
  cbn [map]. now rewrite IH, (H x y Rxy).
Qed.

(** X1. Whenever [initializeTrains] returns, the registry holds forty
    trains, with the ids W001..W015, C001..C015, T001..T010 in this order:
    no two trains share an id, and each train is on the line its letter
    names. With a clock that shows a time after the epoch it returns. *)
Theorem initial_registry_ids (w : World) :
  (forall ts w',
     initializeTrains w = Some (ts, w') ->
     map Train.id ts = allTrainIds
     /\ NoDup (map Train.id ts)
     /\ List.length ts = 40%nat
     /\ map Train.line ts
        = repeat Western 15 ++ repeat CentralMain 15 ++ repeat TransHarbour 10)
  /\ (afterEpoch w -> exists ts w', initializeTrains w = Some (ts, w')).
Proof.
  split.
  - intros ts w' E. destruct (initializeTrains_builds _ _ _ E) as [B _].
    assert (I : map Train.id ts = allTrainIds).
    { rewrite (Forall2_map_eq builtFor
                 (fun slot => trainIdOf (fst slot) (snd slot)) Train.id _ _
                 (fun x y H => proj1 H) B).
      vm_compute. reflexivity. }
    split; [exact I|]. split.
    + rewrite I. apply (NoDup_count_occ' string_dec).
      intros x Hx. vm_compute in Hx.
      repeat (destruct Hx as [<-|Hx]; [vm_compute; reflexivity|]).
      contradiction.
    + split.
      * rewrite <- (length_map Train.id), I. reflexivity.
      * rewrite (Forall2_map_eq builtFor fst Train.line _ _
                   (fun x y H => proj1 (proj2 H)) B).
        vm_compute. reflexivity.
  - intro A. destruct (initializeTrains_returns w A) as (ts & w' & E & _).
    eauto.
Qed.

Lemma initial_registry_ids_witness :
  map Train.id (registryAt worldAt2323) = allTrainIds
  /\ NoDup (map Train.id (registryAt worldAt2323)).
Proof.
  assert (E : initializeTrains worldAt2323
              = Some (registryAt worldAt2323, worldAfterInit worldAt2323)).
  { vm_compute. reflexivity. }
  destruct (proj1 (initial_registry_ids worldAt2323) _ _ E) as (I & N & _).
  split; assumption.
Defined.

Lemma initialStatus_cases (d : Q) :
  (initialStatus d = Delayed <-> 2 < d)
  /\ (initialStatus d = OnTime <-> d <= 2)
  /\ initialStatus d <> Critical.
Proof.
  unfold initialStatus. destruct (Js.gt d 2) eqn:G2.
  - apply gt_true in G2.
    split; [|split]; [split; intro H | split; intro H | intro H];
      try discriminate H; try reflexivity; lra.
  - apply gt_false in G2. destruct (Js.gt d 5) eqn:G5.
    + apply gt_true in G5. lra.
    + split; [|split]; [split; intro H | split; intro H | intro H];
        try discriminate H; try reflexivity; lra.
Qed.

(** X2. Under a fair random source every train [initializeTrains] builds
    has a delay of at least 0 and below 3, a whole number of passengers
    from 200 to 799, a speed from 45 to 65, a distance to the next station
    from 0.5 to 2.5, and the status Delayed exactly when its delay exceeds
    2 and On Time otherwise: no train starts Critical. *)
Theorem initial_values (w : World) (ts : list Train.t) (w' : World) :
  fair w ->
  initializeTrains w = Some (ts, w') ->
  Forall (fun train =>
            freshlyDrawn train
            /\ (Train.status train = Delayed <-> 2 < Train.delay train)
            /\ (Train.status train = OnTime <-> Train.delay train <= 2)
            /\ Train.status train <> Critical) ts.
Proof.
  intros F E. destruct (initializeTrains_builds _ _ _ E) as [B D].
  specialize (D F). clear E F. revert D.
  induction B as [|slot train slots ts Bx _ IH]; intro D; [constructor|].
  inversion D as [|? ? Dx Drest]; subst. constructor; [|now apply IH].
  split; [exact Dx|].
  destruct Bx as (_ & _ & _ & _ & _ & S). rewrite S.
  apply initialStatus_cases.
Qed.

Lemma worldAt2323_fair : fair worldAt2323.
Proof.
  apply steadyWorld_fair; [apply Qle_refl | reflexivity].
Defined.

Lemma initial_values_witness :
  fair worldAt5957
  /\ Forall (fun train =>
               freshlyDrawn train
               /\ (Train.status train = Delayed <-> 2 < Train.delay train)
               /\ (Train.status train = OnTime <-> Train.delay train <= 2)
               /\ Train.status train <> Critical)
            (registryAt worldAt5957).
Proof.
  split; [exact worldAt5957_fair|].
  apply (initial_values worldAt5957 _ (worldAfterInit worldAt5957)
           worldAt5957_fair).
  vm_compute. reflexivity.
Defined.


(** ** One position tick, field by field *)

(** A returning call of [updateTrain] returns the object [tickedTrain]
    describes, and has drawn four random numbers and read the clock once. *)
Lemma updateTrain_ticked (disruptionFactors : DisruptionFactors)
    (train : Train.t) (w : World) (train' : Train.t) (w' : World) :
  updateTrain disruptionFactors train w = Some (train', w') ->
  exists p ci ni current next,
    advance (stationsOfLine (Train.line train))
            (Train.positionInSegment train) (currentIndexOf train)
    = (p, ci, ni)
    /\ Js.at_ (stationsOfLine (Train.line train)) ci = Some current
    /\ Js.at_ (stationsOfLine (Train.line train)) ni = Some next
    /\ train' = tickedTrain disruptionFactors train w p current next
    /\ drawn w' = (4 + drawn w)%nat
    /\ looked w' = (1 + looked w)%nat.
Proof.
  unfold updateTrain. cbv zeta. rewrite stations_not_degenerate.
  destruct (advance (stationsOfLine (Train.line train))
                    (Train.positionInSegment train) (currentIndexOf train))
    as [[p ci] ni] eqn:A.
  unfold bind, defined.
  destruct (Js.at_ (stationsOfLine (Train.line train)) ci) as [current|] eqn:C;
    [|discriminate].
  destruct (Js.at_ (stationsOfLine (Train.line train)) ni) as [next|] eqn:N;
    [|discriminate].
  unfold Math_random, Date_now, ret. intro E.
  injection E as E1 E2. subst train' w'.
  exists p, ci, ni, current, next.
  split; [reflexivity|]. split; [assumption|]. split; [assumption|].
  split; [reflexivity|]. split; reflexivity.
Qed.

(** X3. A position tick that returns keeps the registry's length and
    order, and for every train its id, name, route, line, direction, start
    station, start time, speeds and distance: it only moves trains and
    redraws their delay, status, passengers and arrival estimates. *)
Theorem tick_keeps_identity (disruptionFactors : DisruptionFactors)
    (ts : list Train.t) (w : World) (ts' : list Train.t) (w' : World) :
  updateTrainPositions disruptionFactors ts w = Some (ts', w') ->
  Forall2 sameIdentity ts ts'
  /\ List.length ts' = List.length ts
  /\ map Train.id ts' = map Train.id ts.
Proof.
  intro E.
  apply (mapM_Forall2 _ (fun _ => True) (fun _ => True) sameIdentity) in E;
    trivial.
  - destruct E as [F _]. split; [exact F|]. split.
    + symmetry. eapply Forall2_length, F.
    + eapply Forall2_map_eq; [|exact F]. intros x y H. apply H.
  - intros train w0 train' w0' _ _ E0. split; trivial.
    destruct (updateTrain_ticked _ _ _ _ _ E0)
      as (p & ci & ni & current & next & _ & _ & _ & -> & _).
    repeat split.
  - apply Forall_forall. trivial.
Qed.

Lemma tick_keeps_identity_witness :
  Forall2 sameIdentity (registryAt worldAt2323) (registryAfter 1)
  /\ List.length (registryAfter 1) = List.length (registryAt worldAt2323)
  /\ map Train.id (registryAfter 1) = map Train.id (registryAt worldAt2323).
Proof.
  apply (tick_keeps_identity initialDisruptionFactors _
           (worldAfterInit worldAt2323) _ (worldAfter 1)).
  vm_compute. reflexivity.
Defined.

(** A registry-wide relation from a per-train one, needing no fairness. *)
Lemma tick_relates_any (R : Train.t -> Train.t -> Prop)
    (disruptionFactors : DisruptionFactors) :
  (forall train w train' w',
     onTrack train ->
     updateTrain disruptionFactors train w = Some (train', w') ->
     R train train') ->
  forall ts w,
    Forall onTrack ts ->
    exists ts' w',
      updateTrainPositions disruptionFactors ts w = Some (ts', w')
      /\ Forall2 R ts ts'.
Proof.
  intros step ts w T.
  destruct (updateTrainPositions_runs disruptionFactors ts w T)
    as (ts' & w' & E).
  exists ts', w'. split; [exact E|].
  apply (mapM_Forall2 _ (fun _ => True) onTrack R) in E; trivial.
  - apply E.
  - intros train w0 train' w0' T0 _ E0. split; [|trivial].
    eapply step; eassumption.
Qed.

(** What [findIndex] finds satisfies the predicate. *)
Lemma findIndexFrom_sound {A : Type} (p : A -> bool) (arr : list A) :
  forall k i,
    Js.findIndexFrom p arr k = i -> (0 <= k)%Z -> (0 <= i)%Z ->
    (k <= i)%Z
    /\ exists x, nth_error arr (Z.to_nat (i - k)) = Some x /\ p x = true.
Proof.
  induction arr as [|a rest IH]; intros k i E K I; cbn [Js.findIndexFrom] in E.
  - lia.
  - destruct (p a) eqn:Pa.
    + subst i. split; [lia|]. exists a. rewrite Z.sub_diag. auto.
    + destruct (IH (k + 1)%Z i E ltac:(lia) I) as (L & x & N & Px).
      split; [lia|]. exists x. split; [|exact Px].
      replace (Z.to_nat (i - k)) with (S (Z.to_nat (i - (k + 1)))) by lia.
      exact N.
Qed.

Lemma findIndex_sound {A : Type} (p : A -> bool) (arr : list A) (i : Z) :
  Js.findIndex p arr = i -> (0 <= i)%Z ->
  exists x, Js.at_ arr i = Some x /\ p x = true.
Proof.
  intros E I. destruct (findIndexFrom_sound p arr 0 i E ltac:(lia) I)
    as (_ & x & N & Px).
  exists x. split; [|exact Px]. unfold Js.at_.
  destruct (Z.ltb_spec i 0); [lia|]. now rewrite Z.sub_0_r in N.
Qed.

(** An on-track train names the stations at the indices found for it. *)
Lemma onTrack_stations (train : Train.t) :
  onTrack train ->
  exists current next,
    Js.at_ (stationsOfLine (Train.line train)) (currentIndexOf train)
    = Some current
    /\ Js.at_ (stationsOfLine (Train.line train)) (currentIndexOf train + 1)
       = Some next
    /\ Station.name current = Train.current train
    /\ Station.name next = Train.next train.
Proof.
  intros [_ _ C0 NF NU].
  destruct (findIndex_sound _ _ _ eq_refl C0) as (current & C & Pc).
  assert (N0 : (0 <= nextIndexOf train)%Z) by (rewrite NF; clear - C0; lia).
  destruct (findIndex_sound _ _ _ eq_refl N0) as (next & N & Pn).
  rewrite NF in N. apply String.eqb_eq in Pc, Pn.
  exists current, next. auto.
Qed.

Lemma between_blend (a b p : Q) :
  0 <= p -> p <= 1 -> between a b (a + (b - a) * p).
Proof.
  intros P0 P1. unfold between.
  destruct (Qlt_le_dec a b) as [L|L].
  - rewrite (Q.min_l a b), (Q.max_r a b) by lra. split; nra.
  - rewrite (Q.min_r a b), (Q.max_l a b) by lra. split; nra.
Qed.

(** X4. A position tick on on-track trains returns a registry that holds,
    at the place of each train, the train with the same id and line, drawn
    between the two stations it names: its latitude and longitude lie
    between those of its current and next station, which are stations of
    its line, and the display fields [currentStation] and [nextStation]
    repeat [current] and [next]. *)
Theorem ticked_trains_on_map (disruptionFactors : DisruptionFactors)
    (ts : list Train.t) (w : World) :
  Forall onTrack ts ->
  exists ts' w',
    updateTrainPositions disruptionFactors ts w = Some (ts', w')
    /\ Forall2 placedOnMap ts ts'.
Proof.
  intro T. apply tick_relates_any; [|exact T].
  clear ts w T. intros train w train' w' T E.
  destruct (onTrack_found train T) as [F0 F1].
  destruct (advance_onTrack (Train.line train)
              (Train.positionInSegment train) (currentIndexOf train)
              (position_lower _ T) (position_upper _ T) F0 F1)
    as (p1 & ci1 & A1 & P0 & P1 & _).
  destruct (updateTrain_ticked _ _ _ _ _ E)
    as (p & ci & ni & current & next & A & C & N & -> & _).
  rewrite A in A1. injection A1 as -> -> ->.
  pose proof (findIndex_at _ _ _ C) as IC.
  pose proof (findIndex_at _ _ _ N) as IN.
  split; [reflexivity|]. split; [reflexivity|].
  exists current, next.
  unfold tickedTrain.
  cbn [Train.line Train.current Train.next Train.lat Train.lon
       Train.currentStation Train.nextStation].
  rewrite IC, IN.
  split; [exact C|]. split; [exact N|].
  split; [reflexivity|]. split; [reflexivity|].
  split; [apply between_blend; lra|].
  split; [apply between_blend; lra|].
  split; reflexivity.
Qed.

Lemma registryAt_2323_onTrack : Forall onTrack (registryAt worldAt2323).
Proof.
  apply reachable_onTrack, registryAt_2323_reachable.
Defined.

Lemma ticked_trains_on_map_witness :
  Forall onTrack lateRegistry
  /\ exists ts' w',
       updateTrainPositions initialDisruptionFactors lateRegistry worldAt5957
       = Some (ts', w')
       /\ Forall2 placedOnMap lateRegistry ts'.
Proof.
  split; [exact lateRegistry_onTrack|].
  exact (ticked_trains_on_map initialDisruptionFactors _ worldAt5957
           lateRegistry_onTrack).
Defined.

(** The three outcomes of [advance]. *)
Lemma advance_cases (lineStations : list Station.t) (position : Q)
    (found : Z) :
  (position + 0.05 < 1 ->
   advance lineStations position found
   = (position + 0.05, found, (found + 1)%Z))
  /\ (1 <= position + 0.05 ->
      (found + 1 < Js.length lineStations - 1)%Z ->
      advance lineStations position found
      = (0, (found + 1)%Z, (found + 2)%Z)).
Proof.
  unfold advance. split.
  - intro H. assert (G : Js.ge (position + 0.05) 1.0 = false)
      by (apply ge_false; lra).
    now rewrite G.
  - intros H L. assert (G : Js.ge (position + 0.05) 1.0 = true)
      by (apply ge_true; lra).
    rewrite G.
    destruct (Z.geb_spec (found + 1) (Js.length lineStations - 1)); [lia|].
    rewrite Z.min_l by lia.
    now replace (found + 1 + 1)%Z with (found + 2)%Z by lia.
Qed.

(** X5. A position tick on on-track trains returns, and moves each train
    along its line: while the segment is not complete (position + 0.05
    below 1) the train keeps its current and next station; when it is
    complete and the next station is not the last of the line, the train's
    new current station is its old next station, its new next station the
    one after, and its position is 0. *)
Theorem ticked_trains_move_along (disruptionFactors : DisruptionFactors)
    (ts : list Train.t) (w : World) :
  Forall onTrack ts ->
  exists ts' w',
    updateTrainPositions disruptionFactors ts w = Some (ts', w')
    /\ Forall2 movedAlong ts ts'.
Proof.
  apply tick_relates_any. clear ts w. intros train w train' w' T E.
  destruct (onTrack_stations train T) as (c0 & n0 & C0 & N0 & Nc & Nn).
  destruct (updateTrain_ticked _ _ _ _ _ E)
    as (p & ci & ni & current & next & A & C & N & -> & _).
  destruct (advance_cases (stationsOfLine (Train.line train))
              (Train.positionInSegment train) (currentIndexOf train))
    as [A1 A2].
  unfold movedAlong, tickedTrain.
  cbn [Train.current Train.next Train.line Train.positionInSegment].
  split.
  - intro H. rewrite (A1 H) in A. injection A as <- <- <-.
    rewrite C0 in C. rewrite N0 in N.
    injection C as <-. injection N as <-. auto.
  - intros H L. rewrite (next_follows _ T) in L.
    rewrite (A2 H L) in A. injection A as <- <- <-.
    rewrite N0 in C. injection C as <-.
    pose proof (findIndex_at _ _ _ N0) as I0.
    pose proof (findIndex_at _ _ _ N) as I1.
    rewrite (next_follows _ T).
    split; [exact Nn|]. split; [exact I0|]. split; [|reflexivity].
    rewrite I1. clear. lia.
Qed.

Lemma ticked_trains_move_along_witness :
  Forall onTrack (registryAt worldAt2323)
  /\ exists ts' w',
       updateTrainPositions initialDisruptionFactors (registryAt worldAt2323)
                            (worldAfterInit worldAt2323) = Some (ts', w')
       /\ Forall2 movedAlong (registryAt worldAt2323) ts'.
Proof.
  split; [exact registryAt_2323_onTrack|].
  exact (ticked_trains_move_along initialDisruptionFactors _
           (worldAfterInit worldAt2323) registryAt_2323_onTrack).
Defined.

(** A traversal throws as soon as the callback throws on one element,
    whatever the world it is called in. *)
Lemma mapM_throws {A B : Type} (f : A -> M B) (x : A) (arr : list A)
    (w : World) :
  In x arr -> (forall w0, f x w0 = None) -> mapM f arr w = None.
Proof.
  intros I N. revert w. induction arr as [|a rest IH]; intro w; [contradiction|].
  cbn [mapM]. unfold bind. destruct I as [->|I].
  - now rewrite N.
  - destruct (f a w) as [[y w1]|]; [|reflexivity].
    now rewrite (IH I w1).
Qed.

(** X6. The tick does not guard its station lookup: if some train of the
    registry names as current a station that is not on its line
    ([findIndex] yields -1) and its segment is not complete, the whole
    position tick throws, for every world and every factor levels. *)
Theorem stray_train_breaks_tick (disruptionFactors : DisruptionFactors)
    (ts : list Train.t) (w : World) (train : Train.t) :
  In train ts ->
  currentIndexOf train = (-1)%Z ->
  Train.positionInSegment train + 0.05 < 1 ->
  updateTrainPositions disruptionFactors ts w = None.
Proof.
  intros I F P. unfold updateTrainPositions.
  apply (mapM_throws _ train); [exact I|]. intro w0.
  unfold updateTrain. cbv zeta. rewrite stations_not_degenerate.
  destruct (advance_cases (stationsOfLine (Train.line train))
              (Train.positionInSegment train) (currentIndexOf train))
    as [A _].
  rewrite (A P), F. reflexivity.
Qed.

Lemma stray_train_breaks_tick_witness :
  In strayTrain (trainNearVirar :: strayTrain :: nil)
  /\ currentIndexOf strayTrain = (-1)%Z
  /\ Train.positionInSegment strayTrain + 0.05 < 1
  /\ updateTrainPositions initialDisruptionFactors
       (trainNearVirar :: strayTrain :: nil) worldAt2323 = None.
Proof.
  assert (I : In strayTrain (trainNearVirar :: strayTrain :: nil))
    by (right; left; reflexivity).
  assert (F : currentIndexOf strayTrain = (-1)%Z) by (vm_compute; reflexivity).
  assert (P : Train.positionInSegment strayTrain + 0.05 < 1)
    by (vm_compute; reflexivity).
  split; [exact I|]. split; [exact F|]. split; [exact P|].
  exact (stray_train_breaks_tick initialDisruptionFactors _ worldAt2323 _
           I F P).
Defined.

(** ** Delay growth and status over a tick *)

Lemma delayMultiplier_range (disruptionFactors : DisruptionFactors) :
  levelsInRange disruptionFactors ->
  1 <= delayMultiplier disruptionFactors
  /\ delayMultiplier disruptionFactors <= 10.
Proof.
  intro L. rewrite delayMultiplier_spec. unfold specMultiplier.
  pose proof (L KRushHour) as R. pose proof (L KWeather) as W.
  pose proof (L KJunctionCongestion) as J.
  pose proof (L KEquipmentReliability) as E.
  cbn [getFactor] in R, W, J, E. lra.
Qed.

Lemma clicked_levels_in_range (clicks : list FactorKey) :
  levelsInRange (afterIncrements clicks).
Proof.
  intro factor.
  destruct (increments_levels clicks _ initial_levels factor) as (z & R & E).
  unfold afterIncrements. rewrite E.
  assert (0 <= inject_Z z /\ inject_Z z <= 5); [|assumption].
  change 0 with (inject_Z 0). change 5 with (inject_Z 5).
  rewrite <- !Zle_Qle. exact R.
Qed.

(** X7. For the factor levels any sequence of clicks can produce, the
    delay multiplier is between 1 and 10; with a fair random source a
    position tick on on-track trains then gives every train, as its new
    delay, the old delay plus an amount (the draw times half the
    multiplier) that is at least 0, at most half the multiplier and at
    most 5. *)
Theorem tick_delay_growth_bounded (clicks : list FactorKey)
    (ts : list Train.t) (w : World) :
  Forall onTrack ts ->
  fair w ->
  1 <= delayMultiplier (afterIncrements clicks)
  /\ delayMultiplier (afterIncrements clicks) <= 10
  /\ exists ts' w',
       updateTrainPositions (afterIncrements clicks) ts w = Some (ts', w')
       /\ Forall2 (delayStep (afterIncrements clicks)) ts ts'.
Proof.
  intros T F.
  destruct (delayMultiplier_range _ (clicked_levels_in_range clicks))
    as [M1 M10].
  split; [exact M1|]. split; [exact M10|].
  apply tick_relates; trivial.
  clear ts w T F. intros train w train' w' T F O.
  destruct O as [p ci ni current next _ _ _ _ _ _ _ _ D _ _ _].
  destruct (F (drawn w)) as [R0 R1].
  exists (randoms w (drawn w) * 0.5
          * delayMultiplier (afterIncrements clicks)).
  split; [exact D|].
  revert M1 M10. generalize (delayMultiplier (afterIncrements clicks)).
  intros m M1 M10. repeat split; nra.
Qed.

Lemma tick_delay_growth_bounded_witness :
  Forall onTrack lateRegistry
  /\ fair worldAt5957
  /\ 1 <= delayMultiplier (afterIncrements [KRushHour; KWeather])
  /\ delayMultiplier (afterIncrements [KRushHour; KWeather]) <= 10
  /\ exists ts' w',
       updateTrainPositions (afterIncrements [KRushHour; KWeather])
                            lateRegistry worldAt5957 = Some (ts', w')
       /\ Forall2 (delayStep (afterIncrements [KRushHour; KWeather]))
                  lateRegistry ts'.
Proof.
  split; [exact lateRegistry_onTrack|].
  split; [exact worldAt5957_fair|].
  exact (tick_delay_growth_bounded [KRushHour; KWeather] _ _
           lateRegistry_onTrack worldAt5957_fair).
Defined.

(** One tick, delay and severity: no delay decreases, and the new status
    is at least as severe as the old delay warrants. *)
Lemma tick_severity_step (disruptionFactors : DisruptionFactors)
    (ts : list Train.t) (w : World) :
  levelsNonNegative disruptionFactors ->
  Forall onTrack ts ->
  fair w ->
  exists ts' w',
    updateTrainPositions disruptionFactors ts w = Some (ts', w')
    /\ Forall2 (fun train train' =>
                  Train.delay train <= Train.delay train'
                  /\ severityKept train train') ts ts'.
Proof.
  intros L T F. apply tick_relates; trivial.
  clear ts w T F. intros train w train' w' T F O.
  destruct O as [p ci ni current next _ _ _ _ _ _ _ _ D S _ _].
  pose proof (delayMultiplier_positive _ L) as MP.
  destruct (F (drawn w)) as [R0 _].
  assert (G : Train.delay train <= Train.delay train') by (rewrite D; nra).
  destruct (statusOfDelay_matches train' S) as (SC & SD & SO).
  split; [exact G|]. unfold severityKept. split.
  - intro H. apply SC. lra.
  - intros H N. apply SO in N. lra.
Qed.

Lemma Forall2_weaken {A B : Type} (R S : A -> B -> Prop) (xs : list A)
    (ys : list B) :
  (forall x y, R x y -> S x y) -> Forall2 R xs ys -> Forall2 S xs ys.
Proof.
  intros H F. induction F; constructor; auto.
Qed.

(** X8. With a fair random source and non-negative levels, a position tick
    never shows a status milder than the old delay warrants: a train whose
    delay exceeded 5 is Critical after the tick, whatever status it had
    been given (a hold marks it Delayed only until the next tick), and a
    train whose delay exceeded 2 is not On Time. *)
Theorem tick_keeps_severity (disruptionFactors : DisruptionFactors)
    (ts : list Train.t) (w : World) :
  levelsNonNegative disruptionFactors ->
  Forall onTrack ts ->
  fair w ->
  exists ts' w',
    updateTrainPositions disruptionFactors ts w = Some (ts', w')
    /\ Forall2 severityKept ts ts'.
Proof.
  intros L T F.
  destruct (tick_severity_step disruptionFactors ts w L T F)
    as (ts' & w' & E & R).
  exists ts', w'. split; [exact E|].
  eapply Forall2_weaken; [|exact R]. intros x y H. apply H.
Qed.

Lemma tick_keeps_severity_witness :
  levelsNonNegative initialDisruptionFactors
  /\ Forall onTrack lateRegistry
  /\ fair worldAt5957
  /\ exists ts' w',
       updateTrainPositions initialDisruptionFactors lateRegistry worldAt5957
       = Some (ts', w')
       /\ Forall2 severityKept lateRegistry ts'.
Proof.
  split; [exact initial_levels_non_negative|].
  split; [exact lateRegistry_onTrack|].
  split; [exact worldAt5957_fair|].
  exact (tick_keeps_severity initialDisruptionFactors _ _
           initial_levels_non_negative lateRegistry_onTrack
           worldAt5957_fair).
Defined.

(** ** Passenger counts stay whole *)

Lemma Qmin_inject_Z (a b : Z) :
  Qmin (inject_Z a) (inject_Z b) == inject_Z (Z.min a b).
Proof.
  destruct (Z.le_ge_cases a b) as [L|L].
  - rewrite Z.min_l by exact L. apply Q.min_l. now rewrite <- Zle_Qle.
  - rewrite Z.min_r by exact L. apply Q.min_r. now rewrite <- Zle_Qle.
Qed.

Lemma quickActionOn_passengers (action trainId : string) (train : Train.t) :
  Train.passengers (quickActionOn action trainId train)
  = Train.passengers train.
Proof.
  unfold quickActionOn.
  destruct (String.eqb (Train.id train) trainId); [|reflexivity].
  destruct (String.eqb action "hold"); [reflexivity|].
  destruct (String.eqb action "swap"); [reflexivity|].
  destruct (String.eqb action "reroute"); reflexivity.
Qed.

Lemma wholeCount_after_tick (disruptionFactors : DisruptionFactors)
    (train : Train.t) (w : World) (train' : Train.t) (w' : World) :
  updateTrain disruptionFactors train w = Some (train', w') ->
  wholeCount train -> wholeCount train'.
Proof.
  intros E (n & _ & H).
  destruct (updateTrain_outcome _ _ _ _ _ E)
    as [p ci ni current next _ _ _ _ _ _ _ _ _ _ P _].
  set (d := Js.floor (randoms w (2 + drawn w) * 50 - 20)) in P.
  exists (Z.min (n + d) 2000). split; [apply Z.le_min_r|].
  rewrite P, H, <- inject_Z_plus. apply (Qmin_inject_Z (n + d) 2000).
Qed.

(** X9. In every registry of a running simulation (initialized under a
    fair random source, then changed by position ticks and quick actions)
    each passenger count is a whole number and is at most 2000. *)
Theorem passengers_stay_whole (ts : list Train.t) :
  operable ts -> Forall wholeCount ts.
Proof.
  induction 1 as [w ts w' F E
                 | disruptionFactors ts w ts' w' _ IH F L E
                 | action trainId ts _ IH].
  - destruct (initializeTrains_builds _ _ _ E) as [_ D].
    eapply Forall_impl; [|exact (D F)].
    intros train (_ & _ & (n & R & P) & _).
    exists n. split; [lia|]. rewrite P. reflexivity.
  - apply (mapM_Forall2 _ (fun _ => True) (fun _ => True)
             (fun train train' => wholeCount train -> wholeCount train')) in E;
      trivial.
    + destruct E as [S _]. eapply Forall2_preserves; [|exact S|exact IH].
      intros x y K. exact K.
    + intros train w0 train' w0' _ _ E0. split; [|trivial].
      eapply wholeCount_after_tick, E0.
    + apply Forall_forall. trivial.
  - apply Forall_map. eapply Forall_impl; [|exact IH].
    intros train (n & R & P). exists n. split; [exact R|].
    now rewrite quickActionOn_passengers.
Qed.

Lemma registryAt_2323_operable : operable (registryAt worldAt2323).
Proof.
  apply (operable_init worldAt2323 _ (worldAfterInit worldAt2323)).
  - exact worldAt2323_fair.
  - vm_compute. reflexivity.
Defined.

Lemma passengers_stay_whole_witness :
  operable (map (quickActionOn "hold" "W003") (registryAt worldAt2323))
  /\ Forall wholeCount
            (map (quickActionOn "hold" "W003") (registryAt worldAt2323)).
Proof.
  assert (O : operable (map (quickActionOn "hold" "W003")
                            (registryAt worldAt2323))).
  { apply operable_action, registryAt_2323_operable. }
  split; [exact O | exact (passengers_stay_whole _ O)].
Defined.


(** ** Quick actions: what they leave alone *)

Lemma with_fields_restore (train : Train.t) :
  withStatus (Train.status train) (withDelay (Train.delay train) train) = train.
Proof. destruct train. reflexivity. Qed.

Lemma quickActionOn_touchedOnly (action trainId : string) (train : Train.t) :
  touchedOnly trainId train (quickActionOn action trainId train).
Proof.
  unfold touchedOnly, quickActionOn.
  destruct (String.eqb_spec (Train.id train) trainId) as [E|N].
  - split; [|intro H; contradiction].
    destruct (String.eqb action "hold");
      [|destruct (String.eqb action "swap");
        [|destruct (String.eqb action "reroute")]];
      destruct train; reflexivity.
  - split; [apply with_fields_restore | reflexivity].
Qed.

(** X10. A quick action always returns; it keeps the registry's length and
    order, leaves every train with another id exactly as it was, and
    changes at most the delay and the status of the others: no quick
    action moves a train or touches its passengers. The factor levels are
    kept. *)
Theorem quick_action_touches_only_target (action trainId : string)
    (s : State) (w : World) :
  exists s' w',
    performQuickAction action trainId s w = Some (s', w')
    /\ Forall2 (touchedOnly trainId) (trains s) (trains s')
    /\ disruptionFactors s' = disruptionFactors s.
Proof.
  rewrite performQuickAction_eq. eexists. eexists.
  split; [reflexivity|]. cbn [trains disruptionFactors].
  split; [|reflexivity].
  induction (trains s) as [|train rest IH]; cbn [map]; constructor;
    [apply quickActionOn_touchedOnly | exact IH].
Qed.

(** X11. Action names are matched exactly: for a name other than [hold],
    [swap] and [reroute] (so also for [HOLD]) the registry is left as it
    is, even for an existing id, and yet the log receives the line saying
    the action was applied. *)
Theorem unknown_action_only_logs (action trainId : string) (s : State)
    (w : World) :
  action <> "hold"%string ->
  action <> "swap"%string ->
  action <> "reroute"%string ->
  exists s' w',
    performQuickAction action trainId s w = Some (s', w')
    /\ trains s' = trains s
    /\ aiDecisionLog s'
       = logEntry w (actionMessage action trainId)
         :: firstn 9 (aiDecisionLog s).
Proof.
  intros H S R. rewrite performQuickAction_eq. eexists. eexists.
  split; [reflexivity|]. cbn [trains aiDecisionLog]. split; [|reflexivity].
  apply String.eqb_neq in H, S, R.
  induction (trains s) as [|train rest IH]; [reflexivity|].
  cbn [map]. rewrite IH. f_equal.
  unfold quickActionOn. rewrite H, S, R.
  now destruct (String.eqb (Train.id train) trainId).
Qed.

Lemma unknown_action_only_logs_witness :
  exists s' w',
    performQuickAction "HOLD" "W001" stateNearVirar worldAt5957 = Some (s', w')
    /\ trains s' = trains stateNearVirar
    /\ aiDecisionLog s'
       = logEntry worldAt5957 (actionMessage "HOLD" "W001")
         :: firstn 9 (aiDecisionLog stateNearVirar).
Proof.
  apply unknown_action_only_logs; discriminate.
Defined.

Lemma Forall2_nth_error {A B : Type} (R : A -> B -> Prop) (xs : list A)
    (ys : list B) (k : nat) (x : A) :
  Forall2 R xs ys -> nth_error xs k = Some x ->
  exists y, nth_error ys k = Some y /\ R x y.
Proof.
  intro F. revert k. induction F as [|a b xs ys Rab _ IH]; intros k N.
  - destruct k; discriminate N.
  - destruct k as [|k]; cbn [nth_error] in *.
    + injection N as <-. eauto.
    + now apply IH.
Qed.

(** X12. A hold marks a train Delayed whatever its delay. When the delay
    it leaves (the old delay plus 3) exceeds 5, the mark lasts only until
    the next position tick: with a fair random source and non-negative
    levels, the tick after the hold shows the train Critical, with a
    delay no lower than the held one. *)
Theorem hold_then_tick_is_critical (trainId : string) (s : State) (w : World)
    (k : nat) (train : Train.t) :
  nth_error (trains s) k = Some train ->
  Train.id train = trainId ->
  5 < Train.delay train + 3 ->
  Forall onTrack (trains s) ->
  levelsNonNegative (disruptionFactors s) ->
  fair w ->
  exists s1 w1 held ts2 w2 ticked,
    performQuickAction "hold" trainId s w = Some (s1, w1)
    /\ nth_error (trains s1) k = Some held
    /\ Train.status held = Delayed
    /\ Train.delay held = Train.delay train + 3
    /\ updateTrainPositions (disruptionFactors s1) (trains s1) w1
       = Some (ts2, w2)
    /\ nth_error ts2 k = Some ticked
    /\ Train.id ticked = trainId
    /\ Train.status ticked = Critical
    /\ Train.delay held <= Train.delay ticked.
Proof.
  intros K I D T L F.
  set (s1 := {| trains := map (quickActionOn "hold" trainId) (trains s);
                disruptionFactors := disruptionFactors s;
                aiDecisionLog :=
                  logEntry w (actionMessage "hold" trainId)
                  :: firstn 9 (aiDecisionLog s) |}).
  assert (E1 : performQuickAction "hold" trainId s w = Some (s1, afterLook w))
    by apply performQuickAction_eq.
  assert (K1 : nth_error (trains s1) k
               = Some (quickActionOn "hold" trainId train)).
  { subst s1. cbn [trains]. now rewrite nth_error_map, K. }
  assert (H : quickActionOn "hold" trainId train
              = withStatus Delayed (withDelay (Train.delay train + 3) train)).
  { unfold quickActionOn. apply String.eqb_eq in I. now rewrite I. }
  assert (T1 : Forall onTrack (trains s1)).
  { subst s1. cbn [trains]. now apply quickAction_onTrack. }
  destruct (tick_severity_step (disruptionFactors s1) (trains s1) (afterLook w)
              L T1 F) as (ts2 & w2 & E2 & R).
  destruct (Forall2_nth_error _ _ _ _ _ R K1) as (ticked & K2 & (G & SC & _)).
  assert (J : Train.id ticked = trainId).
  { destruct (Forall2_nth_error _ _ _ _ _
                (updateTrainPositions_derives _ _ _ _ _ E2) K1)
      as (ticked' & K2' & (Hid & _)).
    rewrite K2 in K2'. injection K2' as <-.
    rewrite Hid, H. exact I. }
  rewrite H in G, SC. cbn [withStatus withDelay Train.delay] in G, SC.
  exists s1, (afterLook w), (quickActionOn "hold" trainId train), ts2, w2,
         ticked.
  split; [exact E1|]. split; [exact K1|]. split; [now rewrite H|].
  split; [now rewrite H|].
  split; [exact E2|]. split; [exact K2|]. split; [exact J|].
  split; [apply SC; exact D|].
  rewrite H. cbn [withStatus withDelay Train.delay]. exact G.
Qed.

Lemma hold_then_tick_is_critical_witness :
  5 < Train.delay (withDelay 2.5 trainNearVirar) + 3
  /\ exists s1 w1 held ts2 w2 ticked,
       performQuickAction "hold" "W001" stateLateNearVirar worldAt5957
       = Some (s1, w1)
       /\ nth_error (trains s1) 0 = Some held
       /\ Train.status held = Delayed
       /\ Train.delay held = Train.delay (withDelay 2.5 trainNearVirar) + 3
       /\ updateTrainPositions (disruptionFactors s1) (trains s1) w1
          = Some (ts2, w2)
       /\ nth_error ts2 0 = Some ticked
       /\ Train.id ticked = "W001"%string
       /\ Train.status ticked = Critical
       /\ Train.delay held <= Train.delay ticked.
Proof.
  split; [reflexivity|].
  apply (hold_then_tick_is_critical "W001" stateLateNearVirar worldAt5957 0
           (withDelay 2.5 trainNearVirar)).
  - reflexivity.
  - reflexivity.
  - reflexivity.
  - constructor; [|constructor].
    constructor; vm_compute; try reflexivity; discriminate.
  - exact initial_levels_non_negative.
  - exact worldAt5957_fair.
Defined.


(** ** The log over many appends *)

Lemma firstn_app_firstn {A : Type} (n m : nat) (xs ys : list A) :
  (n <= List.length xs + m)%nat ->
  firstn n (xs ++ firstn m ys) = firstn n (xs ++ ys).
Proof.
  intro H. rewrite !firstn_app, firstn_firstn.
  now replace (Nat.min (n - List.length xs) m) with (n - List.length xs)%nat
    by lia.
Qed.

Lemma logAll_newest_first (messages : list string) :
  forall (prev : list string) (w : World),
    (List.length prev <= 10)%nat ->
    exists w',
      logAll messages prev w
      = Some (firstn 10 (rev (stamped w messages) ++ prev), w').
Proof.
  induction messages as [|message rest IH]; intros prev w L.
  - exists w. cbn [logAll stamped rev app]. now rewrite firstn_all2.
  - cbn [logAll]. unfold bind. rewrite addAiDecisionLog_eq.
    destruct (IH (logEntry w message :: Js.slice0 9 prev) (afterLook w))
      as (w' & E).
    { unfold Js.slice0. cbn [List.length].
      pose proof (firstn_le_length 9 prev). lia. }
    exists w'. rewrite E. f_equal. f_equal.
    cbn [stamped rev]. rewrite <- app_assoc. cbn [app]. unfold Js.slice0.
    change (logEntry w message :: firstn 9 prev)
      with ([logEntry w message] ++ firstn 9 prev).
    change (logEntry w message :: prev) with ([logEntry w message] ++ prev).
    rewrite !app_assoc. apply firstn_app_firstn.
    rewrite length_app. cbn [List.length]. lia.
Qed.

(** X13. Any number of log appends in a row, on a log of at most ten
    entries, returns the ten newest of "new entries, newest first, then
    the old log": the log has [min(10, n + old length)] entries, and after
    ten or more appends nothing of the old log is left. *)
Theorem log_keeps_ten_newest (messages : list string) (prev : list string)
    (w : World) :
  (List.length prev <= 10)%nat ->
  exists newLog w',
    logAll messages prev w = Some (newLog, w')
    /\ newLog = firstn 10 (rev (stamped w messages) ++ prev)
    /\ List.length newLog
       = Nat.min 10 (List.length messages + List.length prev)
    /\ (10 <= List.length messages ->
        newLog = firstn 10 (rev (stamped w messages)))%nat.
Proof.
  intro L.
  assert (S : forall w0, List.length (stamped w0 messages)
                         = List.length messages).
  { clear. induction messages as [|m rest IH]; intro w0;
      cbn [stamped List.length]; [reflexivity | now rewrite IH]. }
  destruct (logAll_newest_first messages prev w L) as (w' & E).
  eexists. exists w'. split; [exact E|]. split; [reflexivity|]. split.
  - rewrite length_firstn, length_app, length_rev, S. reflexivity.
  - intro H. rewrite firstn_app, length_rev, S.
    replace (10 - List.length messages)%nat with 0%nat by lia.
    cbn [firstn]. apply app_nil_r.
Qed.

Lemma log_keeps_ten_newest_witness :
  exists newLog w',
    logAll activationLines initialAiDecisionLog worldAt2323
    = Some (newLog, w')
    /\ newLog
       = firstn 10 (rev (stamped worldAt2323 activationLines)
                    ++ initialAiDecisionLog)
    /\ List.length newLog
       = Nat.min 10 (List.length activationLines
                     + List.length initialAiDecisionLog)
    /\ (10 <= List.length activationLines ->
        newLog = firstn 10 (rev (stamped worldAt2323 activationLines)))%nat.
Proof.
  apply log_keeps_ten_newest. cbn [initialAiDecisionLog List.length]. lia.
Defined.

Example activation_log :
  option_map fst (logAll activationLines initialAiDecisionLog worldAt2323)
  = Some ["[10:30:00 AM] [SYSTEM] AI systems fully operational";
          "[10:30:00 AM] [SYSTEM] Loading Mumbai Railway data patterns...";
          "[10:30:00 AM] [SYSTEM] Initializing neural networks...";
          "[10:30:00 AM] [SYSTEM] AI Optimization Suite Activated";
          "[SYSTEM] AI Optimization Suite Initialized";
          "[READY] Awaiting activation command..."]%string.
Proof. reflexivity. Qed.

(** ** Factor levels in closed form *)

Lemma clicks_closed_form (factor : FactorKey) (clicks : list FactorKey) :
  forall (start : DisruptionFactors) (z : Z),
    (0 <= z <= 5)%Z ->
    getFactor factor start == inject_Z z ->
    getFactor factor
      (fold_left (fun prev k => addDisruptionFactor k prev) clicks start)
    == inject_Z (Z.min 5 (z + Z.of_nat (count_occ FactorKey_eq_dec clicks
                                                   factor))).
Proof.
  induction clicks as [|k rest IH]; intros start z R E.
  - cbn [fold_left count_occ]. rewrite E, Z.add_0_r, Z.min_r by lia.
    reflexivity.
  - cbn [fold_left count_occ]. destruct (FactorKey_eq_dec k factor) as [->|N].
    + assert (E1 : getFactor factor (addDisruptionFactor factor start)
                   == inject_Z (Z.min (z + 1) 5)).
      { unfold addDisruptionFactor. rewrite getFactor_setFactor_same.
        rewrite E. change (inject_Z z + 1) with (inject_Z z + inject_Z 1).
        rewrite <- inject_Z_plus. apply (Qmin_inject_Z (z + 1) 5). }
      rewrite (IH _ (Z.min (z + 1) 5) ltac:(lia) E1).
      apply inject_Z_injective. lia.
    + assert (E1 : getFactor factor (addDisruptionFactor k start)
                   == inject_Z z).
      { unfold addDisruptionFactor.
        rewrite getFactor_setFactor_other by congruence. exact E. }
      apply (IH _ z R E1).
Qed.

Lemma level_counts_clicks_aux (clicks : list FactorKey) (factor : FactorKey) :
  getFactor factor (afterIncrements clicks)
  == inject_Z (Z.min 5 (Z.of_nat (count_occ FactorKey_eq_dec clicks factor))).
Proof.
  unfold afterIncrements.
  rewrite (clicks_closed_form factor clicks initialDisruptionFactors 0);
    [reflexivity | lia | destruct factor; reflexivity].
Qed.

(** X14. After any sequence of clicks from the initial levels, the level
    of a factor is [min(5, number of clicks on that factor)]: clicks on
    other factors do not matter, nor does the order of the clicks, and
    from the fifth click on a factor further clicks change nothing. *)
Theorem level_counts_clicks (clicks : list FactorKey) (factor : FactorKey) :
  getFactor factor (afterIncrements clicks)
  == inject_Z (Z.min 5 (Z.of_nat (count_occ FactorKey_eq_dec clicks factor))).
Proof. apply level_counts_clicks_aux. Qed.

(** X15. The bar the disruption panel draws for a factor is never wider
    than its track: after any sequence of clicks the progress percentage
    is 20 times the level, between 0 and 100. *)
Theorem progress_bar_within_track (clicks : list FactorKey)
    (factor : FactorKey) :
  barWidth (getFactor factor (afterIncrements clicks))
  == 20 * inject_Z (Z.min 5 (Z.of_nat (count_occ FactorKey_eq_dec clicks
                                                   factor)))
  /\ 0 <= barWidth (getFactor factor (afterIncrements clicks))
  /\ barWidth (getFactor factor (afterIncrements clicks)) <= 100.
Proof.
  pose proof (level_counts_clicks_aux clicks factor) as E.
  destruct (clicked_levels_in_range clicks factor) as [L U].
  unfold barWidth, getProgressPercentage.
  assert (D : forall v, v / 5 * 100 == 20 * v) by (intro v; field).
  rewrite !D. rewrite E at 1. split; [reflexivity|]. split; lra.
Qed.


(** ** The metrics tick *)

Lemma Status_eqb_eq (a b : Status) : Status_eqb a b = true <-> a = b.
Proof. destruct a, b; split; intro H; try discriminate H; reflexivity. Qed.

Lemma filter_length_full {A : Type} (p : A -> bool) (l : list A) :
  List.length (filter p l) = List.length l <-> Forall (fun x => p x = true) l.
Proof.
  induction l as [|a rest IH]; cbn [filter List.length].
  - split; [constructor | reflexivity].
  - pose proof (filter_length_le p rest) as B. destruct (p a) eqn:Pa.
    + cbn [List.length]. split.
      * intro H. constructor; [exact Pa | apply IH; lia].
      * intro H. inversion H; subst. f_equal. now apply IH.
    + split; [lia|]. intro H. inversion H; congruence.
Qed.

Lemma filter_length_none {A : Type} (p : A -> bool) (l : list A) :
  List.length (filter p l) = 0%nat <-> Forall (fun x => p x = false) l.
Proof.
  induction l as [|a rest IH]; cbn [filter List.length].
  - split; [constructor | reflexivity].
  - destruct (p a) eqn:Pa.
    + cbn [List.length]. split; [discriminate|].
      intro H. inversion H; congruence.
    + split.
      * intro H. constructor; [exact Pa | now apply IH].
      * intro H. inversion H; subst. now apply IH.
Qed.

(** A share [k / n * 100] of a non-empty whole *)
Lemma share_range (k n : Z) :
  (0 <= k <= n)%Z -> (0 < n)%Z ->
  0 <= inject_Z k / inject_Z n * 100
  /\ inject_Z k / inject_Z n * 100 <= 100
  /\ (inject_Z k / inject_Z n * 100 == 100 <-> k = n)
  /\ (inject_Z k / inject_Z n * 100 == 0 <-> k = 0%Z).
Proof.
  intros R N.
  assert (N0 : 0 < inject_Z n).
  { change 0 with (inject_Z 0). now rewrite <- Zlt_Qlt. }
  assert (K0 : 0 <= inject_Z k).
  { change 0 with (inject_Z 0). rewrite <- Zle_Qle. lia. }
  assert (KN : inject_Z k <= inject_Z n) by (rewrite <- Zle_Qle; lia).
  assert (M : inject_Z k / inject_Z n * inject_Z n == inject_Z k).
  { field. lra. }
  revert M. generalize (inject_Z k / inject_Z n). intros q M.
  assert (Q0 : 0 <= q) by nra. assert (Q1 : q <= 1) by nra.
  split; [lra|]. split; [lra|]. split; split; intro H.
  - apply inject_Z_injective. nra.
  - subst k. assert (q == 1) by nra. lra.
  - apply inject_Z_injective. change (inject_Z 0) with 0. nra.
  - subst k. change (inject_Z 0) with 0 in M. assert (q == 0) by nra. lra.
Qed.

(** X16. The metrics tick on a non-empty registry shows the number of
    trains and an efficiency between 0 and 100, which is 100 exactly when
    every train is On Time and 0 exactly when none is. On an empty
    registry it changes nothing: the metrics shown before stay. *)
Theorem metrics_efficiency (registry : list Train.t) (prev : Metrics) :
  (registry <> [] ->
   trainCount (updateDetailedTracking registry prev) = Js.length registry
   /\ 0 <= efficiency (updateDetailedTracking registry prev)
   /\ efficiency (updateDetailedTracking registry prev) <= 100
   /\ (efficiency (updateDetailedTracking registry prev) == 100
       <-> Forall (fun train => Train.status train = OnTime) registry)
   /\ (efficiency (updateDetailedTracking registry prev) == 0
       <-> Forall (fun train => Train.status train <> OnTime) registry))
  /\ updateDetailedTracking [] prev = prev.
Proof.
  split; [|reflexivity]. intro NE.
  assert (N : (0 < Js.length registry)%Z).
  { unfold Js.length. destruct registry; [congruence | cbn [List.length]; lia]. }
  unfold updateDetailedTracking.
  destruct (Z.gtb_spec (Js.length registry) 0) as [_|C]; [|lia].
  cbn [trainCount efficiency]. split; [reflexivity|].
  set (p := fun train => Status_eqb (Train.status train) OnTime).
  pose proof (filter_length_le p registry) as B.
  destruct (share_range (Js.length (filter p registry)) (Js.length registry))
    as (E0 & E1 & E100 & EZ); [unfold Js.length in *; lia | exact N |].
  split; [exact E0|]. split; [exact E1|]. split.
  - rewrite E100. unfold Js.length. rewrite Nat2Z.inj_iff, filter_length_full.
    split; (apply Forall_impl; intros t H; apply Status_eqb_eq; exact H).
  - rewrite EZ. unfold Js.length.
    change 0%Z with (Z.of_nat 0). rewrite Nat2Z.inj_iff, filter_length_none.
    split; apply Forall_impl; intros t H.
    + intro S. apply Status_eqb_eq in S. unfold p in H. congruence.
    + unfold p. destruct (Status_eqb (Train.status t) OnTime) eqn:S;
        [|reflexivity]. apply Status_eqb_eq in S. contradiction.
Qed.

Lemma registryAt_2323_not_empty : registryAt worldAt2323 <> [].
Proof.
  intro H. apply (f_equal (@List.length Train.t)) in H.
  vm_compute in H. discriminate H.
Defined.

Lemma metrics_efficiency_witness :
  registryAt worldAt2323 <> []
  /\ trainCount (updateDetailedTracking (registryAt worldAt2323) initialMetrics)
     = 40%Z
  /\ 0 <= efficiency (updateDetailedTracking (registryAt worldAt2323)
                                             initialMetrics)
  /\ efficiency (updateDetailedTracking (registryAt worldAt2323)
                                        initialMetrics) <= 100.
Proof.
  split; [exact registryAt_2323_not_empty|].
  destruct (proj1 (metrics_efficiency (registryAt worldAt2323) initialMetrics)
              registryAt_2323_not_empty) as (C & E0 & E1 & _).
  split; [rewrite C; vm_compute; reflexivity|]. split; assumption.
Defined.

(** The running total of whole passenger counts of at most 2000 is a
    whole number, at most 2000 per train above where it started. *)
Lemma whole_total (registry : list Train.t) :
  Forall wholeCount registry ->
  forall (acc : Q) (a : Z),
    acc == inject_Z a ->
    exists total : Z,
      (total <= a + 2000 * Js.length registry)%Z
      /\ fold_left (fun sum train => sum + Train.passengers train)
                   registry acc
         == inject_Z total.
Proof.
  induction 1 as [|train rest (n & R & E) _ IH]; intros acc a A.
  - exists a. cbn [fold_left]. unfold Js.length. cbn [List.length].
    split; [lia | exact A].
  - cbn [fold_left].
    destruct (IH (acc + Train.passengers train) (a + n)%Z)
      as (total & B & S).
    { rewrite inject_Z_plus, A, E. reflexivity. }
    exists total. split; [|exact S].
    unfold Js.length in *. cbn [List.length]. lia.
Qed.

(** The running sum of non-negative delays is not negative. *)
Lemma delay_sum_non_negative (registry : list Train.t) :
  Forall delayNonNegative registry ->
  forall acc,
    0 <= acc ->
    0 <= fold_left (fun sum train => sum + Train.delay train) registry acc.
Proof.
  induction 1 as [|train rest D _ IH]; intros acc A; cbn [fold_left].
  - exact A.
  - apply IH. unfold delayNonNegative in D. lra.
Qed.

(** X17. On a non-empty registry whose passenger counts are whole numbers
    of at most 2000 and whose delays are not negative (as in every
    running simulation), the passenger total the metrics tick shows is a
    whole number of at most 2000 per train, and the average delay it
    shows is not negative. *)
Theorem metrics_totals (registry : list Train.t) (prev : Metrics) :
  registry <> [] ->
  Forall wholeCount registry ->
  Forall delayNonNegative registry ->
  (exists total : Z,
     (total <= 2000 * trainCount (updateDetailedTracking registry prev))%Z
     /\ passengerCount (updateDetailedTracking registry prev)
        == inject_Z total)
  /\ 0 <= avgDelay (updateDetailedTracking registry prev).
Proof.
  intros NE P D.
  assert (N : (0 < Js.length registry)%Z).
  { unfold Js.length. destruct registry; [congruence | cbn [List.length]; lia]. }
  unfold updateDetailedTracking.
  destruct (Z.gtb_spec (Js.length registry) 0) as [_|C]; [|lia].
  cbn [trainCount avgDelay passengerCount]. split.
  - destruct (whole_total registry P 0 0%Z) as (total & B & S);
      [reflexivity|].
    exists total. split; [lia | exact S].
  - pose proof (delay_sum_non_negative registry D 0 (Qle_refl 0)) as S.
    assert (N0 : 0 < inject_Z (Js.length registry)).
    { change 0 with (inject_Z 0). now rewrite <- Zlt_Qlt. }
    revert S N0.
    generalize (fold_left (fun sum train => sum + Train.delay train)
                          registry 0).
    generalize (inject_Z (Js.length registry)). intros n sd S N0.
    apply Qle_shift_div_l; [exact N0 | lra].
Qed.

Lemma wholeCount_checked (registry : list Train.t) :
  forallb (fun t => Qle_bool (Train.passengers t) 2000
                    && Qeq_bool (Train.passengers t)
                         (inject_Z (Qfloor (Train.passengers t))))
          registry = true ->
  Forall wholeCount registry.
Proof.
  intro B. apply Forall_forall. intros train I.
  rewrite forallb_forall in B. specialize (B train I).
  apply andb_prop in B. destruct B as [B1 B2].
  apply Qle_bool_iff in B1. apply Qeq_bool_iff in B2.
  exists (Qfloor (Train.passengers train)). split; [|exact B2].
  assert (Qfloor (Train.passengers train) <= Qfloor 2000)%Z
    by now apply Qfloor_resp_le.
  assert (Qfloor 2000 = 2000%Z) by reflexivity. lia.
Qed.

Lemma delayNonNegative_checked (registry : list Train.t) :
  forallb (fun t => Qle_bool 0 (Train.delay t)) registry = true ->
  Forall delayNonNegative registry.
Proof.
  intro B. apply Forall_forall. intros train I.
  rewrite forallb_forall in B. specialize (B train I).
  now apply Qle_bool_iff.
Qed.

Lemma lateRegistry_not_empty : lateRegistry <> [].
Proof.
  intro E. apply (f_equal (@List.length _)) in E. vm_compute in E.
  discriminate E.
Defined.

Lemma metrics_totals_witness :
  lateRegistry <> []
  /\ Forall wholeCount lateRegistry
  /\ Forall delayNonNegative lateRegistry
  /\ (exists total : Z,
        (total <= 2000 * trainCount (updateDetailedTracking lateRegistry
                                                            initialMetrics))%Z
        /\ passengerCount (updateDetailedTracking lateRegistry initialMetrics)
           == inject_Z total)
  /\ 0 <= avgDelay (updateDetailedTracking lateRegistry initialMetrics).
Proof.
  assert (P : Forall wholeCount lateRegistry)
    by (apply wholeCount_checked; vm_compute; reflexivity).
  assert (D : Forall delayNonNegative lateRegistry)
    by (apply delayNonNegative_checked; vm_compute; reflexivity).
  split; [exact lateRegistry_not_empty|].
  split; [exact P|]. split; [exact D|].
  exact (metrics_totals lateRegistry initialMetrics lateRegistry_not_empty
           P D).
Defined.

(** The late registry on the panel: 40 trains, 200 passengers each, 17
    minutes of delay among them *)
Example late_registry_metrics :
  let shown := updateDetailedTracking lateRegistry initialMetrics in
  (trainCount shown, Qred (passengerCount shown), Qred (avgDelay shown))
  = (40%Z, 8000, 17 # 40).
Proof. vm_compute. reflexivity. Qed.


(** ** The decision cycle *)

Lemma fair_draw (w : World) : fair w -> fair (afterDraw w).
Proof. intros F n. apply F. Qed.

Lemma fair_look (w : World) : fair w -> fair (afterLook w).
Proof. intros F n. apply F. Qed.

(** Each conditional part adds at most one entry at the front of the log
    and at most 1 to its counter. *)
Lemma preventDelay_step (prevented : Q) (log : list string) (w : World) :
  exists result w',
    preventDelay prevented log w = Some (result, w')
    /\ randoms w' = randoms w
    /\ ((fst result = prevented /\ snd result = log)
        \/ (fst result = prevented + 1
            /\ exists entry, snd result = entry :: firstn 9 log)).
Proof.
  unfold preventDelay, bind, Math_random.
  destruct (Js.gt (randoms w (drawn w)) 0.6).
  - rewrite addAiDecisionLog_eq. unfold ret. eexists. eexists.
    split; [reflexivity|]. split; [reflexivity|]. right. cbn [fst snd].
    split; [reflexivity|]. eexists. reflexivity.
  - unfold ret. eexists. eexists. split; [reflexivity|].
    split; [reflexivity|]. left. split; reflexivity.
Qed.

Lemma optimizeRoute_step (optimizations : Q) (log : list string) (w : World) :
  exists result w',
    optimizeRoute optimizations log w = Some (result, w')
    /\ randoms w' = randoms w
    /\ ((fst result = optimizations /\ snd result = log)
        \/ (fst result = optimizations + 1
            /\ exists entry, snd result = entry :: firstn 9 log)).
Proof.
  unfold optimizeRoute, bind, Math_random.
  destruct (Js.gt (randoms w (drawn w)) 0.7).
  - rewrite addAiDecisionLog_eq. unfold ret. eexists. eexists.
    split; [reflexivity|]. split; [reflexivity|]. right. cbn [fst snd].
    split; [reflexivity|]. eexists. reflexivity.
  - unfold ret. eexists. eexists. split; [reflexivity|].
    split; [reflexivity|]. left. split; reflexivity.
Qed.

Lemma criticalAlert_step (log : list string) (w : World) :
  exists log' w',
    criticalAlert log w = Some (log', w')
    /\ randoms w' = randoms w
    /\ (log' = log \/ exists entry, log' = entry :: firstn 9 log).
Proof.
  unfold criticalAlert, bind, Math_random.
  destruct (Js.gt (randoms w (drawn w)) 0.9).
  - rewrite addAiDecisionLog_eq. eexists. eexists.
    split; [reflexivity|]. split; [reflexivity|]. right. eexists. reflexivity.
  - unfold ret. eexists. eexists. split; [reflexivity|].
    split; [reflexivity|]. now left.
Qed.

(** Adding at most one entry in front, [k] entries having been added
    before *)
Lemma one_more_entry (added log current next : list string) :
  current = firstn 10 (added ++ log) ->
  (next = current \/ exists entry, next = entry :: firstn 9 current) ->
  exists added',
    (List.length added' <= S (List.length added))%nat
    /\ next = firstn 10 (added' ++ log).
Proof.
  intros C [->|(entry & ->)].
  - exists added. split; [lia | exact C].
  - exists (entry :: added). split; [cbn [List.length]; lia|].
    rewrite C, firstn_firstn. cbn [app firstn Nat.min]. reflexivity.
Qed.

Lemma timeouts_cases (n : Z) :
  (1 <= n <= 3)%Z ->
  let timeouts := map (fun i => (i * 500)%Z) (loopValues 0 (Z.to_nat n)) in
  timeouts = [0%Z] \/ timeouts = [0%Z; 500%Z]
  \/ timeouts = [0%Z; 500%Z; 1000%Z].
Proof.
  intro R. assert (C : n = 1%Z \/ n = 2%Z \/ n = 3%Z) by lia.
  destruct C as [ -> | [ -> | -> ] ]; cbv; auto.
Qed.

(** X18. One decision cycle, with a fair random source and a log of at
    most ten entries. While the AI is off the cycle changes nothing,
    schedules nothing and draws no random number. While it is on, the
    cycle raises the decision counter by a whole number from 1 to 5 and
    each of the two other counters by 0 or 1, schedules one to three
    narration callbacks 500 ms apart, puts at most three new entries in
    front of the log, which keeps at most ten, and shows a performance
    gain capped at 15 that is computed from the captured counters, not
    from the ones just raised. *)
Theorem decision_cycle (captured prev : AiCounters) (log : list string)
    (w : World) :
  fair w ->
  (List.length log <= 10)%nat ->
  exists result w',
    updateAdvancedSystems captured prev log w = Some (result, w')
    /\ (aiActive captured = false -> result = (prev, log, []) /\ w' = w)
    /\ (aiActive captured = true -> cycleOutcome captured prev log result).
Proof.
  intros F L. unfold updateAdvancedSystems.
  destruct (aiActive captured);
    [|exists (prev, log, []), w; split; [reflexivity|];
      split; [auto | discriminate]].
  unfold bind at 1 2. unfold Math_random at 1 2.
  set (w2 := afterDraw (afterDraw w)).
  destruct (preventDelay_step (aiPreventedDelays prev) log w2)
    as (alerted & w3 & E3 & R3 & A).
  destruct (optimizeRoute_step (aiOptimizations prev) (snd alerted) w3)
    as (optimized & w4 & E4 & R4 & O).
  destruct (criticalAlert_step (snd optimized) w4)
    as (log' & w5 & E5 & R5 & K).
  unfold bind. rewrite E3, E4, E5. unfold ret.
  eexists. eexists. split; [reflexivity|].
  split; [discriminate|]. intros _.
  unfold cycleOutcome. cbn [fst snd aiActive aiDecisions aiPreventedDelays
                            aiOptimizations aiPerformance].
  destruct (F (drawn w)) as [D0 D1].
  destruct (F (S (drawn w))) as [N0 N1].
  split; [reflexivity|]. split.
  { exists (Js.floor (randoms w (drawn w) * 5) + 1)%Z. split; [|reflexivity].
    pose proof (fair_floor_range _ 5 0 D0 D1 ltac:(lia)) as B.
    change (inject_Z 5) with 5 in B.
    assert (X : randoms w (drawn w) * 5 + inject_Z 0
                == randoms w (drawn w) * 5) by (change (inject_Z 0) with 0; ring).
    unfold Js.floor in *. rewrite (Qfloor_comp _ _ X) in B. lia. }
  split; [destruct A as [ [ -> _ ] | [ -> _ ] ]; auto|].
  split; [destruct O as [ [ -> _ ] | [ -> _ ] ]; auto|].
  split; [reflexivity|]. split; [apply Q.le_min_l|]. split.
  { intros P0 P1. apply Q.min_glb; lra. }
  split.
  { apply timeouts_cases.
    pose proof (fair_floor_range _ 3 0 N0 N1 ltac:(lia)) as B.
    change (inject_Z 3) with 3 in B.
    assert (X : randoms w (S (drawn w)) * 3 + inject_Z 0
                == randoms w (S (drawn w)) * 3)
      by (change (inject_Z 0) with 0; ring).
    unfold Js.floor in *. rewrite (Qfloor_comp _ _ X) in B.
    change (randoms (afterDraw w) (drawn (afterDraw w)))
      with (randoms w (S (drawn w))). lia. }
  assert (S0 : log = firstn 10 ([] ++ log))
    by (cbn [app]; now rewrite firstn_all2).
  destruct (one_more_entry [] log log (snd alerted) S0) as (a1 & L1 & S1).
  { destruct A as [ [ _ -> ] | [ _ H ] ]; auto. }
  destruct (one_more_entry a1 log _ (snd optimized) S1) as (a2 & L2 & S2).
  { destruct O as [ [ _ -> ] | [ _ H ] ]; auto. }
  destruct (one_more_entry a2 log _ log' S2 K) as (a3 & L3 & S3).
  split.
  - exists a3. split; [cbn [List.length] in L1; lia | exact S3].
  - rewrite S3. apply firstn_le_length.
Qed.

Lemma decision_cycle_witness :
  fair worldAt5957
  /\ exists result w',
       updateAdvancedSystems activeCounters activeCounters
                             initialAiDecisionLog worldAt5957
       = Some (result, w')
       /\ (aiActive activeCounters = false ->
           result = (activeCounters, initialAiDecisionLog, []) /\ w' = worldAt5957)
       /\ (aiActive activeCounters = true ->
           cycleOutcome activeCounters activeCounters initialAiDecisionLog
                        result).
Proof.
  assert (F : fair worldAt5957)
    by (apply steadyWorld_fair; [discriminate | reflexivity]).
  split; [exact F|].
  apply (decision_cycle activeCounters activeCounters initialAiDecisionLog
           worldAt5957 F).
  cbn [initialAiDecisionLog List.length]. lia.
Defined.

(** X19. With a fair random source the narration callback always names an
    entry of the catalog: the index it computes is never out of range, so
    the text [undefined] is never logged; the entry goes in front of the
    first nine old ones. *)
Theorem narration_from_catalog (prev : list string) (w : World) :
  fair w ->
  exists action,
    In action aiActions
    /\ announceAiAction prev w
       = Some (logEntry (afterDraw w) ("[AI] " ++ action) :: Js.slice0 9 prev,
               afterLook (afterDraw w)).
Proof.
  intro F. destruct (F (drawn w)) as [D0 D1].
  unfold announceAiAction, bind, Math_random.
  pose proof (fair_floor_range _ 10 0 D0 D1 ltac:(lia)) as B.
  assert (X : randoms w (drawn w) * inject_Z 10 + inject_Z 0
              == randoms w (drawn w) * inject_Z (Js.length aiActions)).
  { change (inject_Z (Js.length aiActions)) with (inject_Z 10).
    change (inject_Z 0) with 0. ring. }
  unfold Js.floor in *. rewrite (Qfloor_comp _ _ X) in B.
  destruct (at_in_range aiActions
              (Qfloor (randoms w (drawn w) * inject_Z (Js.length aiActions))))
    as (action & E).
  { revert B.
    generalize (Qfloor (randoms w (drawn w)
                        * inject_Z (Js.length aiActions))).
    intros i B. change (Js.length aiActions) with 10%Z. lia. }
  exists action. split.
  - unfold Js.at_ in E.
    destruct (_ <? 0)%Z; [discriminate|]. eapply nth_error_In, E.
  - rewrite E. cbn [shown]. apply addAiDecisionLog_eq.
Qed.

Lemma narration_from_catalog_witness :
  fair worldAt5957
  /\ exists action,
       In action aiActions
       /\ announceAiAction initialAiDecisionLog worldAt5957
          = Some (logEntry (afterDraw worldAt5957) ("[AI] " ++ action)
                    :: Js.slice0 9 initialAiDecisionLog,
                  afterLook (afterDraw worldAt5957)).
Proof.
  assert (F : fair worldAt5957)
    by (apply steadyWorld_fair; [discriminate | reflexivity]).
  split; [exact F|].
  apply (narration_from_catalog initialAiDecisionLog worldAt5957 F).
Defined.

(** ** The control panel's priority list *)

Lemma insertBy_permutation {A : Type} (compare : A -> A -> Q) (x : A)
    (sorted : list A) :
  Permutation (insertBy compare x sorted) (x :: sorted).
Proof.
  induction sorted as [|y rest IH]; cbn [insertBy]; [reflexivity|].
  destruct (Js.gt (compare x y) 0); [|reflexivity].
  rewrite IH. apply perm_swap.
Qed.

Lemma sortBy_permutation {A : Type} (compare : A -> A -> Q) (arr : list A) :
  Permutation (sortBy compare arr) arr.
Proof.
  induction arr as [|x arr IH]; cbn [sortBy fold_right]; [reflexivity|].
  rewrite insertBy_permutation. now constructor.
Qed.

Lemma insertBy_sorted (x : Train.t) (sorted : list Train.t) :
  StronglySorted mostDelayedFirst sorted ->
  StronglySorted mostDelayedFirst
    (insertBy (fun a b => Train.delay b - Train.delay a) x sorted).
Proof.
  induction 1 as [|y rest S IH F]; cbn [insertBy].
  - constructor; constructor.
  - destruct (Js.gt (Train.delay y - Train.delay x) 0) eqn:C.
    + apply gt_true in C. constructor; [exact IH|].
      eapply Permutation_Forall;
        [symmetry; apply insertBy_permutation|].
      constructor; [unfold mostDelayedFirst; lra | exact F].
    + apply gt_false in C. constructor; [now constructor|].
      constructor; [unfold mostDelayedFirst; lra|].
      eapply Forall_impl; [|exact F]. unfold mostDelayedFirst.
      intros z Z. lra.
Qed.

Lemma sortBy_sorted (arr : list Train.t) :
  StronglySorted mostDelayedFirst
    (sortBy (fun a b => Train.delay b - Train.delay a) arr).
Proof.
  induction arr as [|x arr IH]; cbn [sortBy fold_right]; [constructor|].
  now apply insertBy_sorted.
Qed.

Lemma sorted_split {A : Type} (R : A -> A -> Prop) (front back : list A) :
  StronglySorted R (front ++ back) ->
  StronglySorted R front
  /\ forall x y, In x front -> In y back -> R x y.
Proof.
  induction front as [|a front IH]; cbn [app]; intro S.
  - split; [constructor | intros x y []].
  - inversion S as [|? ? S' F]; subst. destruct (IH S') as [S1 B].
    apply Forall_app in F. destruct F as [F1 F2]. split.
    + now constructor.
    + intros x y [<-|I] J; [|now apply B].
      rewrite Forall_forall in F2. now apply F2.
Qed.

(** X20. The priority list of the control panel holds at most five
    trains, all of them trains of the registry whose status is Delayed or
    Critical, the most delayed first; the Delayed and Critical trains
    left out (there are some only when five are listed) are no more
    delayed than any listed one, and listed and left-out trains together
    are exactly the Delayed and Critical trains of the registry. *)
Theorem priority_list_most_delayed (trains : list Train.t) :
  exists rest,
    Permutation (priorityTrains trains ++ rest) (filter isPriority trains)
    /\ (List.length (priorityTrains trains) <= 5)%nat
    /\ (rest <> [] -> List.length (priorityTrains trains) = 5%nat)
    /\ Forall (fun train =>
                 In train trains
                 /\ (Train.status train = Delayed
                     \/ Train.status train = Critical))
              (priorityTrains trains)
    /\ StronglySorted mostDelayedFirst (priorityTrains trains)
    /\ forall listed other,
         In listed (priorityTrains trains) -> In other rest ->
         Train.delay other <= Train.delay listed.
Proof.
  unfold priorityTrains, Js.slice0.
  set (sorted := sortBy _ (filter isPriority trains)).
  assert (P : Permutation sorted (filter isPriority trains))
    by apply sortBy_permutation.
  assert (S : StronglySorted mostDelayedFirst sorted)
    by apply sortBy_sorted.
  rewrite <- (firstn_skipn 5 sorted) in S, P.
  apply sorted_split in S. destruct S as [S B].
  exists (skipn 5 sorted).
  split; [exact P|]. split; [apply firstn_le_length|]. split.
  { intro N. rewrite length_firstn. destruct (Nat.le_gt_cases 5 (List.length sorted)) as [G|G]; [lia|].
    exfalso. apply N. apply skipn_all2. lia. }
  split; [|split; [exact S | exact B]].
  apply Forall_forall. intros train I.
  assert (J : In train (filter isPriority trains)).
  { eapply Permutation_in; [exact P|]. apply in_or_app. now left. }
  apply filter_In in J. destruct J as [J K]. split; [exact J|].
  unfold isPriority in K. apply orb_true_iff in K.
  destruct K as [K|K]; apply Status_eqb_eq in K; auto.
Qed.
